(** * Credit Card Transactions Dashboard: a shallow embedding of
      [app/dashboard.py] and the properties of its loading, filtering and
      rendering steps.

    The script is a straight-line Streamlit page: [load_data] reads and cleans
    a CSV file, three sidebar widgets derive their bounds from the cleaned
    frame, a boolean mask selects the rows to plot, and three Plotly charts
    are sent to the page.

    Modelling choices.
    - A pandas [DataFrame] is an index (row labels) and an ordered list of
      named columns; a [Series] is a list of cells.  A cell is one of the
      scalars [read_csv] produces ([int], [float], [str], [bool]) or [pd.NA].
      [float] is the kernel's binary64, so NaN, infinities and signed zeros
      behave as in numpy.  Integers are integers of [Z]: the script only
      compares them, and the cast to Int64 checks that they are in range.
    - pandas, Streamlit and Plotly are external collaborators.  Their
      operations are modelled by what they compute on the frames the script
      hands them; the CSV reader, the text-to-number parser of
      [pd.to_numeric] and the exception pandas raises for a column that does
      not cast to Int64 (its class and text depend on the values) are
      parameters of the development.
    - A slider answers with the user's choice or with its default; the call
      raises when Streamlit refuses the bounds.
    - Frames are Python objects that the script mutates in place
      ([df['amt'] = ...], [dropna(inplace=True)]) and copies ([.copy()]).  The
      model keeps them in a store addressed by reference, next to the list of
      elements written to the page.
    - [st.stop()] raises Streamlit's [StopException], a [BaseException]: it
      is not caught by [except Exception] and ends the run.
    - [@st.cache_data] only memoises [load_data]; every run is modelled as a
      cache miss. *)

From Stdlib Require Import ZArith List Strings.String Strings.Ascii Floats Bool
  Lia DecimalString Sorted.
Import ListNotations.
Local Open Scope Z_scope.

(** ** Scalars and series *)

Inductive cell : Type :=
| VInt (z : Z)
| VFloat (f : float)
| VStr (s : string)
| VBool (b : bool)
| VNA.

Definition Series := list cell.

(** [Series.isnull()]: NaN and [pd.NA] are the missing values. *)
Definition isnull (c : cell) : bool :=
  match c with
  | VFloat f => PrimFloat.is_nan f
  | VNA => true
  | _ => false
  end.

(** [float(z)] for a Python / numpy integer: round to nearest binary64. *)
Definition of_Z (z : Z) : float :=
  SF2Prim (binary_normalize prec emax z 0 false).

(** The integer a float denotes, when it denotes one: the test numpy's safe
    cast performs ([casted == values]) restricted to the int64 range. *)
Definition float_to_int64 (f : float) : option Z :=
  let in_range (v : Z) := if (- 2 ^ 63 <=? v) && (v <? 2 ^ 63) then Some v else None in
  match Prim2SF f with
  | S754_zero _ => Some 0
  | S754_finite s m e =>
      let sign (v : Z) := if s then - v else v in
      if 0 <=? e then in_range (sign (Z.pos m * 2 ^ e))
      else if Z.pos m mod 2 ^ (- e) =? 0 then in_range (sign (Z.pos m / 2 ^ (- e)))
      else None
  | S754_infinity _ | S754_nan => None
  end.

(** [int(f)] for a finite float: truncation towards zero. *)
Definition float_trunc (f : float) : option Z :=
  match Prim2SF f with
  | S754_zero _ => Some 0
  | S754_finite s m e =>
      let v := if 0 <=? e then Z.pos m * 2 ^ e else Z.pos m / 2 ^ (- e) in
      Some (if s then - v else v)
  | S754_infinity _ | S754_nan => None
  end.

(** ** Exceptions and outcomes *)

Inductive exn_class : Type :=
| FileNotFoundError
| EmptyDataError
| KeyError
| TypeError
| ValueError
| OverflowError
| StreamlitAPIException
| OtherError.

Record exn : Type := mkExn { exn_kind : exn_class; exn_text : string }.

(** How a computation ends: it returns, the run is stopped by [st.stop()],
    or a Python exception propagates. *)
Inductive outcome (A : Type) : Type :=
| Returned (a : A)
| Stopped
| Raised (e : exn).
Arguments Returned {A} a.
Arguments Stopped {A}.
Arguments Raised {A} e.

Definition obind {A B : Type} (o : outcome A) (k : A -> outcome B) : outcome B :=
  match o with
  | Returned a => k a
  | Stopped => Stopped
  | Raised e => Raised e
  end.

Fixpoint traverse {A B : Type} (f : A -> outcome B) (l : list A) : outcome (list B) :=
  match l with
  | [] => Returned []
  | x :: r => obind (f x) (fun y => obind (traverse f r) (fun ys => Returned (y :: ys)))
  end.

(** ** Comparisons of scalars *)

Definition cell_to_float (c : cell) : option float :=
  match c with
  | VInt z => Some (of_Z z)
  | VFloat f => Some f
  | VBool b => Some (of_Z (Z.b2z b))
  | VStr _ | VNA => None
  end.

Definition cell_to_int (c : cell) : option Z :=
  match c with
  | VInt z => Some z
  | VBool b => Some (Z.b2z b)
  | _ => None
  end.

Definition not_supported (op : string) : exn :=
  mkExn TypeError (String.append op " not supported between these operand types").

(** [a <= b] as pandas evaluates it element by element: [pd.NA] propagates,
    two integers compare exactly, an integer and a float compare as float64
    (false when either is NaN), two strings compare lexicographically, and a
    string against a number is a [TypeError]. *)
Definition cell_le (a b : cell) : outcome (option bool) :=
  match a, b with
  | VNA, _ | _, VNA => Returned None
  | VStr s, VStr t => Returned (Some (String.leb s t))
  | VStr _, _ | _, VStr _ => Raised (not_supported "'<='")
  | _, _ =>
      match cell_to_int a, cell_to_int b with
      | Some x, Some y => Returned (Some (x <=? y))
      | _, _ =>
          match cell_to_float a, cell_to_float b with
          | Some x, Some y => Returned (Some (PrimFloat.leb x y))
          | _, _ => Raised (not_supported "'<='")
          end
      end
  end.

(** [a < b] between two Python objects, as [sorted] and [min] use it. *)
Definition cell_lt (a b : cell) : outcome bool :=
  match a, b with
  | VStr s, VStr t => Returned (String.ltb s t)
  | VStr _, _ | _, VStr _ | VNA, _ | _, VNA => Raised (not_supported "'<'")
  | _, _ =>
      match cell_to_int a, cell_to_int b with
      | Some x, Some y => Returned (x <? y)
      | _, _ =>
          match cell_to_float a, cell_to_float b with
          | Some x, Some y => Returned (PrimFloat.ltb x y)
          | _, _ => Raised (not_supported "'<'")
          end
      end
  end.

(** Equality of two values as the hash tables behind [unique] and [isin] see
    it: strings by content, numbers by value, and a missing value equal to a
    missing value. *)
Definition cell_eqb (a b : cell) : bool :=
  match a, b with
  | VStr s, VStr t => String.eqb s t
  | VStr _, _ | _, VStr _ => false
  | VNA, VNA => true
  | VNA, _ | _, VNA => false
  | _, _ =>
      match cell_to_int a, cell_to_int b with
      | Some x, Some y => x =? y
      | _, _ =>
          match cell_to_float a, cell_to_float b with
          | Some x, Some y => PrimFloat.eqb x y || (PrimFloat.is_nan x && PrimFloat.is_nan y)
          | _, _ => false
          end
      end
  end.

(** ** Frames *)

Record DataFrame : Type := mkDataFrame {
  index : list nat;                      (* row labels *)
  columns : list (string * Series)       (* column name, column data *)
}.

(** [pd.DataFrame()] *)
Definition empty_frame : DataFrame := mkDataFrame [] [].

Definition column_names (d : DataFrame) : list string := map fst (columns d).

(** [col in df.columns] *)
Definition has_column (col : string) (d : DataFrame) : bool :=
  existsb (String.eqb col) (column_names d).

Fixpoint assoc (col : string) (cs : list (string * Series)) : option Series :=
  match cs with
  | [] => None
  | (n, s) :: r => if String.eqb col n then Some s else assoc col r
  end.

(** [df[col]] *)
Definition getitem (col : string) (d : DataFrame) : outcome Series :=
  match assoc col (columns d) with
  | Some s => Returned s
  | None => Raised (mkExn KeyError col)
  end.

Fixpoint replace_column (col : string) (s : Series) (cs : list (string * Series))
  : list (string * Series) :=
  match cs with
  | [] => [(col, s)]
  | (n, old) :: r =>
      if String.eqb col n then (n, s) :: r else (n, old) :: replace_column col s r
  end.

(** [df[col] = s]: an existing column is overwritten where it stands, a new
    one is appended. *)
Definition setitem (col : string) (s : Series) (d : DataFrame) : DataFrame :=
  mkDataFrame (index d) (replace_column col s (columns d)).

(** [len(df)] *)
Definition len (d : DataFrame) : nat := List.length (index d).

(** [df.empty]: some axis has length zero. *)
Definition empty (d : DataFrame) : bool :=
  (len d =? 0)%nat || (List.length (columns d) =? 0)%nat.

(** Positional selection by a boolean mask. *)
Fixpoint select {A : Type} (mask : list bool) (xs : list A) : list A :=
  match mask, xs with
  | b :: m, x :: r => if b then x :: select m r else select m r
  | _, _ => []
  end.

Definition take_rows (mask : list bool) (d : DataFrame) : DataFrame :=
  mkDataFrame (select mask (index d))
              (map (fun c => (fst c, select mask (snd c))) (columns d)).

(** Row [i] of a frame: its label and its cell in each column, in column
    order. *)
Abbreviation row := (nat * list (string * cell))%type (only parsing).

Fixpoint transpose (n : nat) (cs : list (string * Series)) : list (list (string * cell)) :=
  match cs with
  | [] => repeat [] n
  | (name, s) :: r =>
      map (fun p => (name, fst p) :: snd p) (combine s (transpose n r))
  end.

Definition rows (d : DataFrame) : list row :=
  combine (index d) (transpose (len d) (columns d)).

Fixpoint field (col : string) (r : list (string * cell)) : option cell :=
  match r with
  | [] => None
  | (n, c) :: t => if String.eqb col n then Some c else field col t
  end.

(** A frame is well formed when every column is as long as the index and no
    column name repeats ([read_csv] renames duplicates). *)
Definition well_formed (d : DataFrame) : Prop :=
  Forall (fun c => List.length (snd c) = len d) (columns d) /\
  NoDup (column_names d).

(** ** pandas operations used by the loader *)

Inductive num : Type :=
| NInt (z : Z)
| NFloat (f : float).

Definition num_is_int (n : num) : bool :=
  match n with NInt _ => true | NFloat _ => false end.

Definition num_to_float (n : num) : float :=
  match n with NInt z => of_Z z | NFloat f => f end.

Definition num_to_cell (n : num) : cell :=
  match n with NInt z => VInt z | NFloat f => VFloat f end.

Definition is_bool (c : cell) : bool :=
  match c with VBool _ => true | _ => false end.

Section Pandas.

(** The parser [pd.to_numeric] applies to text: [Some] number when the text
    is a numeric literal, [None] otherwise. *)
Variable str_to_num : string -> option num.

(** One element under [errors='coerce']: what cannot be converted is NaN. *)
Definition coerce (c : cell) : num :=
  match c with
  | VInt z => NInt z
  | VFloat f => NFloat f
  | VBool b => NInt (Z.b2z b)
  | VStr s => match str_to_num s with Some n => n | None => NFloat nan end
  | VNA => NFloat nan
  end.

(** [pd.to_numeric(s, errors='coerce')].  A numeric column is returned as it
    is (a bool column included); otherwise the result is int64 when every
    element converts to an integer and float64 as soon as one element is a
    float or NaN, in which case the integers are converted too. *)
Definition to_numeric (s : Series) : Series :=
  if forallb is_bool s then s
  else
    let ns := map coerce s in
    if forallb num_is_int ns then map num_to_cell ns
    else map (fun n => VFloat (num_to_float n)) ns.

End Pandas.

(** What pandas raises when a column does not cast to Int64.  It is a
    [TypeError] or an [OverflowError], and its text depends on the values
    (on whether the greatest one is fractional or infinite, for one): both
    are pandas's own and are taken as given, as a function of the column.
    Neither class is one the loader names, so the exception reaches its
    last handler. *)
Record cast_failure : Type := mkCastFailure {
  is_overflow : bool;
  cast_text : string
}.

Definition cast_exn (f : cast_failure) : exn :=
  mkExn (if is_overflow f then OverflowError else TypeError) (cast_text f).

Definition in_int64 (z : Z) : bool := (- 2 ^ 63 <=? z) && (z <? 2 ^ 63).

(** One element of [.astype('Int64')]: NaN becomes [pd.NA], an integer of
    int64 stays, a float that is such an integer becomes it, and nothing else
    casts ([None]).  Text does not occur: the column comes from
    [pd.to_numeric]. *)
Definition cast_Int64 (c : cell) : option cell :=
  match c with
  | VInt z => if in_int64 z then Some (VInt z) else None
  | VBool b => Some (VInt (Z.b2z b))
  | VNA => Some VNA
  | VFloat f =>
      if PrimFloat.is_nan f then Some VNA
      else option_map VInt (float_to_int64 f)
  | VStr _ => None
  end.

Fixpoint cast_each (s : Series) : option Series :=
  match s with
  | [] => Some []
  | c :: r =>
      match cast_Int64 c, cast_each r with
      | Some v, Some vs => Some (v :: vs)
      | _, _ => None
      end
  end.

(** [.astype('Int64')]: every element casts, or the whole cast fails. *)
Definition astype_Int64 (cast_error : Series -> cast_failure) (s : Series)
  : outcome Series :=
  match cast_each s with
  | Some r => Returned r
  | None => Raised (cast_exn (cast_error s))
  end.

(** One element of [.astype(bool)]: Python truthiness.  Zero is false, every
    other number is true (NaN included), the empty string is false. *)
Definition truthy (c : cell) : outcome bool :=
  match c with
  | VInt z => Returned (negb (z =? 0))
  | VFloat f => Returned (negb (PrimFloat.eqb f 0))
  | VStr s => Returned (negb (String.eqb s ""))
  | VBool b => Returned b
  | VNA => Raised (mkExn TypeError "boolean value of NA is ambiguous")
  end.

Definition astype_bool (s : Series) : outcome Series :=
  traverse (fun c => obind (truthy c) (fun b => Returned (VBool b))) s.

Fixpoint map2 {A B C : Type} (f : A -> B -> C) (l : list A) (m : list B) : list C :=
  match l, m with
  | x :: l', y :: m' => f x y :: map2 f l' m'
  | _, _ => []
  end.

(** [df.dropna(subset=cols)]: the rows with no missing value in any of the
    named columns ([KeyError] when a name is not a column). *)
Fixpoint notna_mask (cols : list string) (d : DataFrame) : outcome (list bool) :=
  match cols with
  | [] => Returned (repeat true (len d))
  | col :: rest =>
      obind (getitem col d) (fun s =>
      obind (notna_mask rest d) (fun m =>
      Returned (map2 andb (map (fun c => negb (isnull c)) s) m)))
  end.

Definition dropna (cols : list string) (d : DataFrame) : outcome DataFrame :=
  obind (notna_mask cols d) (fun m => Returned (take_rows m d)).

(** ** The page and the store *)

(** A chart specification handed to [st.plotly_chart].  The frame is the
    data the chart is built from.  Histogram binning and the box statistics
    are Plotly's; the heat map is built from the count of rows per
    (hour, weekday) group of the frame, [groupby(['hour', 'weekday']).size()]
    of line 146, which the figure keeps symbolic. *)
Inductive figure : Type :=
| px_histogram (data : DataFrame) (x : string) (nbins : nat) (title : string)
| px_density_heatmap (grouped_from : DataFrame) (x y z : string) (title : string)
| px_box (data : DataFrame) (x y points : string) (title : string).

(** What a run writes to the page, in order. *)
Inductive ui_event : Type :=
| SetPageConfig (page_title layout : string)
| StTitle (text : string)
| StError (text : string)
| StWarning (text : string)
| StInfo (text : string)
| StMarkdown (text : string)
| StSubheader (text : string)
| SidebarHeader (text : string)
| SidebarSliderInt (label : string) (min_value max_value : Z) (value : Z * Z)
| SidebarSliderFloat (label : string) (min_value max_value : float) (value : float * float)
| SidebarMultiselect (label : string) (options default : list cell)
| PlotlyChart (fig : figure).

Definition loc : Type := nat.

Record state : Type := mkState {
  heap : list DataFrame;     (* the frame objects, by reference *)
  page : list ui_event       (* the elements written so far *)
}.

Definition script (A : Type) : Type := state -> outcome A * state.

Definition ret {A : Type} (a : A) : script A := fun st => (Returned a, st).

Definition bind {A B : Type} (m : script A) (k : A -> script B) : script B :=
  fun st =>
    match m st with
    | (Returned a, st') => k a st'
    | (Stopped, st') => (Stopped, st')
    | (Raised e, st') => (Raised e, st')
    end.

Declare Scope script_scope.
Delimit Scope script_scope with script.
Notation "x <- m ;; k" := (bind m (fun x => k))
  (at level 61, m at next level, right associativity) : script_scope.
Notation "m ;; k" := (bind m (fun _ => k))
  (at level 61, right associativity) : script_scope.
Local Open Scope script_scope.

(** A pandas call: its outcome, the store untouched. *)
Definition lift {A : Type} (o : outcome A) : script A := fun st => (o, st).

(** [st.stop()] *)
Definition st_stop {A : Type} : script A := fun st => (Stopped, st).

(** [try: body except ...: handler]: only a raised exception reaches the
    handler. *)
Definition try_except {A : Type} (body : script A) (handler : exn -> script A)
  : script A :=
  fun st =>
    match body st with
    | (Raised e, st') => handler e st'
    | r => r
    end.

Definition emit (e : ui_event) : script unit :=
  fun st => (Returned tt, mkState (heap st) (page st ++ [e])).

(** A new frame object. *)
Definition new_frame (d : DataFrame) : script loc :=
  fun st => (Returned (List.length (heap st)), mkState (heap st ++ [d]) (page st)).

Definition dangling : exn := mkExn OtherError "reference to no object".

(** The frame a reference denotes.  A Python reference always denotes an
    object; the other case only makes the function total. *)
Definition frame (l : loc) : script DataFrame :=
  fun st =>
    match nth_error (heap st) l with
    | Some d => (Returned d, st)
    | None => (Raised dangling, st)
    end.

Fixpoint update {A : Type} (l : list A) (n : nat) (x : A) : list A :=
  match l, n with
  | [], _ => []
  | _ :: r, O => x :: r
  | y :: r, S n' => y :: update r n' x
  end.

(** In-place mutation of the frame a reference denotes. *)
Definition mutate (l : loc) (f : DataFrame -> outcome DataFrame) : script unit :=
  d <- frame l ;;
  d' <- lift (f d) ;;
  fun st => (Returned tt, mkState (update (heap st) l d') (page st)).

(** [df.copy()]: a new object with the same contents. *)
Definition copy (l : loc) : script loc := d <- frame l ;; new_frame d.

Definition df_getitem (df : loc) (col : string) : script Series :=
  d <- frame df ;; lift (getitem col d).

Definition df_setitem (df : loc) (col : string) (s : Series) : script unit :=
  mutate df (fun d => Returned (setitem col s d)).

Definition df_len (df : loc) : script nat := d <- frame df ;; ret (len d).

Fixpoint for_each {A : Type} (l : list A) (body : A -> script unit) : script unit :=
  match l with
  | [] => ret tt
  | x :: r => body x ;; for_each r body
  end.

(** ** pandas and Python operations used by the filters *)

(** [Series.min()] and [Series.max()]: missing values are skipped; a series
    with no value left has no minimum (pandas answers with a missing value;
    the script asks only after [isnull().all()] said otherwise). *)
Fixpoint reduce (pick : cell -> cell -> outcome cell) (acc : cell) (l : list cell)
  : outcome cell :=
  match l with
  | [] => Returned acc
  | c :: r => obind (pick acc c) (fun acc' => reduce pick acc' r)
  end.

Definition smaller (a b : cell) : outcome cell :=
  obind (cell_lt b a) (fun lt => Returned (if lt then b else a)).

Definition larger (a b : cell) : outcome cell :=
  obind (cell_lt a b) (fun lt => Returned (if lt then b else a)).

Definition notnull (s : Series) : list cell := filter (fun c => negb (isnull c)) s.

Definition series_min (s : Series) : outcome cell :=
  match notnull s with
  | [] => Returned VNA
  | c :: r => reduce smaller c r
  end.

Definition series_max (s : Series) : outcome cell :=
  match notnull s with
  | [] => Returned VNA
  | c :: r => reduce larger c r
  end.

(** [int(x)] and [float(x)] on a scalar taken from a numeric column.  Text
    does not occur there: [load_data] has made both columns numeric. *)
Definition py_int (c : cell) : outcome Z :=
  match c with
  | VInt z => Returned z
  | VBool b => Returned (Z.b2z b)
  | VFloat f =>
      match float_trunc f with
      | Some z => Returned z
      | None => Raised (mkExn ValueError "cannot convert float NaN or infinity to integer")
      end
  | VStr _ => Raised (mkExn ValueError "invalid literal for int()")
  | VNA => Raised (mkExn TypeError "int() argument must be a number, not 'NAType'")
  end.

Definition py_float (c : cell) : outcome float :=
  match c with
  | VInt z => Returned (of_Z z)
  | VBool b => Returned (of_Z (Z.b2z b))
  | VFloat f => Returned f
  | VStr _ => Raised (mkExn ValueError "could not convert string to float")
  | VNA => Raised (mkExn TypeError "float() argument must be a number, not 'NAType'")
  end.

(** [Series.unique()]: the distinct values in order of first appearance. *)
Fixpoint unique_from (seen : list cell) (s : Series) : list cell :=
  match s with
  | [] => []
  | c :: r =>
      if existsb (cell_eqb c) seen then unique_from seen r
      else c :: unique_from (c :: seen) r
  end.

Definition unique (s : Series) : list cell := unique_from [] s.

(** [sorted(l)]: a stable sort that only asks [<]; comparing a string with a
    number raises [TypeError].  Elements are inserted from left to right, each
    after the elements it is not smaller than.  Where [<] orders the values
    (text, as the categories are) every stable sort gives this list; with a
    NaN among numbers the order Python leaves depends on the comparisons its
    own algorithm makes, and is not what is computed here. *)
Fixpoint insert (x : cell) (l : list cell) : outcome (list cell) :=
  match l with
  | [] => Returned [x]
  | y :: r =>
      obind (cell_lt x y) (fun lt =>
        if lt then Returned (x :: y :: r)
        else obind (insert x r) (fun r' => Returned (y :: r')))
  end.

Fixpoint sorted_into (acc : list cell) (l : list cell) : outcome (list cell) :=
  match l with
  | [] => Returned acc
  | x :: r => obind (insert x acc) (fun acc' => sorted_into acc' r)
  end.

Definition sorted (l : list cell) : outcome (list cell) := sorted_into [] l.

(** [s >= v] and [s <= v] against a scalar, element by element. *)
Definition series_ge (s : Series) (v : cell) : outcome (list (option bool)) :=
  traverse (fun c => cell_le v c) s.

Definition series_le (s : Series) (v : cell) : outcome (list (option bool)) :=
  traverse (fun c => cell_le c v) s.

(** [s.isin(values)] *)
Definition isin (s : Series) (values : list cell) : list (option bool) :=
  map (fun c => Some (existsb (cell_eqb c) values)) s.

(** [&] on (nullable) boolean masks: Kleene conjunction. *)
Definition kleene_and (a b : option bool) : option bool :=
  match a, b with
  | Some false, _ | _, Some false => Some false
  | Some true, Some true => Some true
  | _, _ => None
  end.

Definition mask_and (m n : list (option bool)) : list (option bool) :=
  map2 kleene_and m n.

(** [df[mask]]: the rows whose mask entry is true; a missing entry counts as
    false. *)
Definition is_true (b : option bool) : bool :=
  match b with Some true => true | _ => false end.

Definition boolean_index (mask : list (option bool)) (d : DataFrame) : DataFrame :=
  take_rows (map is_true mask) d.

(** ** The script *)

(** What [pd.read_csv] does with a path: a frame, or an exception
    ([FileNotFoundError], [EmptyDataError], a parser error, ...). *)
Inductive csv_result : Type :=
| CsvFrame (d : DataFrame)
| CsvRaises (e : exn).

(** The state of the three sidebar widgets: [None] while the user has not
    touched a widget (it then returns its default value). *)
Record user_input : Type := mkInput {
  chosen_hours : option (Z * Z);
  chosen_amounts : option (float * float);
  chosen_categories : option (list cell)
}.

Definition decimal (n : nat) : string := NilEmpty.string_of_uint (Nat.to_uint n).

Definition required_columns : list string := ["hour"; "amt"; "category"; "weekday"]%string.

Definition missing_column_message (col : string) : string :=
  ("Error: Required column '" ++ col ++ "' not found in the CSV file.")%string.

Definition removed_rows_message (n : nat) : string :=
  ("Removed " ++ decimal n
   ++ " rows due to missing or invalid 'amt' or 'hour' values.")%string.

Definition file_not_found_message (file_path : string) : string :=
  ("Error: The file '" ++ file_path ++ "' was not found.")%string.

Definition project_layout_help : string :=
"
        **Please ensure your project structure matches the following:**
        ```
        credit-card-analysis/
        ├── app/
        │   └── dashboard.py  <- This script
        └── data/
            └── cleansed/
                └── fraudTest_clean.csv <- Your data file
        ```
        If your file is in a different location, you might need to adjust the `file_path`
        variable in the `load_data` function.
        ".

Definition empty_file_message (file_path : string) : string :=
  ("Error: The file '" ++ file_path ++ "' is empty.")%string.

Definition unexpected_error_message (e : exn) : string :=
  ("An unexpected error occurred while loading or processing data: "
   ++ exn_text e)%string.

Definition no_data_message : string :=
  "No data available to display visualizations. Please check your data file.".

Definition no_match_message : string :=
  "No data matches the current filter selections. Please adjust your filters.".

Definition fraud_unavailable_message : string :=
  "The 'is_fraud' column is not available or contains no valid data in the filtered dataset for the 'Fraud vs Non-Fraud Amounts' visualization.".

(** The error of a slider whose bounds Streamlit refuses.  The text
    Streamlit gives it is not modelled: nothing in the script reads it. *)
Definition slider_refused : exn :=
  mkExn StreamlitAPIException "invalid slider bounds".

Definition file_path_to_csv : string := "data/cleansed/FraudTest_clean.csv".

Section Dashboard.

Variable pd_read_csv : string -> csv_result.
Variable str_to_num : string -> option num.
Variable cast_error : Series -> cast_failure.

Definition read_csv (file_path : string) : script loc :=
  match pd_read_csv file_path with
  | CsvFrame d => new_frame d
  | CsvRaises e => lift (Raised e)
  end.

(** Lines 16-67. *)
Definition load_data (file_path : string) : script loc :=
  try_except
    (df <- read_csv file_path ;;
     for_each required_columns (fun col =>
       d <- frame df ;;
       if negb (has_column col d)
       then emit (StError (missing_column_message col)) ;; st_stop
       else ret tt) ;;
     amt <- df_getitem df "amt" ;;
     df_setitem df "amt" (to_numeric str_to_num amt) ;;
     hour <- df_getitem df "hour" ;;
     hour64 <- lift (astype_Int64 cast_error (to_numeric str_to_num hour)) ;;
     df_setitem df "hour" hour64 ;;
     initial_rows <- df_len df ;;
     mutate df (dropna ["amt"; "hour"]%string) ;;
     remaining <- df_len df ;;
     (if (remaining <? initial_rows)%nat
      then emit (StWarning (removed_rows_message (initial_rows - remaining)))
      else ret tt) ;;
     d <- frame df ;;
     (if has_column "is_fraud" d
      then is_fraud <- df_getitem df "is_fraud" ;;
           flags <- lift (astype_bool is_fraud) ;;
           df_setitem df "is_fraud" flags
      else ret tt) ;;
     ret df)
    (fun e =>
       match exn_kind e with
       | FileNotFoundError =>
           emit (StError (file_not_found_message file_path)) ;;
           emit (StMarkdown project_layout_help) ;;
           st_stop
       | EmptyDataError =>
           emit (StError (empty_file_message file_path)) ;;
           st_stop
       | _ =>
           emit (StError (unexpected_error_message e)) ;;
           st_stop
       end).

(** [st.sidebar.slider] and [st.sidebar.multiselect]: the widget is drawn
    with the arguments of the call and answers with the user's choice, or
    with its default.  Streamlit refuses a slider whose bounds leave no
    range ([min_value] not below [max_value]) or are numbers JavaScript
    cannot hold (an integer beyond 2^53 - 1 in magnitude, an infinite
    float): the call raises a [StreamlitAPIException] and nothing is drawn.
    The script does not catch it, so the run ends there. *)
Definition js_safe_int (z : Z) : bool :=
  (- (2 ^ 53 - 1) <=? z) && (z <=? 2 ^ 53 - 1).

Definition sidebar_slider_int (label : string) (min_value max_value : Z)
  (value : Z * Z) (chosen : option (Z * Z)) : script (Z * Z) :=
  if (min_value <? max_value) && js_safe_int min_value && js_safe_int max_value
  then
    emit (SidebarSliderInt label min_value max_value value) ;;
    ret (match chosen with Some v => v | None => value end)
  else lift (Raised slider_refused).

Definition sidebar_slider_float (label : string) (min_value max_value : float)
  (value : float * float) (chosen : option (float * float)) : script (float * float) :=
  if PrimFloat.ltb min_value max_value
     && negb (PrimFloat.is_infinity min_value)
     && negb (PrimFloat.is_infinity max_value)
  then
    emit (SidebarSliderFloat label min_value max_value value) ;;
    ret (match chosen with Some v => v | None => value end)
  else lift (Raised slider_refused).

Definition sidebar_multiselect (label : string) (options default : list cell)
  (chosen : option (list cell)) : script (list cell) :=
  emit (SidebarMultiselect label options default) ;;
  ret (match chosen with Some v => v | None => default end).

(** Lines 82-90. *)
Definition time_range (df : loc) (inp : user_input) : script (Z * Z) :=
  hour <- df_getitem df "hour" ;;
  min_hour <- (if negb (forallb isnull hour) then lift (series_min hour)
               else ret (VInt 0)) ;;
  max_hour <- (if negb (forallb isnull hour) then lift (series_max hour)
               else ret (VInt 23)) ;;
  lo <- lift (py_int min_hour) ;;
  hi <- lift (py_int max_hour) ;;
  sidebar_slider_int "Hour Range" lo hi (lo, hi) (chosen_hours inp).

(** Lines 92-100. *)
Definition amount_range (df : loc) (inp : user_input) : script (float * float) :=
  amt <- df_getitem df "amt" ;;
  min_amt <- (if negb (forallb isnull amt)
              then m <- lift (series_min amt) ;; lift (py_float m)
              else ret 0%float) ;;
  max_amt <- (if negb (forallb isnull amt)
              then m <- lift (series_max amt) ;; lift (py_float m)
              else ret 1000%float) ;;
  sidebar_slider_float "Transaction Amount Range" min_amt max_amt
    (min_amt, max_amt) (chosen_amounts inp).

(** Line 103. *)
Definition unique_categories (df : loc) : script (list cell) :=
  category <- df_getitem df "category" ;;
  lift (sorted (unique category)).

(** Lines 104-108. *)
Definition merchant_category (options : list cell) (inp : user_input)
  : script (list cell) :=
  sidebar_multiselect "Merchant Category" options options (chosen_categories inp).

(** Lines 113-119: the mask and the copy of the selected rows. *)
Definition apply_filters (df : loc) (hours : Z * Z) (amounts : float * float)
  (categories : list cell) : script loc :=
  hour <- df_getitem df "hour" ;;
  m1 <- lift (series_ge hour (VInt (fst hours))) ;;
  hour' <- df_getitem df "hour" ;;
  m2 <- lift (series_le hour' (VInt (snd hours))) ;;
  amt <- df_getitem df "amt" ;;
  m3 <- lift (series_ge amt (VFloat (fst amounts))) ;;
  amt' <- df_getitem df "amt" ;;
  m4 <- lift (series_le amt' (VFloat (snd amounts))) ;;
  category <- df_getitem df "category" ;;
  let m5 := isin category categories in
  d <- frame df ;;
  selected <- new_frame
    (boolean_index (mask_and (mask_and (mask_and (mask_and m1 m2) m3) m4) m5) d) ;;
  copy selected.

(** Lines 112-122. *)
Definition df_filtered (df : loc) (hours : Z * Z) (amounts : float * float)
  (categories : list cell) : script loc :=
  d <- frame df ;;
  if negb (empty d) then apply_filters df hours amounts categories
  else
    f <- new_frame empty_frame ;;
    emit (StWarning no_data_message) ;;
    ret f.

(** Plotly Express refuses a column argument that names no column of the
    frame, and [groupby] a key that names none. *)
Definition px_columns (cols : list string) (d : DataFrame) : outcome unit :=
  if forallb (fun col => has_column col d) cols then Returned tt
  else Raised (mkExn ValueError
                 "Value of a column argument is not the name of a column in 'data_frame'").

Definition groupby_keys (keys : list string) (d : DataFrame) : outcome unit :=
  obind (traverse (fun key => getitem key d) keys) (fun _ => Returned tt).

(** Lines 126-168. *)
Definition visualizations (df filtered : loc) : script unit :=
  f <- frame filtered ;;
  if negb (empty f) then
    emit (StSubheader "Transaction Amount Distribution") ;;
    lift (px_columns ["amt"]%string f) ;;
    emit (PlotlyChart (px_histogram f "amt" 50 "Transaction Amount Distribution")) ;;
    emit (StSubheader "Transactions by Hour and Weekday") ;;
    lift (groupby_keys ["hour"; "weekday"]%string f) ;;
    emit (PlotlyChart (px_density_heatmap f "hour" "weekday" "count"
                         "Transaction Volume by Hour & Weekday")) ;;
    d <- frame df ;;
    has_fraud <- (if has_column "is_fraud" d
                  then is_fraud <- df_getitem filtered "is_fraud" ;;
                       ret (negb (forallb isnull is_fraud))
                  else ret false) ;;
    if has_fraud then
      emit (StSubheader "Fraud vs Non-Fraud Amounts") ;;
      lift (px_columns ["is_fraud"; "amt"]%string f) ;;
      emit (PlotlyChart (px_box f "is_fraud" "amt" "all" "Fraud vs Non-Fraud Amounts"))
    else
      emit (StInfo fraud_unavailable_message)
  else
    emit (StWarning no_match_message).

(** The whole page, top to bottom. *)
Definition dashboard (inp : user_input) : script unit :=
  emit (SetPageConfig "Credit Card Transactions Dashboard" "wide") ;;
  emit (StTitle "💳 Credit Card Transactions Dashboard") ;;
  df <- load_data file_path_to_csv ;;
  emit (SidebarHeader "Filters") ;;
  hours <- time_range df inp ;;
  amounts <- amount_range df inp ;;
  options <- unique_categories df ;;
  categories <- merchant_category options inp ;;
  filtered <- df_filtered df hours amounts categories ;;
  visualizations df filtered.

End Dashboard.

Definition initial : state := mkState [] [].

(** ** Specification vocabulary *)

(** The class of the exception a computation ended with, if it did. *)
Definition raised_kind {A : Type} (o : outcome A) : option exn_class :=
  match o with
  | Raised e => Some (exn_kind e)
  | _ => None
  end.

(** The cell of a row in a column ([pd.NA] stands for a column the row does
    not have). *)
Definition cell_of (col : string) (r : row) : cell :=
  match field col (snd r) with
  | Some c => c
  | None => VNA
  end.

(** The element types of the two numeric columns after loading: [hour] is a
    nullable Int64 column, [amt] a numeric one. *)
Definition int64_cell (c : cell) : Prop :=
  match c with VInt _ | VNA => True | _ => False end.

Definition numeric_cell (c : cell) : Prop :=
  match c with VInt _ | VFloat _ | VBool _ => True | _ => False end.

(** A transaction dataset: a well-formed frame with an Int64 [hour] column,
    a numeric [amt] column and a [category] column. *)
Record dataset (d : DataFrame) : Prop := mkDataset {
  ds_well_formed : well_formed d;
  ds_hour : exists s, getitem "hour" d = Returned s /\ Forall int64_cell s;
  ds_amt : exists s, getitem "amt" d = Returned s /\ Forall numeric_cell s;
  ds_category : exists s : Series, getitem "category" d = Returned s
}.

(** Text cells and their order: [str] values compare by code point, that is
    byte by byte in UTF-8. *)
Definition is_text (c : cell) : Prop :=
  match c with VStr _ => True | _ => False end.

Definition text_lt (a b : cell) : Prop :=
  match a, b with
  | VStr s, VStr t => String.ltb s t = true
  | _, _ => False
  end.

(** The three-part row predicate of the filter selection. *)
Definition hour_within (lo hi : Z) (c : cell) : Prop :=
  exists h, c = VInt h /\ lo <= h <= hi.

Definition amt_within (lo hi : float) (c : cell) : Prop :=
  exists x, cell_to_float c = Some x /\
            PrimFloat.leb lo x = true /\ PrimFloat.leb x hi = true.

Definition category_selected (categories : list cell) (c : cell) : Prop :=
  exists t, In t categories /\ cell_eqb c t = true.

Definition satisfies (hours : Z * Z) (amounts : float * float)
  (categories : list cell) (r : row) : Prop :=
  exists h a c,
    field "hour" (snd r) = Some h /\
    field "amt" (snd r) = Some a /\
    field "category" (snd r) = Some c /\
    hour_within (fst hours) (snd hours) h /\
    amt_within (fst amounts) (snd amounts) a /\
    category_selected categories c.

(** The same predicate, decided. *)
Definition hour_withinb (lo hi : Z) (c : cell) : bool :=
  match c with
  | VInt h => (lo <=? h) && (h <=? hi)
  | _ => false
  end.

Definition amt_withinb (lo hi : float) (c : cell) : bool :=
  match cell_to_float c with
  | Some x => PrimFloat.leb lo x && PrimFloat.leb x hi
  | None => false
  end.

Definition satisfiesb (hours : Z * Z) (amounts : float * float)
  (categories : list cell) (r : row) : bool :=
  match field "hour" (snd r), field "amt" (snd r), field "category" (snd r) with
  | Some h, Some a, Some c =>
      hour_withinb (fst hours) (snd hours) h
      && amt_withinb (fst amounts) (snd amounts) a
      && existsb (cell_eqb c) categories
  | _, _, _ => false
  end.

(** [l] is [k] with some elements left out, the others in their order. *)
Inductive subsequence {A : Type} : list A -> list A -> Prop :=
| subsequence_nil : subsequence [] []
| subsequence_skip (x : A) (l k : list A) :
    subsequence l k -> subsequence l (x :: k)
| subsequence_keep (x : A) (l k : list A) :
    subsequence l k -> subsequence (x :: l) (x :: k).

(** The first required column a frame lacks, in the order of the check. *)
Definition first_missing (d : DataFrame) : option string :=
  find (fun col => negb (has_column col d)) required_columns.

(** The loader's cleaning steps as functions of the frame: the coercion of
    [amt] and [hour] (lines 31-32) and the normalisation of [is_fraud] when
    the column is there (lines 41-43); between them comes
    [dropna ["amt"; "hour"]] (line 36). *)
Definition with_flags (d : DataFrame) : outcome DataFrame :=
  if has_column "is_fraud" d
  then obind (getitem "is_fraud" d) (fun is_fraud =>
       obind (astype_bool is_fraud) (fun flags =>
       Returned (setitem "is_fraud" flags d)))
  else Returned d.

Definition coerce_columns (str_to_num : string -> option num)
  (cast_error : Series -> cast_failure) (raw : DataFrame) : outcome DataFrame :=
  obind (getitem "amt" raw) (fun amt =>
  let d1 := setitem "amt" (to_numeric str_to_num amt) raw in
  obind (getitem "hour" d1) (fun hour =>
  obind (astype_Int64 cast_error (to_numeric str_to_num hour)) (fun hour64 =>
  Returned (setitem "hour" hour64 d1)))).

(** The warning the loader writes, if any, when [remaining] of [initial_rows]
    rows are left. *)
Definition removed_rows_warning (initial_rows remaining : nat) : list ui_event :=
  if (remaining <? initial_rows)%nat
  then [StWarning (removed_rows_message (initial_rows - remaining))]
  else [].

(** The rows [dropna(subset=['amt', 'hour'])] keeps, as a mask over the
    rows of the coerced frame. *)
Definition complete (r : row) : bool :=
  negb (isnull (cell_of "amt" r)) && negb (isnull (cell_of "hour" r)).

Definition retained (coerced : DataFrame) : list bool :=
  map complete (rows coerced).

(** What normalising [is_fraud] to boolean means for one source value: zero
    and the empty text are false, every other number or text is true, and a
    boolean stays what it is. *)
Inductive normalised : cell -> cell -> Prop :=
| normalised_int_zero : normalised (VInt 0) (VBool false)
| normalised_int_nonzero (z : Z) : z <> 0 -> normalised (VInt z) (VBool true)
| normalised_float_zero (f : float) :
    PrimFloat.eqb f 0 = true -> normalised (VFloat f) (VBool false)
| normalised_float_nonzero (f : float) :
    PrimFloat.eqb f 0 = false -> normalised (VFloat f) (VBool true)
| normalised_text_empty : normalised (VStr "") (VBool false)
| normalised_text_nonempty (s : string) :
    s <> EmptyString -> normalised (VStr s) (VBool true)
| normalised_bool (b : bool) : normalised (VBool b) (VBool b).

Definition is_flag (c : cell) : Prop :=
  match c with VBool _ => True | _ => False end.


(** The two charts every non-empty filtered dataset gets. *)
Definition amount_and_volume_charts (f : DataFrame) : list ui_event :=
  [StSubheader "Transaction Amount Distribution";
   PlotlyChart (px_histogram f "amt" 50 "Transaction Amount Distribution");
   StSubheader "Transactions by Hour and Weekday";
   PlotlyChart (px_density_heatmap f "hour" "weekday" "count"
                  "Transaction Volume by Hour & Weekday")].

(** The condition of line 159: the loaded frame has an [is_fraud] column and
    the filtered frame has a value in it. *)
Definition fraud_available (d f : DataFrame) : Prop :=
  has_column "is_fraud" d = true /\
  exists s c, getitem "is_fraud" f = Returned s /\ In c s /\ isnull c = false.

(** The order of float64 values.  A float that is not NaN has a place on the
    number line, given here as a key compared lexicographically: the sign
    class first (minus infinity, negative, zero, positive, infinity), then
    the exponent and the significand, both negated for a negative float.
    [<=] and [<] on floats are the orders of the keys. *)
Definition float_key (x : spec_float) : Z * Z * Z :=
  match x with
  | S754_zero _ | S754_nan => (0, 0, 0)
  | S754_infinity s => (if s then -2 else 2, 0, 0)
  | S754_finite s m e => if s then (-1, - e, - Z.pos m) else (1, e, Z.pos m)
  end.

Definition key_le (a b : Z * Z * Z) : Prop :=
  let '(a1, a2, a3) := a in
  let '(b1, b2, b3) := b in
  a1 < b1 \/ (a1 = b1 /\ (a2 < b2 \/ (a2 = b2 /\ a3 <= b3))).

Definition key_lt (a b : Z * Z * Z) : Prop :=
  let '(a1, a2, a3) := a in
  let '(b1, b2, b3) := b in
  a1 < b1 \/ (a1 = b1 /\ (a2 < b2 \/ (a2 = b2 /\ a3 < b3))).

(** The element type of a float64 column. *)
Definition float_cell (c : cell) : Prop :=
  match c with VFloat _ => True | _ => False end.

(** What the three widgets answer: the user's choice, or the default the
    widget was drawn with. *)
Definition selected_hours (inp : user_input) (lo hi : Z) : Z * Z :=
  match chosen_hours inp with Some v => v | None => (lo, hi) end.

Definition selected_amounts (inp : user_input) (lo hi : float) : float * float :=
  match chosen_amounts inp with Some v => v | None => (lo, hi) end.

Definition selected_categories (inp : user_input) (options : list cell) : list cell :=
  match chosen_categories inp with Some v => v | None => options end.

(** The parts of the page: the lines written before the load (lines 7-9),
    the sidebar (lines 79-108), and the main area for a filtered frame
    (lines 126-168), with or without the fraud chart. *)
Definition page_header : list ui_event :=
  [SetPageConfig "Credit Card Transactions Dashboard" "wide";
   StTitle "💳 Credit Card Transactions Dashboard"].

Definition sidebar (lo hi : Z) (alo ahi : float) (options : list cell) : list ui_event :=
  [SidebarHeader "Filters";
   SidebarSliderInt "Hour Range" lo hi (lo, hi);
   SidebarSliderFloat "Transaction Amount Range" alo ahi (alo, ahi);
   SidebarMultiselect "Merchant Category" options options].

Definition fraud_section (f : DataFrame) (available : bool) : list ui_event :=
  if available
  then [StSubheader "Fraud vs Non-Fraud Amounts";
        PlotlyChart (px_box f "is_fraud" "amt" "all" "Fraud vs Non-Fraud Amounts")]
  else [StInfo fraud_unavailable_message].

Definition main_area (f : DataFrame) (available : bool) : list ui_event :=
  if empty f then [StWarning no_match_message]
  else amount_and_volume_charts f ++ fraud_section f available.

(** What the three handlers of the loader write for an exception of
    [read_csv] (lines 46-67). *)
Definition read_error_notices (file_path : string) (e : exn) : list ui_event :=
  match exn_kind e with
  | FileNotFoundError =>
      [StError (file_not_found_message file_path); StMarkdown project_layout_help]
  | EmptyDataError => [StError (empty_file_message file_path)]
  | _ => [StError (unexpected_error_message e)]
  end.

(** ** Sample inputs *)

(** A parser for the examples: unsigned decimal integers. *)
Definition digit_value (a : ascii) : option Z :=
  let n := Z.of_nat (nat_of_ascii a) in
  if (48 <=? n) && (n <=? 57) then Some (n - 48) else None.

Fixpoint digits (acc : Z) (s : string) : option Z :=
  match s with
  | EmptyString => Some acc
  | String a r =>
      match digit_value a with
      | Some v => digits (10 * acc + v) r
      | None => None
      end
  end.

Definition integer_literal (s : string) : option num :=
  match s with
  | EmptyString => None
  | _ => option_map NInt (digits 0 s)
  end.

(** What pandas raises on a column whose greatest value is fractional, as
    the [hour] column of [fractional_hour] below. *)
Definition cast_refused (s : Series) : cast_failure :=
  mkCastFailure false "cannot safely cast non-equivalent object to int64".

(** Five transactions, as a loaded dataset. *)
Definition transactions : DataFrame :=
  mkDataFrame [0; 1; 2; 3; 4]%nat
    [("hour", [VInt 1; VInt 5; VInt 10; VInt 15; VInt 20]);
     ("amt", [VFloat 10; VFloat 50; VFloat 100; VFloat 500; VFloat 1000]);
     ("category", [VStr "A"; VStr "B"; VStr "A"; VStr "C"; VStr "B"]);
     ("weekday", [VStr "Mon"; VStr "Tue"; VStr "Wed"; VStr "Thu"; VStr "Fri"]);
     ("is_fraud", [VBool false; VBool true; VBool false; VBool false; VBool true])]%string.

Definition one_frame (d : DataFrame) : state := mkState [d] [].

(** The sample selection: hours 1 to 15, amounts 10 to 500, categories A
    and B. *)
Definition sample_categories : list cell := [VStr "A"; VStr "B"].



Definition no_input : user_input := mkInput None None None.

(** A file system holding one CSV file, at the path the script reads. *)
Definition disk (d : DataFrame) (file_path : string) : csv_result :=
  if String.eqb file_path file_path_to_csv then CsvFrame d
  else CsvRaises (mkExn FileNotFoundError "No such file or directory").

(** A file with one transaction. *)
Definition one_transaction : DataFrame :=
  mkDataFrame [0]%nat
    [("hour", [VInt 5]);
     ("amt", [VFloat 10.5]);
     ("category", [VStr "gas"]);
     ("weekday", [VStr "Mon"])]%string.


(** A file without the [hour] and [amt] columns, and one without [amt]. *)
Definition labels_only : DataFrame :=
  mkDataFrame [0; 1]%nat
    [("category", [VStr "A"; VStr "B"]);
     ("weekday", [VStr "Mon"; VStr "Tue"])]%string.

Definition without_amt : DataFrame :=
  mkDataFrame [0; 1]%nat
    [("hour", [VInt 1; VInt 5]);
     ("category", [VStr "A"; VStr "B"]);
     ("weekday", [VStr "Mon"; VStr "Tue"])]%string.

(** A file whose [hour] column holds a fractional number: [read_csv] makes
    the column float64. *)
Definition fractional_hour : DataFrame :=
  mkDataFrame [0; 1]%nat
    [("hour", [VFloat 1; VFloat 2.5]);
     ("amt", [VInt 10; VInt 50]);
     ("category", [VStr "A"; VStr "B"]);
     ("weekday", [VStr "Mon"; VStr "Tue"])]%string.

(** A file with a missing category: [read_csv] makes the cell NaN. *)
Definition missing_category : DataFrame :=
  mkDataFrame [0; 1]%nat
    [("hour", [VInt 3; VInt 7]);
     ("amt", [VFloat 10.5; VFloat 50.25]);
     ("category", [VStr "gas"; VFloat PrimFloat.nan]);
     ("weekday", [VStr "Mon"; VStr "Tue"])]%string.

(** A file as read: text in numeric columns, a missing amount, and an
    [is_fraud] column of numbers with a missing entry. *)
Definition transactions_csv : DataFrame :=
  mkDataFrame [0; 1; 2; 3; 4; 5]%nat
    [("hour", [VStr "3"; VStr "seven"; VStr "7"; VStr "22"; VStr "7"; VStr "12"]);
     ("amt", [VFloat 10; VFloat 50; VFloat 100; VFloat 500; VFloat 1000; VFloat PrimFloat.nan]);
     ("category", [VStr "grocery"; VStr "gas"; VStr "gas"; VStr "travel"; VStr "grocery"; VStr "gas"]);
     ("weekday", [VInt 0; VInt 1; VInt 2; VInt 3; VInt 4; VInt 5]);
     ("is_fraud", [VFloat 0; VFloat 1; VFloat PrimFloat.nan; VFloat 0; VFloat 1; VFloat 0])]%string.

(** The state after loading the sample file. *)
Definition loaded_state : state :=
  snd (load_data (disk transactions_csv) integer_literal cast_refused
         file_path_to_csv initial).

(** The sample file after coercion, and after loading. *)
Definition coerced_transactions : DataFrame :=
  match coerce_columns integer_literal cast_refused transactions_csv with
  | Returned d => d
  | _ => empty_frame
  end.

Definition loaded_transactions : DataFrame :=
  nth 0 (heap loaded_state) empty_frame.

(** A file system without the file. *)
Definition no_file (file_path : string) : csv_result :=
  CsvRaises (mkExn FileNotFoundError "No such file or directory").

(** A file system whose file is empty: [read_csv] raises [EmptyDataError]. *)
Definition empty_file (file_path : string) : csv_result :=
  CsvRaises (mkExn EmptyDataError "No columns to parse from file").

(** A file with the header line and no row. *)
Definition header_only : DataFrame :=
  mkDataFrame []
    [("hour", []); ("amt", []); ("category", []); ("weekday", []);
     ("is_fraud", [])]%string.

(** * Properties *)

(** ** Lists, masks and rows *)

Lemma select_map {A B : Type} (f : A -> B) (m : list bool) (l : list A) :
  select m (map f l) = map f (select m l).
Proof.
  revert l; induction m as [|b m IH]; intros [|x l]; simpl; try reflexivity.
  destruct b; simpl; now rewrite IH.
Qed.

Lemma select_combine {A B : Type} (m : list bool) (l : list A) (k : list B) :
  select m (combine l k) = combine (select m l) (select m k).
Proof.
  revert l k; induction m as [|b m IH]; intros [|x l] [|y k]; simpl;
    try reflexivity.
  - destruct b; simpl; destruct (select m l); reflexivity.
  - destruct b; simpl; now rewrite IH.
Qed.

Lemma select_map_filter {A : Type} (p : A -> bool) (l : list A) :
  select (map p l) l = filter p l.
Proof.
  induction l as [|x l IH]; simpl; [reflexivity|].
  destruct (p x); now rewrite IH.
Qed.

Lemma select_repeat {A B : Type} (x : B) (m : list bool) (l : list A) :
  select m (repeat x (List.length l)) = repeat x (List.length (select m l)).
Proof.
  revert l; induction m as [|b m IH]; intros [|y l]; simpl; try reflexivity.
  destruct b; simpl; now rewrite IH.
Qed.

Lemma select_all {A : Type} (m : list bool) (l : list A) :
  List.length m = List.length l -> Forall (fun b => b = true) m -> select m l = l.
Proof.
  revert l; induction m as [|b m IH]; intros [|x l] Hlen Hall; simpl in *;
    try reflexivity; try discriminate.
  inversion Hall; subst. f_equal. apply IH; [lia | assumption].
Qed.

Lemma select_Forall {A : Type} (P : A -> Prop) (m : list bool) (l : list A) :
  Forall P l -> Forall P (select m l).
Proof.
  revert l; induction m as [|b m IH]; intros [|x l] H; simpl; try constructor.
  inversion H; subst. destruct b; [constructor|]; auto.
Qed.

Lemma select_length_eq {A B : Type} (m : list bool) (l : list A) (k : list B) :
  List.length l = List.length k ->
  List.length (select m l) = List.length (select m k).
Proof.
  revert l k; induction m as [|b m IH]; intros [|x l] [|y k] H; simpl in *;
    try reflexivity; try discriminate.
  destruct b; simpl; rewrite (IH l k); auto.
Qed.

Lemma map2_map {A B C D : Type} (f : B -> C -> D) (g : A -> B) (h : A -> C)
  (l : list A) :
  map2 f (map g l) (map h l) = map (fun x => f (g x) (h x)) l.
Proof. induction l; simpl; [reflexivity | now f_equal]. Qed.

Lemma traverse_map {A B : Type} (f : A -> outcome B) (g : A -> B) (l : list A) :
  Forall (fun x => f x = Returned (g x)) l -> traverse f l = Returned (map g l).
Proof.
  induction 1 as [|x l Hx _ IH]; simpl; [reflexivity|].
  now rewrite Hx, IH.
Qed.

Lemma traverse_returned {A B : Type} (f : A -> outcome B) (l : list A) (r : list B) :
  traverse f l = Returned r -> Forall2 (fun x y => f x = Returned y) l r.
Proof.
  revert r; induction l as [|x l IH]; simpl; intros r H.
  - inversion H; constructor.
  - destruct (f x) eqn:Hx; simpl in H; try discriminate.
    destruct (traverse f l) eqn:Hl; simpl in H; try discriminate.
    inversion H; subst. constructor; auto.
Qed.

Lemma transpose_length (n : nat) (cs : list (string * Series)) :
  Forall (fun c => List.length (snd c) = n) cs ->
  List.length (transpose n cs) = n.
Proof.
  induction 1 as [|[name s] cs Hs _ IH]; simpl.
  - apply repeat_length.
  - simpl in Hs. rewrite length_map, length_combine, IH, Hs. apply Nat.min_id.
Qed.

Lemma transpose_select (m : list bool) (ix : list nat) (cs : list (string * Series)) :
  Forall (fun c => List.length (snd c) = List.length ix) cs ->
  transpose (List.length (select m ix))
            (map (fun c => (fst c, select m (snd c))) cs)
  = select m (transpose (List.length ix) cs).
Proof.
  induction 1 as [|[name s] cs Hs _ IH]; simpl.
  - symmetry. apply select_repeat.
  - rewrite IH, select_map, select_combine. reflexivity.
Qed.

Lemma rows_take_rows (m : list bool) (d : DataFrame) :
  well_formed d -> rows (take_rows m d) = select m (rows d).
Proof.
  intros [Hlen _]. destruct d as [ix cs]. unfold rows, take_rows, len in *.
  cbn [index columns] in *.
  rewrite (select_combine m ix). f_equal. now apply transpose_select.
Qed.

Lemma take_rows_well_formed (m : list bool) (d : DataFrame) :
  well_formed d -> well_formed (take_rows m d).
Proof.
  intros [Hlen Hnd]. split.
  - unfold take_rows, len in *; simpl. rewrite Forall_map; simpl.
    eapply Forall_impl; [|exact Hlen]. intros c Hc; simpl in *.
    now apply select_length_eq.
  - unfold column_names, take_rows in *; simpl. rewrite map_map; simpl. exact Hnd.
Qed.

Lemma map_fst_combine {A B : Type} (l : list A) (k : list B) :
  List.length l = List.length k -> map fst (combine l k) = l.
Proof.
  revert k; induction l as [|x l IH]; intros [|y k] H; simpl in *;
    try reflexivity; try discriminate.
  f_equal. apply IH. lia.
Qed.

Lemma map_snd_combine {A B : Type} (l : list A) (k : list B) :
  List.length l = List.length k -> map snd (combine l k) = k.
Proof.
  revert k; induction l as [|x l IH]; intros [|y k] H; simpl in *;
    try reflexivity; try discriminate.
  f_equal. apply IH. lia.
Qed.

(** The cells of column [col], read row by row, are the column. *)
Lemma field_transpose (col : string) (n : nat) (cs : list (string * Series))
  (s : Series) :
  Forall (fun c => List.length (snd c) = n) cs ->
  assoc col cs = Some s ->
  map (field col) (transpose n cs) = map Some s.
Proof.
  induction 1 as [|[name s0] cs Hs Hcs IH]; simpl; [discriminate|].
  simpl in Hs. intros Hcol. rewrite map_map. simpl.
  pose proof (transpose_length n cs Hcs) as HT.
  destruct (String.eqb col name).
  - inversion Hcol; subst s0.
    rewrite <- (map_fst_combine s (transpose n cs)) at 2 by congruence.
    now rewrite map_map.
  - rewrite <- (IH Hcol).
    rewrite <- (map_snd_combine s0 (transpose n cs)) at 2 by congruence.
    now rewrite map_map.
Qed.

Lemma rows_field (col : string) (d : DataFrame) (s : Series) :
  well_formed d -> getitem col d = Returned s ->
  map (fun r : row => field col (snd r)) (rows d) = map Some s.
Proof.
  intros [Hlen _] Hget. unfold getitem in Hget.
  destruct (assoc col (columns d)) as [s'|] eqn:Hs; inversion Hget; subst s'.
  unfold rows.
  rewrite <- (field_transpose col (len d) (columns d) s Hlen Hs).
  rewrite <- (map_snd_combine (index d) (transpose (len d) (columns d))) at 2
    by (rewrite transpose_length; auto).
  now rewrite map_map.
Qed.

Lemma rows_column (col : string) (d : DataFrame) (s : Series) :
  well_formed d -> getitem col d = Returned s ->
  map (cell_of col) (rows d) = s.
Proof.
  intros Hwf Hget. pose proof (rows_field col d s Hwf Hget) as H.
  clear Hget. revert H. generalize (rows d).
  induction s as [|c s IH]; intros [|r l] H;
    simpl in *; try reflexivity; try discriminate.
  inversion H as [[Hr Hl]]. unfold cell_of at 1. rewrite Hr. f_equal. auto.
Qed.

Lemma rows_have_field (col : string) (d : DataFrame) (s : Series) :
  well_formed d -> getitem col d = Returned s ->
  Forall (fun r : row => field col (snd r) = Some (cell_of col r)) (rows d).
Proof.
  intros Hwf Hget. pose proof (rows_field col d s Hwf Hget) as H.
  clear Hget. revert H. generalize (rows d).
  induction s as [|c s IH]; intros [|r l] H;
    simpl in *; try constructor; try discriminate.
  - inversion H as [[Hr Hl]]. unfold cell_of. now rewrite Hr.
  - inversion H. auto.
Qed.

Lemma getitem_take_rows (col : string) (m : list bool) (d : DataFrame) (s : Series) :
  getitem col d = Returned s ->
  getitem col (take_rows m d) = Returned (select m s).
Proof.
  unfold getitem, take_rows; simpl. induction (columns d) as [|[n s0] cs IH];
    simpl; [discriminate|].
  destruct (String.eqb col n); [intros H; inversion H; reflexivity | exact IH].
Qed.

Lemma column_names_take_rows (m : list bool) (d : DataFrame) :
  column_names (take_rows m d) = column_names d.
Proof. unfold column_names, take_rows; simpl. now rewrite map_map. Qed.

Lemma has_column_getitem (col : string) (d : DataFrame) :
  has_column col d = true -> exists s, getitem col d = Returned s.
Proof.
  unfold has_column, column_names, getitem.
  induction (columns d) as [|[n s0] cs IH]; simpl; [discriminate|].
  destruct (String.eqb col n); simpl; eauto.
Qed.

Lemma getitem_has_column (col : string) (d : DataFrame) (s : Series) :
  getitem col d = Returned s -> has_column col d = true.
Proof.
  unfold has_column, column_names, getitem.
  induction (columns d) as [|[n s0] cs IH]; simpl; [discriminate|].
  destruct (String.eqb col n); simpl; auto.
Qed.

(** ** Running the script *)

Lemma bind_ret {A B : Type} (a : A) (k : A -> script B) (st : state) :
  bind (ret a) k st = k a st.
Proof. reflexivity. Qed.

Lemma bind_lift {A B : Type} (o : outcome A) (a : A) (k : A -> script B)
  (st : state) :
  o = Returned a -> bind (lift o) k st = k a st.
Proof. intros ->. reflexivity. Qed.

Lemma bind_emit {B : Type} (e : ui_event) (k : unit -> script B) (st : state) :
  bind (emit e) k st = k tt (mkState (heap st) (page st ++ [e])).
Proof. reflexivity. Qed.

Lemma bind_new_frame {B : Type} (d : DataFrame) (k : loc -> script B) (st : state) :
  bind (new_frame d) k st
  = k (List.length (heap st)) (mkState (heap st ++ [d]) (page st)).
Proof. reflexivity. Qed.

Lemma bind_frame {B : Type} (l : loc) (d : DataFrame) (k : DataFrame -> script B)
  (st : state) :
  nth_error (heap st) l = Some d -> bind (frame l) k st = k d st.
Proof. intros H. unfold bind, frame. now rewrite H. Qed.

Lemma bind_df_getitem {B : Type} (l : loc) (col : string) (d : DataFrame)
  (s : Series) (k : Series -> script B) (st : state) :
  nth_error (heap st) l = Some d -> getitem col d = Returned s ->
  bind (df_getitem l col) k st = k s st.
Proof.
  intros H Hs. unfold df_getitem, bind, frame, lift. now rewrite H, Hs.
Qed.

Lemma bind_assoc {A B C : Type} (m : script A) (f : A -> script B)
  (g : B -> script C) (st : state) :
  bind (bind m f) g st = bind m (fun a => bind (f a) g) st.
Proof. unfold bind. destruct (m st) as [[a| |e] st']; reflexivity. Qed.

Lemma nth_error_last {A : Type} (l : list A) (x : A) :
  nth_error (l ++ [x]) (List.length l) = Some x.
Proof.
  rewrite nth_error_app2 by lia. now rewrite Nat.sub_diag.
Qed.

Lemma nth_error_keep {A : Type} (l k : list A) (n : nat) (x : A) :
  nth_error l n = Some x -> nth_error (l ++ k) n = Some x.
Proof.
  intros H. rewrite nth_error_app1; [exact H|].
  apply nth_error_Some. congruence.
Qed.

Lemma nth_error_update_other {A : Type} (l : list A) (n m : nat) (x : A) :
  n <> m -> nth_error (update l n x) m = nth_error l m.
Proof.
  revert n m; induction l as [|z l IH]; intros [|n] [|m] H; simpl;
    try reflexivity; try congruence.
  apply IH. congruence.
Qed.

(** ** The filter engine *)

Lemma series_ge_hour (lo : Z) (s : Series) :
  Forall int64_cell s ->
  series_ge s (VInt lo)
  = Returned (map (fun c => match c with VInt h => Some (lo <=? h) | _ => None end) s).
Proof.
  intros H. apply traverse_map. eapply Forall_impl; [|exact H].
  intros [z|f|t|b|] Hc; simpl in Hc; try contradiction; reflexivity.
Qed.

Lemma series_le_hour (hi : Z) (s : Series) :
  Forall int64_cell s ->
  series_le s (VInt hi)
  = Returned (map (fun c => match c with VInt h => Some (h <=? hi) | _ => None end) s).
Proof.
  intros H. apply traverse_map. eapply Forall_impl; [|exact H].
  intros [z|f|t|b|] Hc; simpl in Hc; try contradiction; reflexivity.
Qed.

Lemma series_ge_amt (lo : float) (s : Series) :
  Forall numeric_cell s ->
  series_ge s (VFloat lo)
  = Returned (map (fun c => match cell_to_float c with
                            | Some x => Some (PrimFloat.leb lo x)
                            | None => None
                            end) s).
Proof.
  intros H. apply traverse_map. eapply Forall_impl; [|exact H].
  intros [z|f|t|b|] Hc; simpl in Hc; try contradiction; reflexivity.
Qed.

Lemma series_le_amt (hi : float) (s : Series) :
  Forall numeric_cell s ->
  series_le s (VFloat hi)
  = Returned (map (fun c => match cell_to_float c with
                            | Some x => Some (PrimFloat.leb x hi)
                            | None => None
                            end) s).
Proof.
  intros H. apply traverse_map. eapply Forall_impl; [|exact H].
  intros [z|f|t|b|] Hc; simpl in Hc; try contradiction; reflexivity.
Qed.

(** The mask the script builds column by column is the row predicate,
    evaluated row by row. *)
Lemma filter_mask (hours : Z * Z) (amounts : float * float) (categories : list cell)
  (d : DataFrame) (hs ams cs : Series) :
  well_formed d ->
  getitem "hour" d = Returned hs -> Forall int64_cell hs ->
  getitem "amt" d = Returned ams -> Forall numeric_cell ams ->
  getitem "category" d = Returned cs ->
  map is_true
    (mask_and
       (mask_and
          (mask_and
             (mask_and
                (map (fun c => match c with VInt h => Some (fst hours <=? h) | _ => None end) hs)
                (map (fun c => match c with VInt h => Some (h <=? snd hours) | _ => None end) hs))
             (map (fun c => match cell_to_float c with
                            | Some x => Some (PrimFloat.leb (fst amounts) x)
                            | None => None
                            end) ams))
          (map (fun c => match cell_to_float c with
                         | Some x => Some (PrimFloat.leb x (snd amounts))
                         | None => None
                         end) ams))
       (isin cs categories))
  = map (satisfiesb hours amounts categories) (rows d).
Proof.
  intros Hwf Hh Hht Ha Hat Hc.
  pose proof (rows_have_field _ _ _ Hwf Hh) as Fh.
  pose proof (rows_have_field _ _ _ Hwf Ha) as Fa.
  pose proof (rows_have_field _ _ _ Hwf Hc) as Fc.
  rewrite <- (rows_column _ _ _ Hwf Hh) in Hht |- *.
  rewrite <- (rows_column _ _ _ Hwf Ha) in Hat |- *.
  rewrite <- (rows_column _ _ _ Hwf Hc).
  rewrite Forall_map in Hht, Hat.
  unfold isin, mask_and. rewrite !map_map, !map2_map, map_map.
  apply map_ext_in. intros r Hr.
  rewrite Forall_forall in Fh, Fa, Fc, Hht, Hat.
  specialize (Fh r Hr); specialize (Fa r Hr); specialize (Fc r Hr).
  specialize (Hht r Hr); specialize (Hat r Hr).
  unfold satisfiesb. rewrite Fh, Fa, Fc.
  unfold hour_withinb, amt_withinb.
  destruct (cell_of "hour" r) as [z|f|t|b|]; simpl in Hht; try contradiction;
    destruct (cell_of "amt" r) as [y|g|u|b'|]; simpl in Hat; try contradiction;
    simpl;
    repeat match goal with
           | |- context [Z.leb ?a ?b] => destruct (Z.leb a b)
           | |- context [PrimFloat.leb ?a ?b] => destruct (PrimFloat.leb a b)
           | |- context [existsb ?f ?l] => destruct (existsb f l)
           end; reflexivity.
Qed.

(** What lines 113-119 do on a dataset: two new frame objects holding the
    selected rows (the indexing result and its copy); nothing else changes. *)
Lemma apply_filters_run (df : loc) (d : DataFrame) (hours : Z * Z)
  (amounts : float * float) (categories : list cell) (st : state) :
  nth_error (heap st) df = Some d -> dataset d ->
  let selected := take_rows (map (satisfiesb hours amounts categories) (rows d)) d in
  apply_filters df hours amounts categories st
  = (Returned (List.length (heap st ++ [selected])),
     mkState ((heap st ++ [selected]) ++ [selected]) (page st)).
Proof.
  intros Hdf [Hwf [hs [Hh Hht]] [ams [Ha Hat]] [cs Hc]] selected.
  unfold apply_filters.
  rewrite (bind_df_getitem _ _ _ _ _ _ Hdf Hh).
  rewrite (bind_lift _ _ _ _ (series_ge_hour _ _ Hht)).
  rewrite (bind_df_getitem _ _ _ _ _ _ Hdf Hh).
  rewrite (bind_lift _ _ _ _ (series_le_hour _ _ Hht)).
  rewrite (bind_df_getitem _ _ _ _ _ _ Hdf Ha).
  rewrite (bind_lift _ _ _ _ (series_ge_amt _ _ Hat)).
  rewrite (bind_df_getitem _ _ _ _ _ _ Hdf Ha).
  rewrite (bind_lift _ _ _ _ (series_le_amt _ _ Hat)).
  rewrite (bind_df_getitem _ _ _ _ _ _ Hdf Hc).
  cbv zeta. rewrite (bind_frame _ _ _ _ Hdf).
  unfold boolean_index.
  rewrite (filter_mask hours amounts categories d hs ams cs Hwf Hh Hht Ha Hat Hc).
  fold selected. rewrite bind_new_frame.
  unfold copy, bind, frame, new_frame. cbn [heap page].
  now rewrite nth_error_last.
Qed.

Lemma hour_withinb_spec (lo hi : Z) (c : cell) :
  hour_withinb lo hi c = true <-> hour_within lo hi c.
Proof.
  unfold hour_withinb, hour_within. split.
  - destruct c as [h| | | |]; try discriminate.
    rewrite andb_true_iff, !Z.leb_le. eauto.
  - intros [h [-> Hh]]. rewrite andb_true_iff, !Z.leb_le. exact Hh.
Qed.

Lemma amt_withinb_spec (lo hi : float) (c : cell) :
  amt_withinb lo hi c = true <-> amt_within lo hi c.
Proof.
  unfold amt_withinb, amt_within. split.
  - destruct (cell_to_float c) as [x|]; try discriminate.
    rewrite andb_true_iff. eauto.
  - intros [x [-> Hx]]. now rewrite andb_true_iff.
Qed.

Lemma category_selectedb_spec (categories : list cell) (c : cell) :
  existsb (cell_eqb c) categories = true <-> category_selected categories c.
Proof. unfold category_selected. apply existsb_exists. Qed.

Lemma satisfiesb_spec (hours : Z * Z) (amounts : float * float)
  (categories : list cell) (r : row) :
  satisfiesb hours amounts categories r = true
  <-> satisfies hours amounts categories r.
Proof.
  unfold satisfiesb, satisfies. split.
  - destruct (field "hour" (snd r)) as [h|]; try discriminate.
    destruct (field "amt" (snd r)) as [a|]; try discriminate.
    destruct (field "category" (snd r)) as [c|]; try discriminate.
    rewrite !andb_true_iff, hour_withinb_spec, amt_withinb_spec,
      category_selectedb_spec.
    intros [[Hh Ha] Hc]. exists h, a, c. repeat split; assumption.
  - intros (h & a & c & -> & -> & -> & Hh & Ha & Hc).
    rewrite !andb_true_iff, hour_withinb_spec, amt_withinb_spec,
      category_selectedb_spec. repeat split; assumption.
Qed.

(** On text, membership in the selection is plain membership. *)
Lemma category_selected_text (categories : list cell) (s : string) :
  category_selected categories (VStr s) <-> In (VStr s) categories.
Proof.
  unfold category_selected. split.
  - intros [t [Hin Heq]]. destruct t as [z|f|t|b|]; simpl in Heq;
      try discriminate.
    apply String.eqb_eq in Heq. now subst.
  - intros Hin. exists (VStr s). split; [exact Hin|]. simpl.
    apply String.eqb_refl.
Qed.

Lemma dataset_take_rows (m : list bool) (d : DataFrame) :
  dataset d -> dataset (take_rows m d).
Proof.
  intros [Hwf [hs [Hh Hht]] [ams [Ha Hat]] [cs Hc]]. constructor.
  - now apply take_rows_well_formed.
  - exists (select m hs). split; [now apply getitem_take_rows | now apply select_Forall].
  - exists (select m ams). split; [now apply getitem_take_rows | now apply select_Forall].
  - exists (select m cs). now apply getitem_take_rows.
Qed.

Lemma rows_length (d : DataFrame) : well_formed d -> List.length (rows d) = len d.
Proof.
  intros [Hlen _]. unfold rows. rewrite length_combine, transpose_length by exact Hlen.
  unfold len. apply Nat.min_id.
Qed.

Lemma take_rows_all (m : list bool) (d : DataFrame) :
  well_formed d -> List.length m = len d -> Forall (fun b => b = true) m ->
  take_rows m d = d.
Proof.
  intros [Hlen _] Hm Hall. destruct d as [ix cs]. unfold take_rows, len in *.
  cbn [index columns] in *. f_equal.
  - now apply select_all.
  - rewrite <- (map_id cs) at 2. apply map_ext_Forall.
    eapply Forall_impl; [|exact Hlen]. intros [n s] Hs; simpl in *.
    f_equal. apply select_all; [congruence | assumption].
Qed.

Lemma subsequence_filter {A : Type} (p : A -> bool) (l : list A) :
  subsequence (filter p l) l.
Proof.
  induction l as [|x l IH]; simpl; [constructor|].
  destruct (p x); now constructor.
Qed.

Lemma filtered_rows (hours : Z * Z) (amounts : float * float)
  (categories : list cell) (d : DataFrame) :
  well_formed d ->
  rows (take_rows (map (satisfiesb hours amounts categories) (rows d)) d)
  = filter (satisfiesb hours amounts categories) (rows d).
Proof.
  intros Hwf. rewrite rows_take_rows by exact Hwf. apply select_map_filter.
Qed.

Lemma transactions_dataset : dataset transactions.
Proof.
  constructor.
  - split; [repeat constructor|].
    unfold column_names; simpl. repeat constructor; simpl; intuition discriminate.
  - eexists; split; [reflexivity | repeat constructor].
  - eexists; split; [reflexivity | repeat constructor].
  - eexists; reflexivity.
Qed.

Lemma empty_dataset_rows (d : DataFrame) :
  dataset d -> empty d = true -> rows d = [].
Proof.
  intros [_ [hs [Hh _]] _ _] He. unfold empty in He.
  apply orb_true_iff in He. destruct He as [He|He]; apply Nat.eqb_eq in He.
  - unfold rows, len in *. destruct (index d); [reflexivity | discriminate].
  - unfold getitem in Hh. destruct (columns d); [discriminate | discriminate].
Qed.

(** C1.  The filter engine returns exactly the rows of the dataset that
    satisfy the three-part predicate: the rows of the result are the rows of
    the dataset with the hour in the inclusive hour range, the amount in the
    inclusive amount range and the category among the selected ones, each as
    often and in the order it stands in the dataset.  The same rows are what
    the script's filtering step hands to the charts (on a dataset without
    rows it does not run the engine and hands on an empty frame). *)
Theorem apply_filters_exact (df : loc) (d : DataFrame) (hours : Z * Z)
  (amounts : float * float) (categories : list cell) (st : state) :
  nth_error (heap st) df = Some d -> dataset d ->
  exists (filtered : loc) (st' : state) (f : DataFrame),
    apply_filters df hours amounts categories st = (Returned filtered, st') /\
    nth_error (heap st') filtered = Some f /\
    rows f = filter (satisfiesb hours amounts categories) (rows d) /\
    (forall r, In r (rows f) <->
               In r (rows d) /\ satisfies hours amounts categories r) /\
    exists (filtered' : loc) (st'' : state) (f' : DataFrame),
      df_filtered df hours amounts categories st = (Returned filtered', st'') /\
      nth_error (heap st'') filtered' = Some f' /\
      rows f' = rows f.
Proof.
  intros Hdf Hds.
  pose proof (apply_filters_run df d hours amounts categories st Hdf Hds) as Hrun.
  cbv zeta in Hrun.
  eexists _, _, _. split; [exact Hrun|]. cbn [heap].
  split; [apply nth_error_last|].
  pose proof (filtered_rows hours amounts categories d (ds_well_formed d Hds)) as Hrows.
  split; [exact Hrows|]. split.
  { intros r. rewrite Hrows, filter_In, satisfiesb_spec. reflexivity. }
  unfold df_filtered. rewrite (bind_frame _ _ _ _ Hdf).
  destruct (empty d) eqn:He; cbn [negb].
  - eexists _, _, empty_frame. split; [reflexivity|]. cbn [heap].
    split; [apply nth_error_last|].
    rewrite Hrows, (empty_dataset_rows d Hds He). reflexivity.
  - eexists _, _, _. split; [exact Hrun|]. cbn [heap].
    split; [apply nth_error_last | reflexivity].
Qed.

Lemma apply_filters_exact_witness :
  exists (filtered : loc) (st' : state) (f : DataFrame),
    apply_filters 0%nat (1, 15) (10%float, 500%float) [VStr "A"; VStr "B"]
      (one_frame transactions) = (Returned filtered, st') /\
    nth_error (heap st') filtered = Some f /\
    rows f = filter (satisfiesb (1, 15) (10%float, 500%float) [VStr "A"; VStr "B"])
               (rows transactions) /\
    (forall r, In r (rows f) <->
               In r (rows transactions) /\
               satisfies (1, 15) (10%float, 500%float) [VStr "A"; VStr "B"] r) /\
    exists (filtered' : loc) (st'' : state) (f' : DataFrame),
      df_filtered 0%nat (1, 15) (10%float, 500%float) [VStr "A"; VStr "B"]
        (one_frame transactions) = (Returned filtered', st'') /\
      nth_error (heap st'') filtered' = Some f' /\
      rows f' = rows f.
Proof.
  apply (apply_filters_exact 0%nat transactions (1, 15) (10%float, 500%float)
           [VStr "A"; VStr "B"] (one_frame transactions)).
  - reflexivity.
  - exact transactions_dataset.
Defined.

(** C2.  Filtering is idempotent: filtering the filtered dataset again with
    the same selection gives a frame equal to the filtered dataset. *)
Theorem apply_filters_idempotent (df : loc) (d : DataFrame) (hours : Z * Z)
  (amounts : float * float) (categories : list cell) (st : state) :
  nth_error (heap st) df = Some d -> dataset d ->
  exists (once twice : loc) (st1 st2 : state) (f : DataFrame),
    apply_filters df hours amounts categories st = (Returned once, st1) /\
    apply_filters once hours amounts categories st1 = (Returned twice, st2) /\
    nth_error (heap st1) once = Some f /\
    nth_error (heap st2) twice = Some f.
Proof.
  intros Hdf Hds.
  pose proof (apply_filters_run df d hours amounts categories st Hdf Hds) as Hrun.
  cbv zeta in Hrun.
  set (f := take_rows (map (satisfiesb hours amounts categories) (rows d)) d) in *.
  assert (Hf : dataset f) by (now apply dataset_take_rows).
  assert (Honce : nth_error (heap (mkState ((heap st ++ [f]) ++ [f]) (page st)))
                    (List.length (heap st ++ [f])) = Some f)
    by apply nth_error_last.
  pose proof (apply_filters_run _ f hours amounts categories _ Honce Hf) as Hrun2.
  cbv zeta in Hrun2.
  assert (Hsame : take_rows (map (satisfiesb hours amounts categories) (rows f)) f = f).
  { apply take_rows_all.
    - exact (ds_well_formed f Hf).
    - rewrite length_map. apply rows_length. exact (ds_well_formed f Hf).
    - rewrite Forall_map. apply Forall_forall. intros r Hr.
      unfold f in Hr. rewrite filtered_rows in Hr by exact (ds_well_formed d Hds).
      apply filter_In in Hr. tauto. }
  rewrite Hsame in Hrun2.
  eexists _, _, _, _, f. split; [exact Hrun|]. split; [exact Hrun2|].
  split; [exact Honce|]. cbn [heap]. apply nth_error_last.
Qed.

Lemma apply_filters_idempotent_witness :
  exists (once twice : loc) (st1 st2 : state) (f : DataFrame),
    apply_filters 0%nat (1, 15) (10%float, 500%float) [VStr "A"; VStr "B"]
      (one_frame transactions) = (Returned once, st1) /\
    apply_filters once (1, 15) (10%float, 500%float) [VStr "A"; VStr "B"] st1
      = (Returned twice, st2) /\
    nth_error (heap st1) once = Some f /\
    nth_error (heap st2) twice = Some f.
Proof.
  apply (apply_filters_idempotent 0%nat transactions (1, 15) (10%float, 500%float)
           [VStr "A"; VStr "B"] (one_frame transactions)).
  - reflexivity.
  - exact transactions_dataset.
Defined.

(** C10.  The filtered dataset is an order-preserving subsequence of the
    dataset, held by a new frame object; the dataset object is left as it
    was, also by any later in-place change of the filtered frame. *)
Theorem apply_filters_subsequence_copy (df : loc) (d : DataFrame) (hours : Z * Z)
  (amounts : float * float) (categories : list cell) (st : state) :
  nth_error (heap st) df = Some d -> dataset d ->
  exists (filtered : loc) (st' : state) (f : DataFrame),
    apply_filters df hours amounts categories st = (Returned filtered, st') /\
    nth_error (heap st') filtered = Some f /\
    subsequence (rows f) (rows d) /\
    filtered <> df /\
    nth_error (heap st') df = Some d /\
    (forall (change : DataFrame -> outcome DataFrame) (st'' : state),
        mutate filtered change st' = (Returned tt, st'') ->
        nth_error (heap st'') df = Some d).
Proof.
  intros Hdf Hds.
  pose proof (apply_filters_run df d hours amounts categories st Hdf Hds) as Hrun.
  cbv zeta in Hrun.
  set (f := take_rows (map (satisfiesb hours amounts categories) (rows d)) d) in *.
  assert (Hlt : (df < List.length (heap st))%nat)
    by (apply nth_error_Some; congruence).
  assert (Hne : List.length (heap st ++ [f]) <> df)
    by (rewrite length_app; simpl; lia).
  assert (Hkeep : nth_error ((heap st ++ [f]) ++ [f]) df = Some d)
    by (now do 2 apply nth_error_keep).
  eexists _, _, f. split; [exact Hrun|]. cbn [heap].
  split; [apply nth_error_last|].
  split.
  { unfold f. rewrite filtered_rows by exact (ds_well_formed d Hds).
    apply subsequence_filter. }
  split; [exact Hne|]. split; [exact Hkeep|].
  intros change st'' Hmut. unfold mutate, bind, frame, lift in Hmut.
  cbn [heap page] in Hmut. rewrite nth_error_last in Hmut.
  destruct (change f) as [f'| |e]; inversion Hmut; subst st''. cbn [heap].
  rewrite nth_error_update_other by exact Hne. exact Hkeep.
Qed.

Lemma apply_filters_subsequence_copy_witness :
  exists (filtered : loc) (st' : state) (f : DataFrame),
    apply_filters 0%nat (1, 15) (10%float, 500%float) [VStr "A"; VStr "B"]
      (one_frame transactions) = (Returned filtered, st') /\
    nth_error (heap st') filtered = Some f /\
    subsequence (rows f) (rows transactions) /\
    filtered <> 0%nat /\
    nth_error (heap st') 0%nat = Some transactions /\
    (forall (change : DataFrame -> outcome DataFrame) (st'' : state),
        mutate filtered change st' = (Returned tt, st'') ->
        nth_error (heap st'') 0%nat = Some transactions).
Proof.
  apply (apply_filters_subsequence_copy 0%nat transactions (1, 15)
           (10%float, 500%float) [VStr "A"; VStr "B"] (one_frame transactions)).
  - reflexivity.
  - exact transactions_dataset.
Defined.

(** ** Frame updates *)

Lemma assoc_replace_same (col : string) (s : Series) (cs : list (string * Series)) :
  assoc col (replace_column col s cs) = Some s.
Proof.
  induction cs as [|[n s0] cs IH]; simpl.
  - now rewrite String.eqb_refl.
  - destruct (String.eqb col n) eqn:E; simpl; rewrite E; [reflexivity | exact IH].
Qed.

Lemma assoc_replace_other (col other : string) (s : Series)
  (cs : list (string * Series)) :
  other <> col -> assoc other (replace_column col s cs) = assoc other cs.
Proof.
  intros Hne. induction cs as [|[n s0] cs IH]; simpl.
  - apply String.eqb_neq in Hne. now rewrite Hne.
  - destruct (String.eqb col n) eqn:E; simpl.
    + apply String.eqb_eq in E; subst n.
      apply String.eqb_neq in Hne. now rewrite Hne.
    + now rewrite IH.
Qed.

Lemma getitem_setitem_same (col : string) (s : Series) (d : DataFrame) :
  getitem col (setitem col s d) = Returned s.
Proof. unfold getitem, setitem; simpl. now rewrite assoc_replace_same. Qed.

Lemma getitem_setitem_other (col other : string) (s : Series) (d : DataFrame) :
  other <> col -> getitem other (setitem col s d) = getitem other d.
Proof.
  intros Hne. unfold getitem, setitem; simpl. now rewrite assoc_replace_other.
Qed.

Lemma names_replace (col : string) (s : Series) (cs : list (string * Series)) :
  existsb (String.eqb col) (map fst cs) = true ->
  map fst (replace_column col s cs) = map fst cs.
Proof.
  induction cs as [|[n s0] cs IH]; simpl; [discriminate|].
  destruct (String.eqb col n) eqn:E; simpl; [reflexivity|].
  intros H. now rewrite IH.
Qed.

Lemma column_names_setitem (col : string) (s : Series) (d : DataFrame) :
  has_column col d = true -> column_names (setitem col s d) = column_names d.
Proof. unfold has_column, column_names, setitem; simpl. apply names_replace. Qed.

Lemma has_column_names (col : string) (d d' : DataFrame) :
  column_names d' = column_names d -> has_column col d' = has_column col d.
Proof. unfold has_column. now intros ->. Qed.

Lemma len_setitem (col : string) (s : Series) (d : DataFrame) :
  len (setitem col s d) = len d.
Proof. reflexivity. Qed.

Lemma Forall_replace (P : string * Series -> Prop) (col : string) (s : Series)
  (cs : list (string * Series)) :
  (forall n, P (n, s)) -> Forall P cs -> Forall P (replace_column col s cs).
Proof.
  intros Hs. induction 1 as [|[n s0] cs Hc Hcs IH]; simpl.
  - constructor; [apply Hs | constructor].
  - destruct (String.eqb col n); constructor; auto.
Qed.

Lemma well_formed_setitem (col : string) (s : Series) (d : DataFrame) :
  has_column col d = true -> List.length s = len d ->
  well_formed d -> well_formed (setitem col s d).
Proof.
  intros Hcol Hs [Hlen Hnd]. split.
  - unfold setitem, len in *; simpl. apply Forall_replace; [intros n; exact Hs | exact Hlen].
  - now rewrite column_names_setitem.
Qed.

Lemma getitem_length (col : string) (d : DataFrame) (s : Series) :
  well_formed d -> getitem col d = Returned s -> List.length s = len d.
Proof.
  intros [Hlen _]. unfold getitem.
  induction Hlen as [|[n s0] cs Hc _ IH]; simpl; [discriminate|].
  destruct (String.eqb col n); [intros H; inversion H; subst; exact Hc | exact IH].
Qed.

Lemma traverse_never_stops {A B : Type} (f : A -> outcome B) (l : list A) :
  (forall x, f x <> Stopped) -> traverse f l <> Stopped.
Proof.
  intros Hf. induction l as [|x l IH]; simpl; [discriminate|].
  destruct (f x) eqn:Hx; simpl; try discriminate.
  - destruct (traverse f l); simpl; try discriminate. congruence.
  - now apply Hf in Hx.
Qed.

Lemma traverse_length {A B : Type} (f : A -> outcome B) (l : list A) (r : list B) :
  traverse f l = Returned r -> List.length r = List.length l.
Proof.
  intros H. apply traverse_returned in H. symmetry. eapply Forall2_length; eauto.
Qed.

Lemma update_last {A : Type} (l : list A) (x y : A) :
  update (l ++ [x]) (List.length l) y = l ++ [y].
Proof. induction l as [|z l IH]; simpl; [reflexivity | now rewrite IH]. Qed.

Lemma bind_frame_last {B : Type} (h : list DataFrame) (d : DataFrame)
  (pg : list ui_event) (k : DataFrame -> script B) :
  bind (frame (List.length h)) k (mkState (h ++ [d]) pg)
  = k d (mkState (h ++ [d]) pg).
Proof. apply bind_frame. apply nth_error_last. Qed.

Lemma bind_mutate_last {B : Type} (h : list DataFrame) (d d' : DataFrame)
  (pg : list ui_event) (f : DataFrame -> outcome DataFrame) (k : unit -> script B) :
  f d = Returned d' ->
  bind (mutate (List.length h) f) k (mkState (h ++ [d]) pg)
  = k tt (mkState (h ++ [d']) pg).
Proof.
  intros Hf. unfold mutate. rewrite bind_assoc, bind_frame_last.
  rewrite bind_assoc, (bind_lift _ _ _ _ Hf). unfold bind at 1. cbn [heap page].
  now rewrite update_last.
Qed.

Lemma bind_df_getitem_last {B : Type} (h : list DataFrame) (d : DataFrame)
  (pg : list ui_event) (col : string) (s : Series) (k : Series -> script B) :
  getitem col d = Returned s ->
  bind (df_getitem (List.length h) col) k (mkState (h ++ [d]) pg)
  = k s (mkState (h ++ [d]) pg).
Proof. intros Hs. apply (bind_df_getitem _ _ d); [apply nth_error_last | exact Hs]. Qed.

Lemma bind_df_setitem_last {B : Type} (h : list DataFrame) (d : DataFrame)
  (pg : list ui_event) (col : string) (s : Series) (k : unit -> script B) :
  bind (df_setitem (List.length h) col s) k (mkState (h ++ [d]) pg)
  = k tt (mkState (h ++ [setitem col s d]) pg).
Proof. unfold df_setitem. now apply bind_mutate_last. Qed.

Lemma bind_df_len_last {B : Type} (h : list DataFrame) (d : DataFrame)
  (pg : list ui_event) (k : nat -> script B) :
  bind (df_len (List.length h)) k (mkState (h ++ [d]) pg)
  = k (len d) (mkState (h ++ [d]) pg).
Proof. unfold df_len. now rewrite bind_assoc, bind_frame_last. Qed.

(** ** The loader *)

Lemma try_except_returned {A : Type} (body : script A) (handler : exn -> script A)
  (st st' : state) (a : A) :
  body st = (Returned a, st') -> try_except body handler st = (Returned a, st').
Proof. unfold try_except. now intros ->. Qed.

Lemma try_except_stopped {A : Type} (body : script A) (handler : exn -> script A)
  (st st' : state) :
  body st = (Stopped, st') -> try_except body handler st = (Stopped, st').
Proof. unfold try_except. now intros ->. Qed.

Lemma try_except_raised {A : Type} (body : script A) (handler : exn -> script A)
  (st st' : state) (e : exn) :
  body st = (Raised e, st') -> try_except body handler st = handler e st'.
Proof. unfold try_except. now intros ->. Qed.

Lemma check_columns_stops {B : Type} (cols : list string) (first : string)
  (h : list DataFrame) (raw : DataFrame) (pg : list ui_event) (k : unit -> script B) :
  find (fun col => negb (has_column col raw)) cols = Some first ->
  bind (for_each cols (fun col =>
          d <- frame (List.length h) ;;
          if negb (has_column col d)
          then emit (StError (missing_column_message col)) ;; st_stop
          else ret tt)) k (mkState (h ++ [raw]) pg)
  = (Stopped, mkState (h ++ [raw]) (pg ++ [StError (missing_column_message first)])).
Proof.
  induction cols as [|c cols IH]; simpl; [discriminate|].
  intros Hfind. rewrite !bind_assoc, bind_frame_last.
  destruct (negb (has_column c raw)).
  - inversion Hfind; subst. reflexivity.
  - rewrite bind_ret. rewrite <- IH by exact Hfind. reflexivity.
Qed.

Lemma check_columns_passes {B : Type} (cols : list string)
  (h : list DataFrame) (raw : DataFrame) (pg : list ui_event) (k : unit -> script B) :
  find (fun col => negb (has_column col raw)) cols = None ->
  bind (for_each cols (fun col =>
          d <- frame (List.length h) ;;
          if negb (has_column col d)
          then emit (StError (missing_column_message col)) ;; st_stop
          else ret tt)) k (mkState (h ++ [raw]) pg)
  = k tt (mkState (h ++ [raw]) pg).
Proof.
  induction cols as [|c cols IH]; simpl; [reflexivity|].
  intros Hfind. rewrite !bind_assoc, bind_frame_last.
  destruct (negb (has_column c raw)); [discriminate|].
  rewrite bind_ret. now apply IH.
Qed.

Section Loading.

Variable pd_read_csv : string -> csv_result.
Variable str_to_num : string -> option num.
Variable cast_error : Series -> cast_failure.

(** A file that lacks a required column: the page gets the error naming the
    first one missing, and the run stops there. *)
Lemma load_data_stops_at_first_missing (file_path : string) (raw : DataFrame)
  (first : string) (st : state) :
  pd_read_csv file_path = CsvFrame raw ->
  first_missing raw = Some first ->
  load_data pd_read_csv str_to_num cast_error file_path st
  = (Stopped, mkState (heap st ++ [raw])
                (page st ++ [StError (missing_column_message first)])).
Proof.
  intros Hread Hfirst. unfold load_data. apply try_except_stopped.
  unfold read_csv. rewrite Hread, bind_new_frame. cbn beta.
  destruct st as [h pg]. cbn [heap page].
  now apply check_columns_stops.
Qed.

Lemma getitem_required (col : string) (raw : DataFrame) :
  first_missing raw = None -> In col required_columns ->
  exists s, getitem col raw = Returned s.
Proof.
  intros Hnone Hin. apply has_column_getitem.
  pose proof (find_none _ _ Hnone col Hin) as H. simpl in H.
  now apply negb_false_iff in H.
Qed.

(** The loader on a frame with the required columns: it returns the cleaned
    frame, held by the object [read_csv] created, after the row-count
    warning. *)
Lemma load_data_returns (file_path : string) (raw coerced dropped final : DataFrame)
  (st : state) :
  pd_read_csv file_path = CsvFrame raw ->
  first_missing raw = None ->
  coerce_columns str_to_num cast_error raw = Returned coerced ->
  dropna ["amt"; "hour"]%string coerced = Returned dropped ->
  with_flags dropped = Returned final ->
  load_data pd_read_csv str_to_num cast_error file_path st
  = (Returned (List.length (heap st)),
     mkState (heap st ++ [final])
       (page st ++ removed_rows_warning (len raw) (len dropped))).
Proof.
  intros Hread Hnone Hco Hdrop Hflags. unfold load_data.
  apply try_except_returned.
  unfold read_csv. rewrite Hread, bind_new_frame. cbn beta.
  destruct st as [h pg]. cbn [heap page].
  rewrite check_columns_passes by exact Hnone.
  unfold coerce_columns in Hco.
  destruct (getitem "amt" raw) as [amt| |e] eqn:Hamt; try discriminate.
  cbn [obind] in Hco. cbv zeta in Hco.
  destruct (getitem "hour" _) as [hour| |e] eqn:Hhour; try discriminate.
  cbn [obind] in Hco.
  destruct (astype_Int64 _) as [hour64| |e] eqn:Hcast; try discriminate.
  cbn [obind] in Hco. inversion Hco; subst coerced; clear Hco.
  rewrite (bind_df_getitem_last _ _ _ _ _ _ Hamt).
  rewrite bind_df_setitem_last.
  rewrite (bind_df_getitem_last _ _ _ _ _ _ Hhour).
  rewrite (bind_lift _ _ _ _ Hcast).
  rewrite bind_df_setitem_last.
  rewrite bind_df_len_last.
  rewrite (bind_mutate_last _ _ _ _ _ _ Hdrop).
  rewrite bind_df_len_last.
  rewrite !len_setitem.
  unfold with_flags in Hflags. unfold removed_rows_warning.
  assert (Hwarn : forall (B : Type) (k : unit -> script B),
    bind (if (len dropped <? len raw)%nat
          then emit (StWarning (removed_rows_message (len raw - len dropped)))
          else ret tt) k (mkState (h ++ [dropped]) pg)
    = k tt (mkState (h ++ [dropped])
              (pg ++ (if (len dropped <? len raw)%nat
                      then [StWarning (removed_rows_message (len raw - len dropped))]
                      else [])))).
  { intros B k. destruct (len dropped <? len raw)%nat.
    - reflexivity.
    - rewrite bind_ret, app_nil_r. reflexivity. }
  rewrite Hwarn. rewrite bind_frame_last.
  destruct (has_column "is_fraud" dropped).
  - destruct (getitem "is_fraud" dropped) as [fr| |e] eqn:Hfr; try discriminate.
    cbn [obind] in Hflags.
    destruct (astype_bool fr) as [flags| |e] eqn:Hfl; try discriminate.
    cbn [obind] in Hflags. inversion Hflags; subst final.
    rewrite bind_assoc, (bind_df_getitem_last _ _ _ _ _ _ Hfr). cbn beta.
    rewrite bind_assoc, (bind_lift _ _ _ _ Hfl). cbn beta.
    rewrite bind_df_setitem_last. reflexivity.
  - inversion Hflags; subst final. reflexivity.
Qed.

(** The loader on a frame whose [hour] column does not cast to Int64: the
    exception reaches the generic handler, which reports it and stops. *)
Lemma load_data_unsafe_hour (file_path : string) (raw : DataFrame)
  (amt hour : Series) (st : state) :
  pd_read_csv file_path = CsvFrame raw ->
  first_missing raw = None ->
  getitem "amt" raw = Returned amt ->
  getitem "hour" raw = Returned hour ->
  cast_each (to_numeric str_to_num hour) = None ->
  load_data pd_read_csv str_to_num cast_error file_path st
  = (Stopped,
     mkState (heap st ++ [setitem "amt" (to_numeric str_to_num amt) raw])
       (page st ++ [StError (unexpected_error_message
                               (cast_exn (cast_error (to_numeric str_to_num hour))))])).
Proof.
  intros Hread Hnone Hamt Hhour Hcast. unfold load_data.
  destruct st as [h pg]. cbn [heap page].
  erewrite try_except_raised.
  2:{ unfold read_csv. rewrite Hread, bind_new_frame. cbn beta. cbn [heap page].
      rewrite check_columns_passes by exact Hnone.
      rewrite (bind_df_getitem_last _ _ _ _ _ _ Hamt).
      rewrite bind_df_setitem_last.
      assert (Hhour' : getitem "hour" (setitem "amt" (to_numeric str_to_num amt) raw)
                       = Returned hour)
        by (rewrite getitem_setitem_other; [exact Hhour | discriminate]).
      rewrite (bind_df_getitem_last _ _ _ _ _ _ Hhour').
      unfold bind at 1, lift, astype_Int64. rewrite Hcast. reflexivity. }
  unfold cast_exn; cbn [exn_kind].
  destruct (is_overflow (cast_error (to_numeric str_to_num hour))); reflexivity.
Qed.

Lemma handler_stops (file_path : string) (e : exn) (st : state) :
  exists st',
    match exn_kind e with
    | FileNotFoundError =>
        emit (StError (file_not_found_message file_path)) ;;
        emit (StMarkdown project_layout_help) ;;
        (st_stop : script loc)
    | EmptyDataError =>
        emit (StError (empty_file_message file_path)) ;;
        st_stop
    | _ =>
        emit (StError (unexpected_error_message e)) ;;
        st_stop
    end st = (Stopped, st').
Proof. destruct (exn_kind e); eexists; reflexivity. Qed.

Lemma load_data_read_fails (file_path : string) (e : exn) (st : state) :
  pd_read_csv file_path = CsvRaises e ->
  exists st', load_data pd_read_csv str_to_num cast_error file_path st = (Stopped, st').
Proof.
  intros Hread. unfold load_data.
  erewrite try_except_raised by (unfold read_csv; rewrite Hread; reflexivity).
  apply handler_stops.
Qed.

(** On a frame with the required columns the loader either cleans it and
    returns, or stops the run. *)
Lemma load_data_cases (file_path : string) (raw : DataFrame) (st : state) :
  pd_read_csv file_path = CsvFrame raw ->
  first_missing raw = None ->
  (exists coerced dropped final,
      coerce_columns str_to_num cast_error raw = Returned coerced /\
      dropna ["amt"; "hour"]%string coerced = Returned dropped /\
      with_flags dropped = Returned final)
  \/ (exists st',
        load_data pd_read_csv str_to_num cast_error file_path st = (Stopped, st')).
Proof.
  intros Hread Hnone.
  destruct (getitem_required "amt" raw Hnone) as [amt Hamt]; [simpl; tauto|].
  destruct (getitem_required "hour" raw Hnone) as [hour Hhour]; [simpl; tauto|].
  assert (Hhour' : getitem "hour" (setitem "amt" (to_numeric str_to_num amt) raw)
                   = Returned hour)
    by (rewrite getitem_setitem_other; [exact Hhour | discriminate]).
  unfold coerce_columns. rewrite Hamt. cbn [obind]. cbv zeta. rewrite Hhour'.
  cbn [obind].
  destruct st as [h pg].
  destruct (astype_Int64 cast_error (to_numeric str_to_num hour))
    as [hour64| |e] eqn:Hcast.
  2:{ exfalso. revert Hcast. unfold astype_Int64.
      destruct (cast_each _); discriminate. }
  2:{ right. unfold load_data.
      erewrite try_except_raised.
      2:{ unfold read_csv. rewrite Hread, bind_new_frame. cbn beta. cbn [heap page].
          rewrite check_columns_passes by exact Hnone.
          rewrite (bind_df_getitem_last _ _ _ _ _ _ Hamt).
          rewrite bind_df_setitem_last.
          rewrite (bind_df_getitem_last _ _ _ _ _ _ Hhour').
          unfold bind at 1, lift. rewrite Hcast. reflexivity. }
      apply handler_stops. }
  cbn [obind].
  set (coerced := setitem "hour" hour64 (setitem "amt" (to_numeric str_to_num amt) raw)).
  destruct (dropna ["amt"; "hour"]%string coerced) as [dropped| |e] eqn:Hdrop.
  2:{ exfalso. unfold dropna, notna_mask in Hdrop.
      unfold coerced in Hdrop.
      rewrite getitem_setitem_other, getitem_setitem_same in Hdrop by discriminate.
      rewrite getitem_setitem_same in Hdrop. discriminate. }
  2:{ exfalso. unfold dropna, notna_mask in Hdrop.
      unfold coerced in Hdrop.
      rewrite getitem_setitem_other, getitem_setitem_same in Hdrop by discriminate.
      rewrite getitem_setitem_same in Hdrop. discriminate. }
  destruct (with_flags dropped) as [final| |e] eqn:Hflags.
  - left. exists coerced, dropped, final. auto.
  - exfalso. unfold with_flags in Hflags.
    destruct (has_column "is_fraud" dropped); [|discriminate].
    destruct (getitem "is_fraud" dropped) eqn:Hg; simpl in Hflags;
      try discriminate.
    2:{ unfold getitem in Hg. destruct (assoc _ _); discriminate. }
    destruct (astype_bool a) eqn:Hb; simpl in Hflags; try discriminate.
    revert Hb. unfold astype_bool. apply traverse_never_stops. intros c.
    destruct c; simpl; discriminate.
  - right. unfold load_data.
    rewrite (try_except_raised _ _ _
               (mkState (h ++ [dropped])
                  (pg ++ removed_rows_warning (len coerced) (len dropped))) e).
    2:{ unfold read_csv. rewrite Hread, bind_new_frame. cbn beta. cbn [heap page].
        rewrite check_columns_passes by exact Hnone.
        rewrite (bind_df_getitem_last _ _ _ _ _ _ Hamt).
        rewrite bind_df_setitem_last.
        rewrite (bind_df_getitem_last _ _ _ _ _ _ Hhour').
        rewrite (bind_lift _ _ _ _ Hcast).
        rewrite bind_df_setitem_last.
        rewrite bind_df_len_last.
        fold coerced.
        rewrite (bind_mutate_last _ _ _ _ _ _ Hdrop).
        rewrite bind_df_len_last.
        unfold with_flags in Hflags.
        destruct (has_column "is_fraud" dropped) eqn:Hhas; [|discriminate].
        destruct (getitem "is_fraud" dropped) as [fr| |e'] eqn:Hfr.
        2:{ apply has_column_getitem in Hhas. destruct Hhas as [x Hx].
            rewrite Hx in Hfr. discriminate. }
        2:{ apply has_column_getitem in Hhas. destruct Hhas as [x Hx].
            rewrite Hx in Hfr. discriminate. }
        cbn [obind] in Hflags.
        destruct (astype_bool fr) as [flags| |e'] eqn:Hfl; try discriminate.
        cbn [obind] in Hflags. inversion Hflags; subst e'.
        unfold removed_rows_warning.
        destruct (len dropped <? len coerced)%nat.
        - rewrite bind_emit. cbn [heap page]. rewrite bind_frame_last, Hhas.
          rewrite bind_assoc, (bind_df_getitem_last _ _ _ _ _ _ Hfr). cbn beta.
          rewrite bind_assoc. unfold bind at 1, lift. rewrite Hfl. reflexivity.
        - rewrite bind_ret, bind_frame_last, Hhas.
          rewrite bind_assoc, (bind_df_getitem_last _ _ _ _ _ _ Hfr). cbn beta.
          rewrite bind_assoc. unfold bind at 1, lift. rewrite Hfl.
          now rewrite app_nil_r. }
    apply handler_stops.
Qed.

(** Every frame the loader returns is the cleaned version of the frame read,
    which had the required columns. *)
Lemma load_data_inversion (file_path : string) (st st' : state) (df : loc) :
  load_data pd_read_csv str_to_num cast_error file_path st = (Returned df, st') ->
  exists raw coerced dropped final,
    pd_read_csv file_path = CsvFrame raw /\
    first_missing raw = None /\
    coerce_columns str_to_num cast_error raw = Returned coerced /\
    dropna ["amt"; "hour"]%string coerced = Returned dropped /\
    with_flags dropped = Returned final /\
    df = List.length (heap st) /\
    st' = mkState (heap st ++ [final])
            (page st ++ removed_rows_warning (len raw) (len dropped)).
Proof.
  intros Hload.
  destruct (pd_read_csv file_path) as [raw|e] eqn:Hread.
  2:{ destruct (load_data_read_fails file_path e st Hread) as [st'' H].
      rewrite H in Hload. discriminate. }
  destruct (first_missing raw) as [first|] eqn:Hfirst.
  { rewrite (load_data_stops_at_first_missing file_path raw first st Hread Hfirst)
      in Hload. discriminate. }
  destruct (load_data_cases file_path raw st Hread Hfirst)
    as [(coerced & dropped & final & Hco & Hdrop & Hflags) | [st'' H]].
  - rewrite (load_data_returns file_path raw coerced dropped final st
               Hread Hfirst Hco Hdrop Hflags) in Hload.
    inversion Hload; subst. exists raw, coerced, dropped, final. auto 10.
  - rewrite H in Hload. discriminate.
Qed.

End Loading.

(** ** What the cleaning steps establish *)

Lemma to_numeric_length (p : string -> option num) (s : Series) :
  List.length (to_numeric p s) = List.length s.
Proof.
  unfold to_numeric. destruct (forallb is_bool s); [reflexivity|].
  destruct (forallb num_is_int (map (coerce p) s)); now rewrite !length_map.
Qed.

Lemma to_numeric_numeric (p : string -> option num) (s : Series) :
  Forall numeric_cell (to_numeric p s).
Proof.
  unfold to_numeric. destruct (forallb is_bool s) eqn:Hb.
  - apply Forall_forall. intros c Hc.
    rewrite forallb_forall in Hb. specialize (Hb c Hc).
    destruct c; try discriminate; exact I.
  - destruct (forallb num_is_int (map (coerce p) s)).
    + rewrite Forall_map. apply Forall_forall. intros n _. now destruct n.
    + rewrite Forall_map. apply Forall_forall. intros n _. exact I.
Qed.

Lemma cast_Int64_cell (c v : cell) : cast_Int64 c = Some v -> int64_cell v.
Proof.
  destruct c as [z|f|s|b|]; simpl; intros H; try discriminate.
  - destruct (in_int64 z); inversion H; exact I.
  - destruct (PrimFloat.is_nan f); [inversion H; exact I|].
    destruct (float_to_int64 f); inversion H; exact I.
  - inversion H; exact I.
  - inversion H; exact I.
Qed.

Lemma cast_each_cells (s r : Series) :
  cast_each s = Some r -> Forall int64_cell r /\ List.length r = List.length s.
Proof.
  revert r; induction s as [|c s IH]; intros r; simpl.
  - intros H; inversion H. split; [constructor | reflexivity].
  - destruct (cast_Int64 c) as [v|] eqn:Hc; [|discriminate].
    destruct (cast_each s) as [vs|]; [|discriminate].
    intros H; inversion H; subst r. destruct (IH vs eq_refl) as [Hall Hlen].
    split; [constructor; [now apply cast_Int64_cell in Hc | exact Hall]|].
    simpl. now rewrite Hlen.
Qed.

Lemma astype_Int64_cells (ce : Series -> cast_failure) (s r : Series) :
  astype_Int64 ce s = Returned r ->
  Forall int64_cell r /\ List.length r = List.length s.
Proof.
  unfold astype_Int64. destruct (cast_each s) as [r'|] eqn:E; [|discriminate].
  intros H; inversion H; subst r'. now apply cast_each_cells.
Qed.

Lemma truthy_normalised (c : cell) (b : bool) :
  truthy c = Returned b -> normalised c (VBool b).
Proof.
  destruct c as [z|f|s|b'|]; simpl; intros H; inversion H; subst; clear H.
  - destruct (Z.eqb_spec z 0) as [Hz|Hz]; [subst z|]; simpl; now constructor.
  - destruct (PrimFloat.eqb f 0) eqn:Hf; simpl; now constructor.
  - destruct (String.eqb_spec s "") as [Hs|Hs]; [subst s|]; simpl; now constructor.
  - constructor.
Qed.

Lemma astype_bool_normalised (s r : Series) :
  astype_bool s = Returned r -> Forall2 normalised s r.
Proof.
  intros H. apply traverse_returned in H.
  induction H as [|c v s r Hc _ IH]; constructor; [|exact IH].
  destruct (truthy c) as [b| |e] eqn:Hb; simpl in Hc; inversion Hc; subst.
  now apply truthy_normalised.
Qed.

Lemma normalised_flag (c v : cell) : normalised c v -> is_flag v.
Proof. destruct 1; exact I. Qed.

Lemma repeat_map {A B : Type} (x : B) (l : list A) :
  repeat x (List.length l) = map (fun _ => x) l.
Proof. induction l; simpl; [reflexivity | now f_equal]. Qed.

(** [dropna] keeps exactly the rows with a value in both columns. *)
Lemma dropna_retained (d : DataFrame) (amt hour : Series) :
  well_formed d ->
  getitem "amt" d = Returned amt -> getitem "hour" d = Returned hour ->
  dropna ["amt"; "hour"]%string d = Returned (take_rows (retained d) d).
Proof.
  intros Hwf Hamt Hhour. unfold dropna, notna_mask. rewrite Hamt, Hhour.
  cbn [obind]. do 2 f_equal.
  rewrite <- (rows_length d Hwf), repeat_map.
  rewrite <- (rows_column _ _ _ Hwf Hamt), <- (rows_column _ _ _ Hwf Hhour).
  rewrite !map_map, !map2_map. unfold retained, complete.
  apply map_ext. intros r. now rewrite andb_true_r.
Qed.

Lemma coerce_columns_inversion (p : string -> option num)
  (ce : Series -> cast_failure) (raw coerced : DataFrame) :
  coerce_columns p ce raw = Returned coerced ->
  exists amt hour hour64,
    getitem "amt" raw = Returned amt /\
    getitem "hour" raw = Returned hour /\
    astype_Int64 ce (to_numeric p hour) = Returned hour64 /\
    coerced = setitem "hour" hour64 (setitem "amt" (to_numeric p amt) raw).
Proof.
  unfold coerce_columns. intros H.
  destruct (getitem "amt" raw) as [amt| |e] eqn:Hamt; try discriminate.
  cbn [obind] in H. cbv zeta in H.
  rewrite getitem_setitem_other in H by discriminate.
  destruct (getitem "hour" raw) as [hour| |e] eqn:Hhour; try discriminate.
  cbn [obind] in H.
  destruct (astype_Int64 ce (to_numeric p hour)) as [hour64| |e] eqn:Hcast;
    try discriminate.
  inversion H. exists amt, hour, hour64. auto.
Qed.

(** The coerced frame: same shape and names as the frame read, a numeric
    [amt] column and an Int64 [hour] column. *)
Lemma coerce_columns_dataset (p : string -> option num)
  (ce : Series -> cast_failure) (raw coerced : DataFrame) :
  well_formed raw -> first_missing raw = None ->
  coerce_columns p ce raw = Returned coerced ->
  dataset coerced /\ column_names coerced = column_names raw /\
  index coerced = index raw /\
  (forall col, col <> "amt"%string -> col <> "hour"%string ->
               getitem col coerced = getitem col raw).
Proof.
  intros Hwf Hnone Hco.
  destruct (coerce_columns_inversion p ce raw coerced Hco)
    as (amt & hour & hour64 & Hamt & Hhour & Hcast & ->).
  pose proof (getitem_has_column _ _ _ Hamt) as Ha.
  pose proof (getitem_has_column _ _ _ Hhour) as Hh.
  assert (Hwf1 : well_formed (setitem "amt" (to_numeric p amt) raw)).
  { apply well_formed_setitem; auto.
    rewrite to_numeric_length. now apply (getitem_length "amt"). }
  assert (Hh1 : has_column "hour" (setitem "amt" (to_numeric p amt) raw) = true).
  { erewrite has_column_names; [exact Hh | now apply column_names_setitem]. }
  assert (Hwf2 : well_formed
                   (setitem "hour" hour64 (setitem "amt" (to_numeric p amt) raw))).
  { apply well_formed_setitem; auto.
    rewrite (proj2 (astype_Int64_cells _ _ _ Hcast)), to_numeric_length, len_setitem.
    now apply (getitem_length "hour"). }
  split; [constructor|].
  - exact Hwf2.
  - exists hour64. split; [apply getitem_setitem_same|].
    exact (proj1 (astype_Int64_cells _ _ _ Hcast)).
  - exists (to_numeric p amt). split; [|apply to_numeric_numeric].
    rewrite getitem_setitem_other by discriminate. apply getitem_setitem_same.
  - destruct (getitem_required "category" raw Hnone) as [cs Hcs]; [simpl; tauto|].
    exists cs. now rewrite !getitem_setitem_other by discriminate.
  - split; [|split].
    + rewrite column_names_setitem by exact Hh1. now apply column_names_setitem.
    + reflexivity.
    + intros col H1 H2. now rewrite !getitem_setitem_other by assumption.
Qed.

Lemma select_retained_complete (d : DataFrame) :
  well_formed d ->
  Forall (fun r => complete r = true) (rows (take_rows (retained d) d)).
Proof.
  intros Hwf. rewrite rows_take_rows by exact Hwf. unfold retained.
  rewrite select_map_filter. apply Forall_forall. intros r Hr.
  apply filter_In in Hr. tauto.
Qed.

(** After [dropna], no [hour] and no [amt] is missing. *)
Lemma dropped_complete (d : DataFrame) (col : string) (s : Series) :
  well_formed d -> col = "amt"%string \/ col = "hour"%string ->
  getitem col (take_rows (retained d) d) = Returned s ->
  Forall (fun c => isnull c = false) s.
Proof.
  intros Hwf Hcol Hs.
  pose proof (take_rows_well_formed (retained d) d Hwf) as Hwf'.
  rewrite <- (rows_column _ _ _ Hwf' Hs). rewrite Forall_map.
  eapply Forall_impl; [|apply select_retained_complete; exact Hwf].
  intros r Hr. unfold complete in Hr. apply andb_true_iff in Hr.
  destruct Hr as [H1 H2]. apply negb_true_iff in H1, H2.
  destruct Hcol as [-> | ->]; assumption.
Qed.

Lemma with_flags_inversion (dropped final : DataFrame) :
  with_flags dropped = Returned final ->
  (has_column "is_fraud" dropped = false /\ final = dropped) \/
  (exists source flags,
      has_column "is_fraud" dropped = true /\
      getitem "is_fraud" dropped = Returned source /\
      astype_bool source = Returned flags /\
      final = setitem "is_fraud" flags dropped).
Proof.
  unfold with_flags. intros H.
  destruct (has_column "is_fraud" dropped) eqn:Hhas.
  - right. destruct (getitem "is_fraud" dropped) as [source| |e]; try discriminate.
    cbn [obind] in H.
    destruct (astype_bool source) as [flags| |e] eqn:Hfl; try discriminate.
    inversion H. exists source, flags. auto.
  - left. inversion H. auto.
Qed.

Lemma with_flags_dataset (dropped final : DataFrame) :
  dataset dropped -> with_flags dropped = Returned final ->
  dataset final /\ column_names final = column_names dropped /\
  index final = index dropped /\
  (forall col, col <> "is_fraud"%string -> getitem col final = getitem col dropped).
Proof.
  intros Hds Hflags.
  destruct (with_flags_inversion dropped final Hflags)
    as [[Hno ->] | (source & flags & Hhas & Hsrc & Hfl & ->)].
  - auto.
  - destruct Hds as [Hwf [hs [Hh Hht]] [ams [Ha Hat]] [cs Hc]].
    split; [constructor|].
    + apply well_formed_setitem; auto.
      unfold astype_bool in Hfl. rewrite (traverse_length _ _ _ Hfl).
      now apply (getitem_length "is_fraud").
    + exists hs. now rewrite getitem_setitem_other by discriminate.
    + exists ams. now rewrite getitem_setitem_other by discriminate.
    + exists cs. now rewrite getitem_setitem_other by discriminate.
    + split; [now apply column_names_setitem | split; [reflexivity|]].
      intros col Hcol. now apply getitem_setitem_other.
Qed.

Lemma dropna_inversion (coerced dropped : DataFrame) :
  dataset coerced ->
  dropna ["amt"; "hour"]%string coerced = Returned dropped ->
  dropped = take_rows (retained coerced) coerced.
Proof.
  intros [Hwf [hs [Hh _]] [ams [Ha _]] _] Hdrop.
  rewrite (dropna_retained coerced ams hs Hwf Ha Hh) in Hdrop. now inversion Hdrop.
Qed.

(** The invariant of loading: the frame the loader returns is a dataset in
    which no [hour] and no [amt] is missing. *)
Lemma cleaned_dataset (p : string -> option num)
  (ce : Series -> cast_failure) (raw coerced dropped final : DataFrame) :
  well_formed raw -> first_missing raw = None ->
  coerce_columns p ce raw = Returned coerced ->
  dropna ["amt"; "hour"]%string coerced = Returned dropped ->
  with_flags dropped = Returned final ->
  dataset final /\
  (forall col s, col = "amt"%string \/ col = "hour"%string ->
                 getitem col final = Returned s ->
                 Forall (fun c => isnull c = false) s).
Proof.
  intros Hwf Hnone Hco Hdrop Hflags.
  destruct (coerce_columns_dataset p ce raw coerced Hwf Hnone Hco) as (Hds & _).
  pose proof (dropna_inversion coerced dropped Hds Hdrop) as ->.
  pose proof (dataset_take_rows (retained coerced) coerced Hds) as Hds'.
  destruct (with_flags_dataset _ final Hds' Hflags) as (Hdsf & _ & _ & Hsame).
  split; [exact Hdsf|].
  intros col s Hcol Hs. rewrite Hsame in Hs by (destruct Hcol as [-> | ->]; discriminate).
  exact (dropped_complete coerced col s (ds_well_formed _ Hds) Hcol Hs).
Qed.

Section Loaded.

Variable pd_read_csv : string -> csv_result.
Variable str_to_num : string -> option num.
Variable cast_error : Series -> cast_failure.

(** X2.  The invariant of loading: whatever frame the loader returns is a
    dataset (well formed, Int64 [hour], numeric [amt], a [category] column)
    in which no [hour] and no [amt] is missing. *)
Lemma loaded_dataset (file_path : string) (raw : DataFrame) (st st' : state) (df : loc) :
  pd_read_csv file_path = CsvFrame raw -> well_formed raw ->
  load_data pd_read_csv str_to_num cast_error file_path st = (Returned df, st') ->
  exists d, nth_error (heap st') df = Some d /\ dataset d /\
            (forall col s, col = "amt"%string \/ col = "hour"%string ->
                           getitem col d = Returned s ->
                           Forall (fun c => isnull c = false) s).
Proof.
  intros Hread Hwf Hload.
  destruct (load_data_inversion pd_read_csv str_to_num cast_error file_path st st' df Hload)
    as (raw' & coerced & dropped & final & Hread' & Hnone & Hco & Hdrop & Hflags
        & -> & ->).
  rewrite Hread in Hread'. inversion Hread'; subst raw'.
  exists final. split; [apply nth_error_last|].
  now apply (cleaned_dataset str_to_num cast_error raw coerced dropped final).
Qed.

End Loaded.

(** ** Missing columns *)

Lemma find_after_prefix {A : Type} (f : A -> bool) (pre post : list A) (x : A) :
  (forall y, In y pre -> f y = false) -> f x = true ->
  find f (pre ++ x :: post) = Some x.
Proof.
  intros Hpre Hx. induction pre as [|y pre IH]; simpl.
  - now rewrite Hx.
  - rewrite (Hpre y) by (left; reflexivity). apply IH.
    intros z Hz. apply Hpre. now right.
Qed.

(** C3 (as amended).  Loading a file in which a required column is absent
    always stops the run, without a dataset, after an error that names the
    first absent column in the order hour, amt, category, weekday: the column
    itself whenever no required column before it is absent too. *)
Theorem load_data_missing_column (pd_read_csv : string -> csv_result)
  (str_to_num : string -> option num)
  (cast_error : Series -> cast_failure) (file_path : string) (raw : DataFrame)
  (col : string) (st : state) :
  pd_read_csv file_path = CsvFrame raw ->
  In col required_columns ->
  has_column col raw = false ->
  exists first,
    first_missing raw = Some first /\
    load_data pd_read_csv str_to_num cast_error file_path st
    = (Stopped, mkState (heap st ++ [raw])
                  (page st ++ [StError (missing_column_message first)])) /\
    (forall pre post,
        required_columns = pre ++ col :: post ->
        (forall c, In c pre -> has_column c raw = true) ->
        first = col).
Proof.
  intros Hread Hin Hcol.
  destruct (first_missing raw) as [first|] eqn:Hfirst.
  - exists first. split; [reflexivity|]. split.
    + now apply load_data_stops_at_first_missing.
    + intros pre post Hreq Hpre. unfold first_missing in Hfirst.
      rewrite Hreq in Hfirst.
      rewrite (find_after_prefix _ pre post col) in Hfirst.
      * now inversion Hfirst.
      * intros c Hc. now rewrite (Hpre c Hc).
      * now rewrite Hcol.
  - exfalso. pose proof (find_none _ _ Hfirst col Hin) as H. simpl in H.
    now rewrite Hcol in H.
Qed.

Lemma load_data_missing_column_witness :
  exists first,
    first_missing without_amt = Some first /\
    load_data (disk without_amt) integer_literal cast_refused file_path_to_csv initial
    = (Stopped, mkState (heap initial ++ [without_amt])
                  (page initial ++ [StError (missing_column_message first)])) /\
    (forall pre post,
        required_columns = pre ++ "amt"%string :: post ->
        (forall c, In c pre -> has_column c without_amt = true) ->
        first = "amt"%string).
Proof.
  apply (load_data_missing_column (disk without_amt) integer_literal cast_refused
           file_path_to_csv without_amt "amt" initial).
  - reflexivity.
  - simpl; tauto.
  - reflexivity.
Defined.

(** C3, as stated, fails on a file that lacks two required columns: without
    [hour] and [amt], the error names [hour] and the run stops before [amt]
    is looked at, so no error ever names [amt]. *)
Lemma missing_amt_not_named :
  has_column "amt" labels_only = false /\
  load_data (disk labels_only) integer_literal cast_refused file_path_to_csv initial
  = (Stopped, mkState [labels_only] [StError (missing_column_message "hour")]) /\
  ~ In (StError (missing_column_message "amt"))
       [StError (missing_column_message "hour")].
Proof.
  split; [reflexivity|]. split; [reflexivity|].
  intros [H|[]]. discriminate.
Qed.

(** ** Dropped rows *)

(** C4, at a file the loader does not clean: with a fractional hour the
    cast to Int64 raises, the generic handler reports it with the text pandas
    gave the exception, and the run stops; no row is dropped and no dataset
    is returned. *)
Theorem load_data_fractional_hour (cast_error : Series -> cast_failure) :
  load_data (disk fractional_hour) integer_literal cast_error file_path_to_csv initial
  = (Stopped,
     mkState [fractional_hour]
       [StError (unexpected_error_message
                   (cast_exn (cast_error [VFloat 1; VFloat 2.5])))]).
Proof.
  apply (load_data_unsafe_hour (disk fractional_hour) integer_literal cast_error
           file_path_to_csv fractional_hour [VInt 10; VInt 50]
           [VFloat 1; VFloat 2.5] initial); reflexivity.
Qed.

(** X1.  Whenever the [hour] column casts to Int64, the loader cleans the frame:
    it returns the frame without the rows whose coerced [amt] or [hour] is
    missing, the rows left and the rows dropped add up to the rows read, and
    the warning, written exactly when a row was dropped, states their
    number. *)
Lemma load_data_drops_incomplete_rows (pd_read_csv : string -> csv_result)
  (str_to_num : string -> option num)
  (cast_error : Series -> cast_failure) (file_path : string)
  (raw coerced final : DataFrame) (st : state) :
  pd_read_csv file_path = CsvFrame raw -> well_formed raw ->
  first_missing raw = None ->
  coerce_columns str_to_num cast_error raw = Returned coerced ->
  with_flags (take_rows (retained coerced) coerced) = Returned final ->
  let dropped := List.length (filter (fun r => negb (complete r)) (rows coerced)) in
  load_data pd_read_csv str_to_num cast_error file_path st
  = (Returned (List.length (heap st)),
     mkState (heap st ++ [final])
       (page st ++ if (0 <? dropped)%nat
                   then [StWarning (removed_rows_message dropped)] else [])) /\
  index final = map fst (filter complete (rows coerced)) /\
  len coerced = len raw /\
  (len final + dropped = len raw)%nat.
Proof.
  intros Hread Hwf Hnone Hco Hflags dropped.
  destruct (coerce_columns_dataset str_to_num cast_error raw coerced Hwf Hnone Hco)
    as (Hds & _ & Hix & _).
  pose proof (ds_well_formed _ Hds) as Hwfc.
  destruct Hds as [_ [hs [Hh _]] [ams [Ha _]] _].
  pose proof (dropna_retained coerced ams hs Hwfc Ha Hh) as Hdrop.
  pose proof (load_data_returns pd_read_csv str_to_num cast_error file_path raw coerced _ final
                st Hread Hnone Hco Hdrop Hflags) as Hrun.
  assert (Hlen : len coerced = len raw) by (unfold len; now rewrite Hix).
  assert (Hkept : len (take_rows (retained coerced) coerced)
                  = List.length (filter complete (rows coerced))).
  { rewrite <- (rows_length _ (take_rows_well_formed _ _ Hwfc)).
    rewrite rows_take_rows by exact Hwfc. unfold retained.
    now rewrite select_map_filter. }
  assert (Hfinal : index final = index (take_rows (retained coerced) coerced)).
  { destruct (with_flags_inversion _ _ Hflags)
      as [[_ ->] | (source & flags & _ & _ & _ & ->)]; reflexivity. }
  pose proof (filter_length complete (rows coerced)) as Hsum.
  rewrite (rows_length _ Hwfc), Hlen in Hsum. fold dropped in Hsum.
  assert (Hindex : index (take_rows (retained coerced) coerced)
                   = map fst (filter complete (rows coerced))).
  { unfold take_rows, retained; cbn [index]. rewrite <- select_map_filter.
    rewrite <- select_map. f_equal. unfold rows.
    rewrite map_fst_combine; [reflexivity|].
    rewrite transpose_length; [reflexivity | apply Hwfc]. }
  split; [|split; [|split]].
  - rewrite Hrun. do 3 f_equal. unfold removed_rows_warning. rewrite Hkept.
    destruct (Nat.ltb_spec (List.length (filter complete (rows coerced))) (len raw));
      destruct (Nat.ltb_spec 0 dropped); try lia; [|reflexivity].
    do 3 f_equal. lia.
  - now rewrite Hfinal.
  - exact Hlen.
  - unfold len at 1. rewrite Hfinal. fold (len (take_rows (retained coerced) coerced)).
    rewrite Hkept. exact Hsum.
Qed.

(** ** Default bounds of the hour slider *)

Lemma reduce_smaller_ints (zs : list Z) (a : Z) :
  reduce smaller (VInt a) (map VInt zs) = Returned (VInt (fold_left Z.min zs a)).
Proof.
  revert a; induction zs as [|z zs IH]; intros a; simpl; [reflexivity|].
  destruct (Z.ltb_spec z a).
  - rewrite IH. now rewrite Z.min_r by lia.
  - rewrite IH. now rewrite Z.min_l by lia.
Qed.

Lemma reduce_larger_ints (zs : list Z) (a : Z) :
  reduce larger (VInt a) (map VInt zs) = Returned (VInt (fold_left Z.max zs a)).
Proof.
  revert a; induction zs as [|z zs IH]; intros a; simpl; [reflexivity|].
  destruct (Z.ltb_spec a z).
  - rewrite IH. now rewrite Z.max_r by lia.
  - rewrite IH. now rewrite Z.max_l by lia.
Qed.

Lemma fold_min_spec (zs : list Z) (a : Z) :
  In (fold_left Z.min zs a) (a :: zs) /\
  forall z, In z (a :: zs) -> fold_left Z.min zs a <= z.
Proof.
  revert a; induction zs as [|z zs IH]; intros a; simpl.
  - split; [now left | intros z [<-|[]]; lia].
  - destruct (IH (Z.min a z)) as [Hin Hle]. split.
    + destruct Hin as [Hin|Hin]; [|now right; right].
      destruct (Z.min_spec a z) as [[_ E]|[_ E]]; rewrite E in *; auto.
    + intros y Hy.
      assert (Hm : fold_left Z.min zs (Z.min a z) <= Z.min a z)
        by (apply Hle; now left).
      destruct Hy as [<-|[<-|Hy]]; try lia. apply Hle. now right.
Qed.

Lemma fold_max_spec (zs : list Z) (a : Z) :
  In (fold_left Z.max zs a) (a :: zs) /\
  forall z, In z (a :: zs) -> z <= fold_left Z.max zs a.
Proof.
  revert a; induction zs as [|z zs IH]; intros a; simpl.
  - split; [now left | intros z [<-|[]]; lia].
  - destruct (IH (Z.max a z)) as [Hin Hle]. split.
    + destruct Hin as [Hin|Hin]; [|now right; right].
      destruct (Z.max_spec a z) as [[_ E]|[_ E]]; rewrite E in *; auto.
    + intros y Hy.
      assert (Hm : Z.max a z <= fold_left Z.max zs (Z.max a z))
        by (apply Hle; now left).
      destruct Hy as [<-|[<-|Hy]]; try lia. apply Hle. now right.
Qed.

(** The values of an Int64 column that are not missing. *)
Lemma notnull_int64 (s : Series) :
  Forall int64_cell s ->
  exists zs, notnull s = map VInt zs /\ forall z, In z zs <-> In (VInt z) s.
Proof.
  induction 1 as [|c s Hc _ [zs [Hzs Hin]]].
  - exists []. split; [reflexivity|]. simpl. tauto.
  - destruct c as [z| | | |]; simpl in Hc; try contradiction.
    + exists (z :: zs). unfold notnull in *. simpl. rewrite Hzs.
      split; [reflexivity|]. intros y. simpl. rewrite Hin.
      intuition congruence.
    + exists zs. unfold notnull in *. simpl. split; [exact Hzs|].
      intros y. rewrite Hin. simpl. intuition discriminate.
Qed.

Lemma all_null_notnull (s : Series) :
  forallb isnull s = true <-> notnull s = [].
Proof.
  unfold notnull. induction s as [|c s IH]; simpl; [tauto|].
  destruct (isnull c); simpl; [exact IH|]. split; discriminate.
Qed.

(** C5 (as amended).  For hours that JavaScript can hold (hours of the day
    are), the bounds the script computes for the hour slider are the least
    and the greatest hour that is not missing, and 0 and 23 when every hour
    is missing (in particular when the dataset has no row).  When the two
    differ the slider is drawn with them, as bounds and as default value;
    when they are equal, that is when all hours that are not missing are the
    same, the slider call raises and nothing is drawn. *)
Theorem time_range_default_bounds (df : loc) (d : DataFrame) (hour : Series)
  (inp : user_input) (st : state) :
  nth_error (heap st) df = Some d ->
  getitem "hour" d = Returned hour ->
  Forall int64_cell hour ->
  (forall z, In (VInt z) hour -> js_safe_int z = true) ->
  exists lo hi,
    ((forall c, In c hour -> isnull c = true) -> lo = 0 /\ hi = 23) /\
    ((exists c, In c hour /\ isnull c = false) ->
       In (VInt lo) hour /\ In (VInt hi) hour /\
       forall z, In (VInt z) hour -> lo <= z <= hi) /\
    lo <= hi /\
    (lo < hi ->
       time_range df inp st
       = (Returned (match chosen_hours inp with Some v => v | None => (lo, hi) end),
          mkState (heap st)
            (page st ++ [SidebarSliderInt "Hour Range" lo hi (lo, hi)]))) /\
    (lo = hi ->
       exists e, time_range df inp st = (Raised e, st) /\
                 exn_kind e = StreamlitAPIException).
Proof.
  intros Hdf Hhour Htyped Hsafe.
  destruct (notnull_int64 hour Htyped) as [zs [Hzs Hin]].
  unfold time_range. rewrite (bind_df_getitem _ _ _ _ _ _ Hdf Hhour).
  destruct (forallb isnull hour) eqn:Hall; cbn [negb].
  - exists 0, 23. split; [auto|]. split.
    { intros [c [Hc Hnn]]. rewrite forallb_forall in Hall.
      rewrite (Hall c Hc) in Hnn. discriminate. }
    split; [lia|]. split; [intros _; reflexivity | intros H; discriminate H].
  - destruct zs as [|a zs].
    { apply all_null_notnull in Hzs. congruence. }
    unfold series_min, series_max. rewrite Hzs. cbn [map].
    rewrite reduce_smaller_ints, reduce_larger_ints.
    exists (fold_left Z.min zs a), (fold_left Z.max zs a).
    destruct (fold_min_spec zs a) as [Hmin_in Hmin_le].
    destruct (fold_max_spec zs a) as [Hmax_in Hmax_le].
    split.
    { intros Hnull. exfalso.
      assert (Ha : In (VInt a) hour) by (apply Hin; now left).
      specialize (Hnull _ Ha). discriminate. }
    split.
    { intros _. split; [now apply Hin|]. split; [now apply Hin|].
      intros z Hz. apply Hin in Hz. split; [now apply Hmin_le | now apply Hmax_le]. }
    split.
    { specialize (Hmin_le a (or_introl eq_refl)).
      specialize (Hmax_le a (or_introl eq_refl)). lia. }
    unfold bind, lift, sidebar_slider_int; cbn [py_int]. split.
    + intros Hlt. apply Z.ltb_lt in Hlt. rewrite Hlt.
      rewrite !Hsafe by now apply Hin. reflexivity.
    + intros Heq. rewrite Heq, Z.ltb_irrefl. eexists. split; reflexivity.
Qed.

(** C5, as stated, fails on a dataset with a single hour, one transaction
    for one: the bounds the script computes are equal, the slider call
    raises, and the run ends below the header of the sidebar with no slider
    on the page. *)
Lemma single_hour_no_slider :
  raised_kind (fst (time_range 0%nat no_input (one_frame one_transaction)))
  = Some StreamlitAPIException /\
  snd (time_range 0%nat no_input (one_frame one_transaction))
  = one_frame one_transaction /\
  raised_kind
    (fst (dashboard (disk one_transaction) integer_literal cast_refused no_input
            initial))
  = Some StreamlitAPIException /\
  snd (dashboard (disk one_transaction) integer_literal cast_refused no_input initial)
  = mkState [one_transaction] (page_header ++ [SidebarHeader "Filters"]).
Proof. vm_compute. repeat split; reflexivity. Qed.

(** ** Category options *)

Lemma ascii_compare_lt_trans (a b c : ascii) :
  Ascii.compare a b = Lt -> Ascii.compare b c = Lt -> Ascii.compare a c = Lt.
Proof.
  unfold Ascii.compare. rewrite !N.compare_lt_iff. apply N.lt_trans.
Qed.

Lemma string_compare_lt_trans (s t u : string) :
  String.compare s t = Lt -> String.compare t u = Lt -> String.compare s u = Lt.
Proof.
  revert t u; induction s as [|a s IH]; intros [|b t] [|c u]; simpl;
    try discriminate; try reflexivity.
  destruct (Ascii.compare a b) eqn:Hab; try discriminate;
    destruct (Ascii.compare b c) eqn:Hbc; try discriminate; intros H1 H2.
  - apply Ascii.compare_eq_iff in Hab, Hbc. subst.
    destruct (Ascii.compare c c) eqn:Hcc; try reflexivity.
    + eapply IH; eauto.
    + pose proof (Ascii.compare_antisym c c) as Ha. rewrite Hcc in Ha. discriminate.
  - apply Ascii.compare_eq_iff in Hab. subst. now rewrite Hbc.
  - apply Ascii.compare_eq_iff in Hbc. subst. now rewrite Hab.
  - now rewrite (ascii_compare_lt_trans a b c).
Qed.

Lemma string_ltb_trans (s t u : string) :
  String.ltb s t = true -> String.ltb t u = true -> String.ltb s u = true.
Proof.
  unfold String.ltb. intros H1 H2.
  destruct (String.compare s t) eqn:E1; try discriminate.
  destruct (String.compare t u) eqn:E2; try discriminate.
  now rewrite (string_compare_lt_trans s t u).
Qed.

Lemma string_ltb_connected (s t : string) :
  String.ltb s t = false -> s <> t -> String.ltb t s = true.
Proof.
  unfold String.ltb. intros H Hne. rewrite String.compare_antisym.
  destruct (String.compare s t) eqn:E; simpl; try discriminate; try reflexivity.
  apply String.compare_eq_iff in E. contradiction.
Qed.

Lemma text_lt_trans (a b c : cell) : text_lt a b -> text_lt b c -> text_lt a c.
Proof.
  destruct a, b, c; simpl; try contradiction. apply string_ltb_trans.
Qed.

Lemma cell_eqb_text (s : string) (c : cell) :
  cell_eqb (VStr s) c = true <-> c = VStr s.
Proof.
  destruct c as [z|f|t|b|]; simpl; split; try discriminate.
  - intros H. apply String.eqb_eq in H. now subst.
  - intros H. inversion H. apply String.eqb_refl.
Qed.

Lemma seen_text (s : string) (seen : list cell) :
  existsb (cell_eqb (VStr s)) seen = true <-> In (VStr s) seen.
Proof.
  rewrite existsb_exists. split.
  - intros [c [Hc Heq]]. apply cell_eqb_text in Heq. now subst.
  - intros H. exists (VStr s). split; [exact H | now apply cell_eqb_text].
Qed.

(** On text, [unique] lists every value once. *)
Lemma unique_from_text (s : Series) (seen : list cell) :
  Forall is_text s ->
  NoDup (unique_from seen s) /\
  (forall c, In c (unique_from seen s) <-> In c s /\ ~ In c seen).
Proof.
  intros Htext. revert seen.
  induction Htext as [|c s Hc _ IH]; intros seen; simpl.
  - split; [constructor | tauto].
  - destruct c as [ | |t| | ]; simpl in Hc; try contradiction.
    destruct (existsb (cell_eqb (VStr t)) seen) eqn:Hseen.
    + apply seen_text in Hseen. destruct (IH seen) as [Hnd Hin].
      split; [exact Hnd|]. intros c. rewrite Hin.
      split; [tauto|]. intros [[<-|H] Hn]; [contradiction | tauto].
    + assert (Hnot : ~ In (VStr t) seen).
      { intros H. apply seen_text in H. congruence. }
      destruct (IH (VStr t :: seen)) as [Hnd Hin]. split.
      * constructor; [|exact Hnd]. rewrite Hin. simpl. tauto.
      * intros c. simpl. rewrite Hin. simpl.
        split.
        -- intros [<-|[H1 H2]]; [tauto|]. tauto.
        -- intros [[<-|H1] H2]; [tauto|].
           destruct c as [z|f|u|b|]; try (right; split; [assumption|];
             intros [H|H]; [discriminate | contradiction]).
           destruct (String.string_dec t u) as [->|Hne]; [tauto|].
           right. split; [assumption|]. intros [H|H]; [congruence | contradiction].
Qed.

Lemma insert_text (x : cell) (l : list cell) :
  is_text x -> Forall is_text l ->
  exists r,
    insert x l = Returned r /\ Forall is_text r /\
    (forall c, In c r <-> c = x \/ In c l) /\
    (StronglySorted text_lt l -> ~ In x l -> StronglySorted text_lt r).
Proof.
  intros Hx Hl. induction Hl as [|y l Hy Hl IH]; simpl.
  - exists [x]. split; [reflexivity|]. split; [now constructor|].
    split; [simpl; intuition|]. intros _ _. repeat constructor.
  - destruct x as [ | |s| | ]; simpl in Hx; try contradiction.
    destruct y as [ | |t| | ]; simpl in Hy; try contradiction.
    simpl. destruct (String.ltb s t) eqn:Hlt.
    + exists (VStr s :: VStr t :: l). split; [reflexivity|].
      split; [repeat constructor; assumption|].
      split; [simpl; intuition|].
      intros Hsorted _. constructor; [exact Hsorted|].
      constructor; [exact Hlt|].
      apply StronglySorted_inv in Hsorted. destruct Hsorted as [_ Hall].
      eapply Forall_impl; [|exact Hall]. intros c Hc.
      apply (text_lt_trans (VStr s) (VStr t) c); [exact Hlt | exact Hc].
    + destruct IH as (r & Hr & Htext & Hin & Hsort). rewrite Hr. simpl.
      exists (VStr t :: r). split; [reflexivity|].
      split; [now constructor|].
      split; [intros c; simpl; rewrite Hin; intuition|].
      intros Hsorted Hnot. apply StronglySorted_inv in Hsorted.
      destruct Hsorted as [Hs Hall]. constructor.
      * apply Hsort; [exact Hs|]. intros H. apply Hnot. now right.
      * apply Forall_forall. intros c Hc. apply Hin in Hc.
        destruct Hc as [->|Hc].
        -- simpl. apply string_ltb_connected; [exact Hlt|].
           intros ->. apply Hnot. now left.
        -- rewrite Forall_forall in Hall. now apply Hall.
Qed.

Lemma sorted_into_text (l acc : list cell) :
  Forall is_text l -> Forall is_text acc ->
  StronglySorted text_lt acc -> NoDup l -> (forall c, In c l -> ~ In c acc) ->
  exists r,
    sorted_into acc l = Returned r /\ StronglySorted text_lt r /\
    (forall c, In c r <-> In c acc \/ In c l).
Proof.
  intros Hl. revert acc. induction Hl as [|x l Hx Hl IH]; intros acc Hacc Hs Hnd Hdisj.
  - exists acc. split; [reflexivity|]. split; [exact Hs|]. simpl. tauto.
  - simpl. destruct (insert_text x acc Hx Hacc) as (r & Hr & Htext & Hin & Hsort).
    rewrite Hr. simpl. inversion Hnd as [|? ? Hnx Hnd']; subst.
    destruct (IH r Htext) as (r' & Hr' & Hs' & Hin').
    + apply Hsort; [exact Hs|]. apply Hdisj. now left.
    + exact Hnd'.
    + intros c Hc Hcr. apply Hin in Hcr. destruct Hcr as [->|Hcr].
      * contradiction.
      * apply (Hdisj c); [now right | exact Hcr].
    + exists r'. split; [exact Hr'|]. split; [exact Hs'|].
      intros c. rewrite Hin', Hin. simpl. intuition.
Qed.

Lemma text_lt_irrefl (c : cell) : ~ text_lt c c.
Proof.
  destruct c as [ | |s| | ]; simpl; auto. unfold String.ltb.
  destruct (String.compare s s) eqn:E; try discriminate.
  pose proof (String.compare_antisym s s) as H. rewrite E in H. discriminate.
Qed.

Lemma strictly_sorted_NoDup (l : list cell) :
  StronglySorted text_lt l -> NoDup l.
Proof.
  induction 1 as [|x l _ IH Hall]; constructor; [|exact IH].
  intros Hin. rewrite Forall_forall in Hall.
  exact (text_lt_irrefl x (Hall x Hin)).
Qed.

(** C6 (as amended).  For a dataset whose category values are all text, the
    category options are the distinct category values of the dataset in
    ascending order, and the multiselect is drawn with all of them as its
    default selection. *)
Theorem unique_categories_sorted_default (df : loc) (d : DataFrame)
  (category : Series) (inp : user_input) (st : state) :
  nth_error (heap st) df = Some d ->
  getitem "category" d = Returned category ->
  Forall is_text category ->
  exists options,
    unique_categories df st = (Returned options, st) /\
    StronglySorted text_lt options /\
    NoDup options /\
    (forall c, In c options <-> In c category) /\
    merchant_category options inp st
    = (Returned (match chosen_categories inp with
                 | Some v => v
                 | None => options
                 end),
       mkState (heap st)
         (page st ++ [SidebarMultiselect "Merchant Category" options options])).
Proof.
  intros Hdf Hcat Htext.
  destruct (unique_from_text category [] Htext) as [Hnd Hin].
  assert (Hutext : Forall is_text (unique category)).
  { apply Forall_forall. intros c Hc. apply Hin in Hc.
    rewrite Forall_forall in Htext. now apply Htext. }
  destruct (sorted_into_text (unique category) [] Hutext) as (r & Hr & Hs & Hinr).
  - constructor.
  - constructor.
  - exact Hnd.
  - intros c _ [].
  - exists r. unfold unique_categories.
    rewrite (bind_df_getitem _ _ _ _ _ _ Hdf Hcat).
    unfold lift, sorted. rewrite Hr.
    split; [reflexivity|]. split; [exact Hs|].
    split; [now apply strictly_sorted_NoDup|].
    split; [|reflexivity].
    intros c. rewrite Hinr. unfold unique. rewrite Hin. simpl. tauto.
Qed.

(** C6, as stated, fails on a loaded dataset with a missing category: the
    loader keeps the row, [unique] lists NaN beside the text, and [sorted]
    raises [TypeError] when it compares the two; the run ends there and no
    option is presented. *)
Lemma missing_category_not_sorted :
  load_data (disk missing_category) integer_literal cast_refused file_path_to_csv initial
  = (Returned 0%nat, one_frame missing_category) /\
  unique_categories 0%nat (one_frame missing_category)
  = (Raised (not_supported "'<'"), one_frame missing_category) /\
  fst (dashboard (disk missing_category) integer_literal cast_refused no_input initial)
  = Raised (not_supported "'<'").
Proof. vm_compute. repeat split; reflexivity. Qed.

(** ** The fraud chart *)

Lemma bind_lift_cases {A B : Type} (o : outcome A) (k : A -> script B) (st : state) :
  bind (lift o) k st
  = match o with
    | Returned a => k a st
    | Stopped => (Stopped, st)
    | Raised e => (Raised e, st)
    end.
Proof. destruct o; reflexivity. Qed.

Lemma bind_df_getitem_cases {B : Type} (l : loc) (col : string) (d : DataFrame)
  (k : Series -> script B) (st : state) :
  nth_error (heap st) l = Some d ->
  bind (df_getitem l col) k st
  = match getitem col d with
    | Returned s => k s st
    | Stopped => (Stopped, st)
    | Raised e => (Raised e, st)
    end.
Proof.
  intros H. unfold df_getitem, bind, frame, lift. rewrite H.
  destruct (getitem col d); reflexivity.
Qed.

(** Whenever lines 113-119 return, the result is a new frame holding rows of
    the dataset, selected by some mask. *)
Lemma apply_filters_inversion (df filtered : loc) (d : DataFrame) (hours : Z * Z)
  (amounts : float * float) (categories : list cell) (st st' : state) :
  nth_error (heap st) df = Some d ->
  apply_filters df hours amounts categories st = (Returned filtered, st') ->
  exists mask,
    filtered = List.length (heap st ++ [boolean_index mask d]) /\
    st' = mkState ((heap st ++ [boolean_index mask d]) ++ [boolean_index mask d])
            (page st) /\
    has_column "hour" d = true /\ has_column "amt" d = true.
Proof.
  intros Hdf H. unfold apply_filters in H.
  rewrite (bind_df_getitem_cases _ _ d) in H by exact Hdf.
  destruct (getitem "hour" d) as [hour| |e] eqn:Hh; try discriminate.
  cbn beta in H.
  rewrite (bind_lift_cases (series_ge hour (VInt (fst hours)))) in H.
  destruct (series_ge hour _) as [m1| |e]; try discriminate. cbn beta in H.
  rewrite (bind_df_getitem_cases _ _ d) in H by exact Hdf. rewrite Hh in H.
  rewrite (bind_lift_cases (series_le hour (VInt (snd hours)))) in H.
  destruct (series_le hour _) as [m2| |e]; try discriminate. cbn beta in H.
  rewrite (bind_df_getitem_cases _ _ d) in H by exact Hdf.
  destruct (getitem "amt" d) as [amt| |e] eqn:Ha; try discriminate.
  cbn beta in H.
  rewrite (bind_lift_cases (series_ge amt (VFloat (fst amounts)))) in H.
  destruct (series_ge amt _) as [m3| |e]; try discriminate. cbn beta in H.
  rewrite (bind_df_getitem_cases _ _ d) in H by exact Hdf. rewrite Ha in H.
  rewrite (bind_lift_cases (series_le amt (VFloat (snd amounts)))) in H.
  destruct (series_le amt _) as [m4| |e]; try discriminate. cbn beta in H.
  rewrite (bind_df_getitem_cases _ _ d) in H by exact Hdf.
  destruct (getitem "category" d) as [category| |e]; try discriminate.
  cbn beta in H.
  cbv zeta in H. rewrite (bind_frame _ _ _ _ Hdf) in H.
  rewrite bind_new_frame in H.
  unfold copy, bind, frame, new_frame in H. cbn [heap page] in H.
  rewrite nth_error_last in H. inversion H.
  eexists. split; [reflexivity|]. split; [reflexivity|].
  split; eapply getitem_has_column; eassumption.
Qed.

(** What the filtering step (lines 112-122) returns is either the empty
    frame, or rows of the dataset under the dataset's column names; the
    dataset object stays where it was. *)
Lemma df_filtered_inversion (df filtered : loc) (d : DataFrame) (hours : Z * Z)
  (amounts : float * float) (categories : list cell) (st st' : state) :
  nth_error (heap st) df = Some d ->
  df_filtered df hours amounts categories st = (Returned filtered, st') ->
  nth_error (heap st') df = Some d /\
  exists f, nth_error (heap st') filtered = Some f /\
            (f = empty_frame \/
             exists mask, f = boolean_index mask d /\
                          has_column "hour" d = true /\ has_column "amt" d = true).
Proof.
  intros Hdf H. unfold df_filtered in H. rewrite (bind_frame _ _ _ _ Hdf) in H.
  destruct (empty d); cbn [negb] in H.
  - inversion H; subst. cbn [heap]. split; [now apply nth_error_keep|].
    exists empty_frame. split; [apply nth_error_last | now left].
  - destruct (apply_filters_inversion _ _ _ _ _ _ _ _ Hdf H)
      as (mask & -> & -> & Hh & Ha).
    cbn [heap]. split; [now do 2 apply nth_error_keep|].
    exists (boolean_index mask d). split; [apply nth_error_last|].
    right. now exists mask.
Qed.

Lemma some_not_null (s : Series) :
  forallb isnull s = false <-> exists c, In c s /\ isnull c = false.
Proof.
  induction s as [|c s IH]; simpl.
  - split; [discriminate | intros [c [[] _]]].
  - destruct (isnull c) eqn:Hc; simpl.
    + rewrite IH. split; intros [x [Hx Hn]]; [eauto|].
      destruct Hx as [<-|Hx]; [congruence | eauto].
    + split; [eauto | reflexivity].
Qed.

Lemma groupby_keys_present (d : DataFrame) :
  has_column "hour" d = true -> has_column "weekday" d = true ->
  groupby_keys ["hour"; "weekday"]%string d = Returned tt.
Proof.
  intros Hh Hw. unfold groupby_keys. simpl.
  destruct (has_column_getitem _ _ Hh) as [hs ->].
  destruct (has_column_getitem _ _ Hw) as [ws ->]. reflexivity.
Qed.

(** Lines 126-165 on a non-empty filtered frame that has the columns to
    plot: the two charts, then either the fraud chart or the notice, as
    line 159 decides. *)
Lemma visualizations_run (df filtered : loc) (d f : DataFrame) (st : state) :
  nth_error (heap st) df = Some d ->
  nth_error (heap st) filtered = Some f ->
  empty f = false ->
  has_column "hour" f = true -> has_column "amt" f = true ->
  has_column "weekday" f = true ->
  (has_column "is_fraud" d = true -> has_column "is_fraud" f = true) ->
  exists available : bool,
    visualizations df filtered st
    = (Returned tt,
       mkState (heap st)
         (page st ++ amount_and_volume_charts f ++
          if available
          then [StSubheader "Fraud vs Non-Fraud Amounts";
                PlotlyChart (px_box f "is_fraud" "amt" "all"
                               "Fraud vs Non-Fraud Amounts")]
          else [StInfo fraud_unavailable_message])) /\
    (available = true <-> fraud_available d f).
Proof.
  intros Hdf Hf Hne Hh Ha Hw Hcols. unfold visualizations.
  rewrite (bind_frame _ _ _ _ Hf), Hne. cbn [negb].
  rewrite bind_emit.
  assert (Hpx : px_columns ["amt"]%string f = Returned tt)
    by (unfold px_columns; simpl; now rewrite Ha).
  rewrite (bind_lift _ _ _ _ Hpx). rewrite !bind_emit.
  rewrite (bind_lift _ _ _ _ (groupby_keys_present f Hh Hw)).
  rewrite bind_emit. cbn [heap page].
  rewrite (bind_frame _ d) by exact Hdf.
  unfold amount_and_volume_charts, fraud_available.
  destruct (has_column "is_fraud" d) eqn:Hhas.
  - pose proof (Hcols eq_refl) as Hff.
    destruct (has_column_getitem _ _ Hff) as [s Hs].
    rewrite bind_assoc, (bind_df_getitem _ _ f s) by assumption. cbn beta.
    rewrite bind_ret.
    destruct (forallb isnull s) eqn:Hall; cbn [negb].
    + unfold bind, emit; cbn [heap page]; rewrite <- !app_assoc; cbn [app].
      exists false. split; [reflexivity|]. split; [discriminate|].
      intros (_ & s' & c & Hs' & Hc & Hn). rewrite Hs in Hs'. inversion Hs'; subst s'.
      rewrite forallb_forall in Hall. rewrite (Hall c Hc) in Hn. discriminate.
    + rewrite bind_emit.
      assert (Hbox : px_columns ["is_fraud"; "amt"]%string f = Returned tt)
        by (unfold px_columns; simpl; now rewrite Hff, Ha).
      rewrite (bind_lift _ _ _ _ Hbox).
      unfold bind, emit; cbn [heap page]; rewrite <- !app_assoc; cbn [app].
      exists true. split; [reflexivity|]. split; [|reflexivity].
      intros _. split; [reflexivity|].
      apply some_not_null in Hall. destruct Hall as [c [Hc Hn]]. eauto.
  - rewrite bind_ret. unfold bind, emit; cbn [heap page].
    rewrite <- !app_assoc; cbn [app].
    exists false. split; [reflexivity|]. split; [discriminate|].
    intros [H _]. discriminate.
Qed.



(** ** The fraud flag *)

Lemma nan_is_not_zero (f : float) :
  PrimFloat.is_nan f = true -> PrimFloat.eqb f 0 = false.
Proof.
  unfold PrimFloat.is_nan. rewrite !FloatAxioms.eqb_spec. intros H.
  apply negb_true_iff in H.
  destruct (Prim2SF f) as [s|s| |s m e]; try reflexivity; exfalso; revert H;
    unfold SFeqb, SFcompare.
  - discriminate.
  - destruct s; discriminate.
  - destruct s; rewrite Z.compare_refl, Pos.compare_cont_refl; discriminate.
Qed.

(** A missing source value that normalises at all normalises to true. *)
Lemma normalised_null (c v : cell) :
  normalised c v -> isnull c = true -> v = VBool true.
Proof.
  destruct 1 as [ |z Hz|f Hf|f Hf| |s Hs|b]; simpl; try discriminate;
    try reflexivity.
  intros Hnan. apply nan_is_not_zero in Hnan. congruence.
Qed.

Section Flags.

Variable pd_read_csv : string -> csv_result.
Variable str_to_num : string -> option num.
Variable cast_error : Series -> cast_failure.

(** The [is_fraud] column of a loaded dataset, against the column read. *)
Lemma loaded_flags (file_path : string) (raw : DataFrame) (source : Series)
  (st st' : state) (df : loc) :
  pd_read_csv file_path = CsvFrame raw -> well_formed raw ->
  getitem "is_fraud" raw = Returned source ->
  load_data pd_read_csv str_to_num cast_error file_path st = (Returned df, st') ->
  exists coerced final flags,
    coerce_columns str_to_num cast_error raw = Returned coerced /\
    nth_error (heap st') df = Some final /\
    dataset final /\
    getitem "is_fraud" final = Returned flags /\
    Forall2 normalised (select (retained coerced) source) flags.
Proof.
  intros Hread Hwf Hsrc Hload.
  destruct (load_data_inversion pd_read_csv str_to_num cast_error file_path st st' df Hload)
    as (raw' & coerced & dropped & final & Hread' & Hnone & Hco & Hdrop & Hflags
        & -> & ->).
  rewrite Hread in Hread'. inversion Hread'; subst raw'.
  destruct (coerce_columns_dataset str_to_num cast_error raw coerced Hwf Hnone Hco)
    as (Hds & _ & _ & Hsame).
  pose proof (dropna_inversion coerced dropped Hds Hdrop) as ->.
  assert (Hdropped : getitem "is_fraud" (take_rows (retained coerced) coerced)
                     = Returned (select (retained coerced) source)).
  { apply getitem_take_rows. rewrite Hsame by discriminate. exact Hsrc. }
  destruct (cleaned_dataset str_to_num cast_error raw coerced _ final Hwf Hnone Hco Hdrop Hflags)
    as [Hfinal _].
  destruct (with_flags_inversion _ final Hflags)
    as [[Hno _] | (source' & flags & _ & Hsrc' & Hfl & ->)].
  - apply getitem_has_column in Hdropped. congruence.
  - rewrite Hdropped in Hsrc'. inversion Hsrc'; subst source'.
    exists coerced, (setitem "is_fraud" flags (take_rows (retained coerced) coerced)), flags.
    split; [exact Hco|]. split; [apply nth_error_last|].
    split; [exact Hfinal|]. split; [apply getitem_setitem_same|].
    now apply astype_bool_normalised.
Qed.

End Flags.

(** C8.  When the file read has an [is_fraud] column, the loaded dataset has
    that column as booleans: the value of every retained row is [true] when
    the source value is a non-zero number or a non-empty text, [false] when
    it is zero or empty, and the source value itself when that is a
    boolean. *)
Theorem load_data_normalises_is_fraud (pd_read_csv : string -> csv_result)
  (str_to_num : string -> option num)
  (cast_error : Series -> cast_failure) (file_path : string) (raw : DataFrame)
  (source : Series) (st st' : state) (df : loc) :
  pd_read_csv file_path = CsvFrame raw -> well_formed raw ->
  getitem "is_fraud" raw = Returned source ->
  load_data pd_read_csv str_to_num cast_error file_path st = (Returned df, st') ->
  exists coerced final flags,
    coerce_columns str_to_num cast_error raw = Returned coerced /\
    nth_error (heap st') df = Some final /\
    getitem "is_fraud" final = Returned flags /\
    Forall is_flag flags /\
    Forall2 normalised (select (retained coerced) source) flags.
Proof.
  intros Hread Hwf Hsrc Hload.
  destruct (loaded_flags pd_read_csv str_to_num cast_error file_path raw source st st' df
              Hread Hwf Hsrc Hload)
    as (coerced & final & flags & Hco & Hdf & _ & Hflags & Hnorm).
  exists coerced, final, flags. repeat split; try assumption.
  clear - Hnorm. induction Hnorm as [|c v s r Hcv _ IH]; constructor; [|exact IH].
  now apply normalised_flag in Hcv.
Qed.

(** C9.  When the file read has an [is_fraud] column, no [is_fraud] value of
    the loaded dataset is missing: all are booleans, a missing source value
    having become [true].  So every non-empty filtered dataset has a value
    in that column, and line 159 lets the fraud chart through. *)
Theorem loaded_is_fraud_never_null (pd_read_csv : string -> csv_result)
  (str_to_num : string -> option num)
  (cast_error : Series -> cast_failure) (file_path : string) (raw : DataFrame)
  (source : Series) (st st' : state) (df : loc) :
  pd_read_csv file_path = CsvFrame raw -> well_formed raw ->
  getitem "is_fraud" raw = Returned source ->
  load_data pd_read_csv str_to_num cast_error file_path st = (Returned df, st') ->
  exists coerced d flags,
    coerce_columns str_to_num cast_error raw = Returned coerced /\
    nth_error (heap st') df = Some d /\
    getitem "is_fraud" d = Returned flags /\
    Forall (fun v => isnull v = false) flags /\
    Forall2 (fun c v => isnull c = true -> v = VBool true)
      (select (retained coerced) source) flags /\
    (forall hours amounts categories st1 st2 filtered f,
        nth_error (heap st1) df = Some d ->
        df_filtered df hours amounts categories st1 = (Returned filtered, st2) ->
        nth_error (heap st2) filtered = Some f ->
        empty f = false ->
        fraud_available d f).
Proof.
  intros Hread Hwf Hsrc Hload.
  destruct (loaded_flags pd_read_csv str_to_num cast_error file_path raw source st st' df
              Hread Hwf Hsrc Hload)
    as (coerced & d & flags & Hco & Hdf & Hds & Hflags & Hnorm).
  assert (Hnn : Forall (fun v => isnull v = false) flags).
  { clear - Hnorm. induction Hnorm as [|c v s r Hcv _ IH]; constructor; [|exact IH].
    apply normalised_flag in Hcv. now destruct v. }
  exists coerced, d, flags. split; [exact Hco|]. split; [exact Hdf|].
  split; [exact Hflags|]. split; [exact Hnn|]. split.
  { clear - Hnorm. induction Hnorm as [|c v s r Hcv _ IH]; constructor; [|exact IH].
    now apply normalised_null. }
  intros hours amounts categories st1 st2 filtered f Hd Hfilter Hf Hne.
  destruct (df_filtered_inversion _ _ _ _ _ _ _ _ Hd Hfilter)
    as (_ & f' & Hf' & Hshape).
  rewrite Hf in Hf'. inversion Hf'; subst f'.
  destruct Hshape as [-> | (mask & -> & _ & _)]; [discriminate|].
  split; [now apply (getitem_has_column _ _ flags)|].
  unfold boolean_index in *.
  pose proof (getitem_take_rows "is_fraud" (map is_true mask) d flags Hflags) as Hsel.
  pose proof (take_rows_well_formed (map is_true mask) d (ds_well_formed d Hds)) as Hwf'.
  pose proof (getitem_length _ _ _ Hwf' Hsel) as Hlen.
  destruct (select (map is_true mask) flags) as [|c s] eqn:Hs.
  - exfalso. unfold empty in Hne. apply orb_false_iff in Hne.
    destruct Hne as [Hne _]. apply Nat.eqb_neq in Hne. simpl in Hlen. congruence.
  - exists (c :: s), c. split; [exact Hsel|]. split; [now left|].
    assert (Hall : Forall (fun v => isnull v = false) (c :: s)).
    { rewrite <- Hs. now apply select_Forall. }
    now inversion Hall.
Qed.

(** ** The properties on the sample inputs *)

Lemma transactions_csv_well_formed : well_formed transactions_csv.
Proof.
  split; [repeat constructor|].
  unfold column_names; simpl. repeat constructor; simpl; intuition discriminate.
Qed.

Lemma time_range_default_bounds_witness :
  exists lo hi,
    ((forall c, In c [VInt 1; VInt 5; VInt 10; VInt 15; VInt 20] -> isnull c = true) ->
     lo = 0 /\ hi = 23) /\
    ((exists c, In c [VInt 1; VInt 5; VInt 10; VInt 15; VInt 20] /\ isnull c = false) ->
       In (VInt lo) [VInt 1; VInt 5; VInt 10; VInt 15; VInt 20] /\
       In (VInt hi) [VInt 1; VInt 5; VInt 10; VInt 15; VInt 20] /\
       forall z, In (VInt z) [VInt 1; VInt 5; VInt 10; VInt 15; VInt 20] ->
                 lo <= z <= hi) /\
    lo <= hi /\
    (lo < hi ->
       time_range 0%nat no_input (one_frame transactions)
       = (Returned (match chosen_hours no_input with Some v => v | None => (lo, hi) end),
          mkState (heap (one_frame transactions))
            (page (one_frame transactions)
             ++ [SidebarSliderInt "Hour Range" lo hi (lo, hi)]))) /\
    (lo = hi ->
       exists e, time_range 0%nat no_input (one_frame transactions)
                 = (Raised e, one_frame transactions) /\
                 exn_kind e = StreamlitAPIException).
Proof.
  apply (time_range_default_bounds 0%nat transactions
           [VInt 1; VInt 5; VInt 10; VInt 15; VInt 20] no_input
           (one_frame transactions)).
  - reflexivity.
  - reflexivity.
  - repeat constructor.
  - intros z [H|[H|[H|[H|[H|[]]]]]]; injection H as <-; reflexivity.
Defined.

Lemma unique_categories_sorted_default_witness :
  exists options,
    unique_categories 0%nat (one_frame transactions)
    = (Returned options, one_frame transactions) /\
    StronglySorted text_lt options /\
    NoDup options /\
    (forall c, In c options <->
               In c [VStr "A"; VStr "B"; VStr "A"; VStr "C"; VStr "B"]) /\
    merchant_category options no_input (one_frame transactions)
    = (Returned (match chosen_categories no_input with
                 | Some v => v
                 | None => options
                 end),
       mkState (heap (one_frame transactions))
         (page (one_frame transactions)
          ++ [SidebarMultiselect "Merchant Category" options options])).
Proof.
  apply (unique_categories_sorted_default 0%nat transactions
           [VStr "A"; VStr "B"; VStr "A"; VStr "C"; VStr "B"] no_input
           (one_frame transactions)).
  - reflexivity.
  - reflexivity.
  - repeat constructor.
Defined.


Lemma load_data_normalises_is_fraud_witness :
  exists coerced final flags,
    coerce_columns integer_literal cast_refused transactions_csv = Returned coerced /\
    nth_error (heap loaded_state) 0%nat = Some final /\
    getitem "is_fraud" final = Returned flags /\
    Forall is_flag flags /\
    Forall2 normalised
      (select (retained coerced)
         [VFloat 0; VFloat 1; VFloat PrimFloat.nan; VFloat 0; VFloat 1; VFloat 0])
      flags.
Proof.
  apply (load_data_normalises_is_fraud (disk transactions_csv) integer_literal cast_refused
           file_path_to_csv transactions_csv
           [VFloat 0; VFloat 1; VFloat PrimFloat.nan; VFloat 0; VFloat 1; VFloat 0]
           initial loaded_state 0%nat).
  - reflexivity.
  - exact transactions_csv_well_formed.
  - reflexivity.
  - vm_compute. reflexivity.
Defined.

Lemma loaded_is_fraud_never_null_witness :
  exists coerced d flags,
    coerce_columns integer_literal cast_refused transactions_csv = Returned coerced /\
    nth_error (heap loaded_state) 0%nat = Some d /\
    getitem "is_fraud" d = Returned flags /\
    Forall (fun v => isnull v = false) flags /\
    Forall2 (fun c v => isnull c = true -> v = VBool true)
      (select (retained coerced)
         [VFloat 0; VFloat 1; VFloat PrimFloat.nan; VFloat 0; VFloat 1; VFloat 0])
      flags /\
    (forall hours amounts categories st1 st2 filtered f,
        nth_error (heap st1) 0%nat = Some d ->
        df_filtered 0%nat hours amounts categories st1 = (Returned filtered, st2) ->
        nth_error (heap st2) filtered = Some f ->
        empty f = false ->
        fraud_available d f).
Proof.
  apply (loaded_is_fraud_never_null (disk transactions_csv) integer_literal cast_refused
           file_path_to_csv transactions_csv
           [VFloat 0; VFloat 1; VFloat PrimFloat.nan; VFloat 0; VFloat 1; VFloat 0]
           initial loaded_state 0%nat).
  - reflexivity.
  - exact transactions_csv_well_formed.
  - reflexivity.
  - vm_compute. reflexivity.
Defined.

(** The whole page on the sample file, the widgets untouched: one row is
    dropped for its hour and one for its amount, the hour slider runs from 3
    to 22, the categories are offered in order, and all three charts are
    drawn. *)
Example dashboard_on_sample :
  let run := dashboard (disk transactions_csv) integer_literal cast_refused no_input initial in
  fst run = Returned tt /\
  map (fun e => match e with PlotlyChart _ => StInfo "chart" | _ => e end)
    (page (snd run))
  = [SetPageConfig "Credit Card Transactions Dashboard" "wide";
     StTitle "💳 Credit Card Transactions Dashboard";
     StWarning "Removed 2 rows due to missing or invalid 'amt' or 'hour' values.";
     SidebarHeader "Filters";
     SidebarSliderInt "Hour Range" 3 22 (3, 22);
     SidebarSliderFloat "Transaction Amount Range" 10 1000 (10%float, 1000%float);
     SidebarMultiselect "Merchant Category"
       [VStr "gas"; VStr "grocery"; VStr "travel"]
       [VStr "gas"; VStr "grocery"; VStr "travel"];
     StSubheader "Transaction Amount Distribution";
     StInfo "chart";
     StSubheader "Transactions by Hour and Weekday";
     StInfo "chart";
     StSubheader "Fraud vs Non-Fraud Amounts";
     StInfo "chart"].
Proof. vm_compute. split; reflexivity. Qed.

(** ** Further properties of the page *)

(** X3.  A path that [read_csv] does not find: the page gets the error and the
    expected project layout, the run stops, and no dataset is returned. *)
Theorem load_data_file_not_found (pd_read_csv : string -> csv_result)
  (str_to_num : string -> option num)
  (cast_error : Series -> cast_failure) (file_path : string) (e : exn) (st : state) :
  pd_read_csv file_path = CsvRaises e ->
  exn_kind e = FileNotFoundError ->
  load_data pd_read_csv str_to_num cast_error file_path st
  = (Stopped,
     mkState (heap st)
       (page st ++ [StError (file_not_found_message file_path);
                    StMarkdown project_layout_help])).
Proof.
  intros Hread Hkind. unfold load_data.
  erewrite try_except_raised by (unfold read_csv; rewrite Hread; reflexivity).
  rewrite Hkind. unfold bind, emit, st_stop. cbn [heap page].
  now rewrite <- app_assoc.
Qed.

Lemma load_data_file_not_found_witness :
  load_data no_file integer_literal cast_refused file_path_to_csv initial
  = (Stopped,
     mkState (heap initial)
       (page initial ++ [StError (file_not_found_message file_path_to_csv);
                         StMarkdown project_layout_help])).
Proof.
  apply (load_data_file_not_found no_file integer_literal cast_refused file_path_to_csv
           (mkExn FileNotFoundError "No such file or directory") initial).
  - reflexivity.
  - reflexivity.
Defined.

(** X4.  A filtered frame without rows: no chart is drawn, only the notice that
    no data matches the filters. *)
Theorem visualizations_nothing_matches (df filtered : loc) (f : DataFrame)
  (st : state) :
  nth_error (heap st) filtered = Some f ->
  empty f = true ->
  visualizations df filtered st
  = (Returned tt, mkState (heap st) (page st ++ [StWarning no_match_message])).
Proof.
  intros Hf He. unfold visualizations.
  rewrite (bind_frame _ _ _ _ Hf), He. reflexivity.
Qed.

Lemma visualizations_nothing_matches_witness :
  visualizations 0%nat 1%nat (mkState [transactions; take_rows [] transactions] [])
  = (Returned tt,
     mkState (heap (mkState [transactions; take_rows [] transactions] []))
       (page (mkState [transactions; take_rows [] transactions] [])
        ++ [StWarning no_match_message])).
Proof.
  apply (visualizations_nothing_matches 0%nat 1%nat (take_rows [] transactions)
           (mkState [transactions; take_rows [] transactions] [])).
  - reflexivity.
  - reflexivity.
Defined.

Lemma loaded_dataset_witness :
  exists d, nth_error (heap loaded_state) 0%nat = Some d /\ dataset d /\
            (forall col s, col = "amt"%string \/ col = "hour"%string ->
                           getitem col d = Returned s ->
                           Forall (fun c => isnull c = false) s).
Proof.
  apply (loaded_dataset (disk transactions_csv) integer_literal cast_refused file_path_to_csv
           transactions_csv initial loaded_state 0%nat).
  - reflexivity.
  - exact transactions_csv_well_formed.
  - vm_compute. reflexivity.
Defined.

Lemma load_data_drops_incomplete_rows_witness :
  load_data (disk transactions_csv) integer_literal cast_refused file_path_to_csv initial
  = (Returned (List.length (heap initial)),
     mkState (heap initial ++ [loaded_transactions])
       (page initial ++
        if (0 <? List.length (filter (fun r => negb (complete r))
                                (rows coerced_transactions)))%nat
        then [StWarning
                (removed_rows_message
                   (List.length (filter (fun r => negb (complete r))
                                   (rows coerced_transactions))))]
        else [])) /\
  index loaded_transactions = map fst (filter complete (rows coerced_transactions)) /\
  len coerced_transactions = len transactions_csv /\
  (len loaded_transactions
   + List.length (filter (fun r => negb (complete r)) (rows coerced_transactions))
   = len transactions_csv)%nat.
Proof.
  apply (load_data_drops_incomplete_rows (disk transactions_csv) integer_literal cast_refused
           file_path_to_csv transactions_csv coerced_transactions
           loaded_transactions initial).
  - reflexivity.
  - exact transactions_csv_well_formed.
  - reflexivity.
  - vm_compute. reflexivity.
  - vm_compute. reflexivity.
Defined.

(** ** The order of float64 values *)

Lemma SFleb_key (x y : spec_float) :
  x <> S754_nan -> y <> S754_nan ->
  (SFleb x y = true <-> key_le (float_key x) (float_key y)).
Proof.
  intros Hx Hy. unfold SFleb.
  destruct x as [sx|sx| |sx mx ex], y as [sy|sy| |sy my ey]; try congruence;
    try destruct sx; try destruct sy; simpl; try (split; [intros _; lia | reflexivity]);
    try (split; [discriminate | lia]).
  - rewrite Pos.compare_cont_spec. simpl.
    destruct (Z.compare_spec ex ey), (Pos.compare_spec mx my); simpl;
      (split; [try discriminate; intros _; lia | try reflexivity; lia]).
  - destruct (Z.compare_spec ex ey);
      [rewrite Pos.compare_cont_spec; simpl; destruct (Pos.compare_spec mx my)| |]; simpl;
      (split; [try discriminate; intros _; lia | try reflexivity; lia]).
Qed.

Lemma SFltb_key (x y : spec_float) :
  x <> S754_nan -> y <> S754_nan ->
  (SFltb x y = true <-> key_lt (float_key x) (float_key y)).
Proof.
  intros Hx Hy. unfold SFltb.
  destruct x as [sx|sx| |sx mx ex], y as [sy|sy| |sy my ey]; try congruence;
    try destruct sx; try destruct sy; simpl; try (split; [intros _; lia | reflexivity]);
    try (split; [discriminate | lia]).
  - rewrite Pos.compare_cont_spec. simpl.
    destruct (Z.compare_spec ex ey), (Pos.compare_spec mx my); simpl;
      (split; [try discriminate; intros _; lia | try reflexivity; lia]).
  - destruct (Z.compare_spec ex ey);
      [rewrite Pos.compare_cont_spec; simpl; destruct (Pos.compare_spec mx my)| |]; simpl;
      (split; [try discriminate; intros _; lia | try reflexivity; lia]).
Qed.

Lemma SFcompare_refl (x : spec_float) : x <> S754_nan -> SFcompare x x = Some Eq.
Proof.
  destruct x as [s|s| |s m e]; try congruence; intros _; simpl.
  - reflexivity.
  - now destruct s.
  - rewrite Z.compare_refl, Pos.compare_cont_refl. now destruct s.
Qed.

Lemma is_nan_Prim2SF (f : float) :
  PrimFloat.is_nan f = false <-> Prim2SF f <> S754_nan.
Proof.
  unfold PrimFloat.is_nan. rewrite negb_false_iff, FloatAxioms.eqb_spec. unfold SFeqb. split.
  - intros H E. rewrite E in H. discriminate.
  - intros H. now rewrite SFcompare_refl.
Qed.

Lemma float_leb_not_nan (f g : float) :
  PrimFloat.leb f g = true -> PrimFloat.is_nan f = false /\ PrimFloat.is_nan g = false.
Proof.
  rewrite FloatAxioms.leb_spec, !is_nan_Prim2SF. unfold SFleb.
  destruct (Prim2SF f), (Prim2SF g); simpl; try discriminate; intros _; split; discriminate.
Qed.

Lemma float_leb_key (f g : float) :
  PrimFloat.is_nan f = false -> PrimFloat.is_nan g = false ->
  (PrimFloat.leb f g = true <-> key_le (float_key (Prim2SF f)) (float_key (Prim2SF g))).
Proof.
  rewrite !is_nan_Prim2SF, FloatAxioms.leb_spec. apply SFleb_key.
Qed.

Lemma float_ltb_key (f g : float) :
  PrimFloat.is_nan f = false -> PrimFloat.is_nan g = false ->
  (PrimFloat.ltb f g = true <-> key_lt (float_key (Prim2SF f)) (float_key (Prim2SF g))).
Proof.
  rewrite !is_nan_Prim2SF, FloatAxioms.ltb_spec. apply SFltb_key.
Qed.

Lemma float_leb_refl (f : float) : PrimFloat.is_nan f = false -> PrimFloat.leb f f = true.
Proof.
  intros H. apply float_leb_key; [assumption..|].
  destruct (float_key (Prim2SF f)) as [[a b] c]. simpl. lia.
Qed.

Lemma float_leb_trans (f g h : float) :
  PrimFloat.leb f g = true -> PrimFloat.leb g h = true -> PrimFloat.leb f h = true.
Proof.
  intros Hfg Hgh.
  destruct (float_leb_not_nan _ _ Hfg) as [Hf Hg], (float_leb_not_nan _ _ Hgh) as [_ Hh].
  apply float_leb_key in Hfg, Hgh; try assumption. apply float_leb_key; try assumption.
  destruct (float_key (Prim2SF f)) as [[a1 a2] a3], (float_key (Prim2SF g)) as [[b1 b2] b3],
    (float_key (Prim2SF h)) as [[c1 c2] c3]. simpl in *. lia.
Qed.

Lemma float_leb_total (f g : float) :
  PrimFloat.is_nan f = false -> PrimFloat.is_nan g = false ->
  PrimFloat.leb f g = true \/ PrimFloat.ltb g f = true.
Proof.
  intros Hf Hg.
  destruct (float_key (Prim2SF f)) as [[a1 a2] a3] eqn:Ef,
    (float_key (Prim2SF g)) as [[b1 b2] b3] eqn:Eg.
  assert (H : key_le (a1, a2, a3) (b1, b2, b3) \/ key_lt (b1, b2, b3) (a1, a2, a3))
    by (simpl; lia).
  destruct H as [H|H]; [left; apply float_leb_key | right; apply float_ltb_key];
    try assumption; now rewrite Ef, Eg.
Qed.

Lemma float_ltb_leb (f g : float) :
  PrimFloat.ltb f g = true -> PrimFloat.leb f g = true.
Proof.
  intros H.
  assert (Hn : PrimFloat.is_nan f = false /\ PrimFloat.is_nan g = false).
  { revert H. rewrite FloatAxioms.ltb_spec, !is_nan_Prim2SF. unfold SFltb.
    destruct (Prim2SF f), (Prim2SF g); simpl; try discriminate; intros _; split; discriminate. }
  destruct Hn as [Hf Hg]. apply float_ltb_key in H; try assumption.
  apply float_leb_key; try assumption.
  destruct (float_key (Prim2SF f)) as [[a1 a2] a3], (float_key (Prim2SF g)) as [[b1 b2] b3].
  simpl in *. lia.
Qed.

(** ** Default bounds of the amount slider *)

Lemma notnull_float64 (s : Series) :
  Forall float_cell s ->
  exists fs, notnull s = map VFloat fs /\
             Forall (fun f => PrimFloat.is_nan f = false) fs /\
             forall f, In f fs <-> In (VFloat f) s /\ PrimFloat.is_nan f = false.
Proof.
  induction 1 as [|c s Hc _ (fs & Hfs & Hnn & Hin)].
  - exists []. split; [reflexivity|]. split; [constructor|]. simpl. tauto.
  - destruct c as [ |f| | | ]; simpl in Hc; try contradiction.
    unfold notnull in *. simpl. destruct (PrimFloat.is_nan f) eqn:Hf; simpl.
    + exists fs. split; [exact Hfs|]. split; [exact Hnn|].
      intros x. rewrite Hin. split.
      * intros [H1 H2]. auto.
      * intros [[E|H1] H2]; [|auto]. injection E as ->. congruence.
    + exists (f :: fs). rewrite Hfs. split; [reflexivity|].
      split; [now constructor|]. intros x. simpl. rewrite Hin. split.
      * intros [<-|[H1 H2]]; auto.
      * intros [[E|H1] H2]; [left; congruence | right; auto].
Qed.

Lemma reduce_smaller_floats (fs : list float) (a : float) :
  exists m,
    reduce smaller (VFloat a) (map VFloat fs) = Returned (VFloat m) /\
    In m (a :: fs) /\
    (PrimFloat.is_nan a = false -> Forall (fun f => PrimFloat.is_nan f = false) fs ->
     forall x, In x (a :: fs) -> PrimFloat.leb m x = true).
Proof.
  revert a; induction fs as [|c fs IH]; intros a.
  - exists a. split; [reflexivity|]. split; [now left|].
    intros Ha _ x [<-|[]]. now apply float_leb_refl.
  - destruct (IH (if PrimFloat.ltb c a then c else a)) as (m & Hm & Hin & Hle).
    exists m. split; [|split].
    + cbn [map reduce]. unfold smaller at 1. cbn [cell_lt cell_to_int cell_to_float obind].
      destruct (PrimFloat.ltb c a); exact Hm.
    + destruct Hin as [E|Hin]; [|now right; right].
      destruct (PrimFloat.ltb c a); subst m; simpl; auto.
    + intros Ha Hall x Hx. inversion Hall as [|? ? Hc Hfs]; subst.
      assert (Ha' : PrimFloat.is_nan (if PrimFloat.ltb c a then c else a) = false)
        by now destruct (PrimFloat.ltb c a).
      specialize (Hle Ha' Hfs).
      assert (Hacc : PrimFloat.leb m (if PrimFloat.ltb c a then c else a) = true)
        by (apply Hle; now left).
      destruct Hx as [<-|[<-|Hx]]; [| |apply Hle; now right].
      * apply (float_leb_trans _ _ _ Hacc).
        destruct (PrimFloat.ltb c a) eqn:E; [now apply float_ltb_leb | now apply float_leb_refl].
      * apply (float_leb_trans _ _ _ Hacc).
        destruct (PrimFloat.ltb c a) eqn:E; [now apply float_leb_refl|].
        destruct (float_leb_total a c Ha Hc); congruence.
Qed.

Lemma reduce_larger_floats (fs : list float) (a : float) :
  exists m,
    reduce larger (VFloat a) (map VFloat fs) = Returned (VFloat m) /\
    In m (a :: fs) /\
    (PrimFloat.is_nan a = false -> Forall (fun f => PrimFloat.is_nan f = false) fs ->
     forall x, In x (a :: fs) -> PrimFloat.leb x m = true).
Proof.
  revert a; induction fs as [|c fs IH]; intros a.
  - exists a. split; [reflexivity|]. split; [now left|].
    intros Ha _ x [<-|[]]. now apply float_leb_refl.
  - destruct (IH (if PrimFloat.ltb a c then c else a)) as (m & Hm & Hin & Hle).
    exists m. split; [|split].
    + cbn [map reduce]. unfold larger at 1. cbn [cell_lt cell_to_int cell_to_float obind].
      destruct (PrimFloat.ltb a c); exact Hm.
    + destruct Hin as [E|Hin]; [|now right; right].
      destruct (PrimFloat.ltb a c); subst m; simpl; auto.
    + intros Ha Hall x Hx. inversion Hall as [|? ? Hc Hfs]; subst.
      assert (Ha' : PrimFloat.is_nan (if PrimFloat.ltb a c then c else a) = false)
        by now destruct (PrimFloat.ltb a c).
      specialize (Hle Ha' Hfs).
      assert (Hacc : PrimFloat.leb (if PrimFloat.ltb a c then c else a) m = true)
        by (apply Hle; now left).
      destruct Hx as [<-|[<-|Hx]]; [| |apply Hle; now right].
      * refine (float_leb_trans _ _ _ _ Hacc).
        destruct (PrimFloat.ltb a c) eqn:E; [now apply float_ltb_leb | now apply float_leb_refl].
      * refine (float_leb_trans _ _ _ _ Hacc).
        destruct (PrimFloat.ltb a c) eqn:E; [now apply float_leb_refl|].
        destruct (float_leb_total c a Hc Ha); congruence.
Qed.


Lemma float_ltb_not_nan (f g : float) :
  PrimFloat.ltb f g = true -> PrimFloat.is_nan f = false /\ PrimFloat.is_nan g = false.
Proof.
  rewrite FloatAxioms.ltb_spec, !is_nan_Prim2SF. unfold SFltb.
  destruct (Prim2SF f), (Prim2SF g); simpl; try discriminate; intros _; split; discriminate.
Qed.

(** A float below [x] and one above [y], when [x < y], are apart. *)
Lemma float_ltb_between (lo x y hi : float) :
  PrimFloat.leb lo x = true -> PrimFloat.ltb x y = true ->
  PrimFloat.leb y hi = true -> PrimFloat.ltb lo hi = true.
Proof.
  intros H1 H2 H3.
  destruct (float_leb_not_nan _ _ H1) as [Hlo Hx].
  destruct (float_leb_not_nan _ _ H3) as [Hy Hhi].
  apply float_leb_key in H1, H3; try assumption.
  apply float_ltb_key in H2; try assumption.
  apply float_ltb_key; try assumption.
  destruct (float_key (Prim2SF lo)) as [[a1 a2] a3], (float_key (Prim2SF x)) as [[b1 b2] b3],
    (float_key (Prim2SF y)) as [[c1 c2] c3], (float_key (Prim2SF hi)) as [[d1 d2] d3].
  simpl in *. lia.
Qed.

(** The bounds of the amount slider for a float64 column, and what the
    slider call does with them. *)
Lemma amount_range_floats (df : loc) (d : DataFrame) (amt : Series)
  (inp : user_input) (st : state) :
  nth_error (heap st) df = Some d ->
  getitem "amt" d = Returned amt ->
  Forall float_cell amt ->
  exists lo hi,
    ((forall c, In c amt -> isnull c = true) -> lo = 0%float /\ hi = 1000%float) /\
    ((exists c, In c amt /\ isnull c = false) ->
       In (VFloat lo) amt /\ In (VFloat hi) amt /\
       forall x, In (VFloat x) amt -> PrimFloat.is_nan x = false ->
                 PrimFloat.leb lo x = true /\ PrimFloat.leb x hi = true) /\
    ((lo = 0%float /\ hi = 1000%float) \/ (In (VFloat lo) amt /\ In (VFloat hi) amt)) /\
    (PrimFloat.ltb lo hi = true ->
     PrimFloat.is_infinity lo = false -> PrimFloat.is_infinity hi = false ->
       amount_range df inp st
       = (Returned (selected_amounts inp lo hi),
          mkState (heap st)
            (page st
             ++ [SidebarSliderFloat "Transaction Amount Range" lo hi (lo, hi)]))) /\
    (PrimFloat.ltb lo hi = false ->
       amount_range df inp st = (Raised slider_refused, st)).
Proof.
  intros Hdf Hamt Htyped.
  destruct (notnull_float64 amt Htyped) as (fs & Hfs & Hnn & Hin).
  unfold amount_range. rewrite (bind_df_getitem _ _ _ _ _ _ Hdf Hamt).
  destruct (forallb isnull amt) eqn:Hall; cbn [negb].
  - exists 0%float, 1000%float. split; [auto|]. split.
    { intros [c [Hc Hc']]. rewrite forallb_forall in Hall.
      rewrite (Hall c Hc) in Hc'. discriminate. }
    split; [now left|].
    split; [intros _ _ _; reflexivity | intros H; discriminate H].
  - destruct fs as [|a fs].
    { apply all_null_notnull in Hfs. congruence. }
    destruct (reduce_smaller_floats fs a) as (lo & Hlo & Hlo_in & Hlo_le).
    destruct (reduce_larger_floats fs a) as (hi & Hhi & Hhi_in & Hhi_le).
    inversion Hnn as [|? ? Ha Hrest]; subst.
    exists lo, hi. split.
    { intros Hnull. exfalso.
      assert (Hc : In (VFloat a) amt) by (apply Hin; now left).
      specialize (Hnull _ Hc). simpl in Hnull. congruence. }
    split.
    { intros _. split; [now apply Hin|]. split; [now apply Hin|].
      intros x Hx Hxn. assert (Hx' : In x (a :: fs)) by (apply Hin; auto).
      split; [now apply Hlo_le | now apply Hhi_le]. }
    split; [right; split; now apply Hin|].
    unfold series_min, series_max. rewrite Hfs. cbn [map].
    rewrite Hlo, Hhi. unfold bind, lift, sidebar_slider_float; cbn [py_float].
    split.
    + intros Hlt Hflo Hfhi. rewrite Hlt, Hflo, Hfhi. reflexivity.
    + intros Hlt. rewrite Hlt. reflexivity.
Qed.

(** X5.  For a float64 [amt] column without an infinite amount, the bounds
    the script computes for the amount slider are two amounts of the column
    that no amount lies below or above, and 0.0 and 1000.0 when every amount
    is missing.  When the lower
    one is below the upper one the slider is drawn with them, as bounds and
    as default value; otherwise (all amounts equal) the slider call raises
    and nothing is drawn. *)
Theorem amount_range_default_bounds (df : loc) (d : DataFrame) (amt : Series)
  (inp : user_input) (st : state) :
  nth_error (heap st) df = Some d ->
  getitem "amt" d = Returned amt ->
  Forall float_cell amt ->
  (forall x, In (VFloat x) amt -> PrimFloat.is_infinity x = false) ->
  exists lo hi,
    ((forall c, In c amt -> isnull c = true) -> lo = 0%float /\ hi = 1000%float) /\
    ((exists c, In c amt /\ isnull c = false) ->
       In (VFloat lo) amt /\ In (VFloat hi) amt /\
       forall x, In (VFloat x) amt -> PrimFloat.is_nan x = false ->
                 PrimFloat.leb lo x = true /\ PrimFloat.leb x hi = true) /\
    (PrimFloat.ltb lo hi = true ->
       amount_range df inp st
       = (Returned (match chosen_amounts inp with Some v => v | None => (lo, hi) end),
          mkState (heap st)
            (page st
             ++ [SidebarSliderFloat "Transaction Amount Range" lo hi (lo, hi)]))) /\
    (PrimFloat.ltb lo hi = false ->
       exists e, amount_range df inp st = (Raised e, st) /\
                 exn_kind e = StreamlitAPIException).
Proof.
  intros Hdf Hamt Htyped Hfin.
  destruct (amount_range_floats df d amt inp st Hdf Hamt Htyped)
    as (lo & hi & Hnull & Hbounds & Hwhere & Hdrawn & Hrefused).
  exists lo, hi. split; [exact Hnull|]. split; [exact Hbounds|]. split.
  - intros Hlt. apply Hdrawn; [exact Hlt| |];
      destruct Hwhere as [[-> ->]|[Hlo Hhi]]; try reflexivity; now apply Hfin.
  - intros Hlt. exists slider_refused. split; [now apply Hrefused | reflexivity].
Qed.

Lemma amount_range_default_bounds_witness :
  exists lo hi,
    ((forall c, In c [VFloat 10; VFloat 50; VFloat 100; VFloat 500; VFloat 1000] ->
                isnull c = true) -> lo = 0%float /\ hi = 1000%float) /\
    ((exists c, In c [VFloat 10; VFloat 50; VFloat 100; VFloat 500; VFloat 1000] /\
                isnull c = false) ->
       In (VFloat lo) [VFloat 10; VFloat 50; VFloat 100; VFloat 500; VFloat 1000] /\
       In (VFloat hi) [VFloat 10; VFloat 50; VFloat 100; VFloat 500; VFloat 1000] /\
       forall x, In (VFloat x) [VFloat 10; VFloat 50; VFloat 100; VFloat 500; VFloat 1000] ->
                 PrimFloat.is_nan x = false ->
                 PrimFloat.leb lo x = true /\ PrimFloat.leb x hi = true) /\
    (PrimFloat.ltb lo hi = true ->
       amount_range 0%nat no_input (one_frame transactions)
       = (Returned (match chosen_amounts no_input with Some v => v | None => (lo, hi) end),
          mkState (heap (one_frame transactions))
            (page (one_frame transactions)
             ++ [SidebarSliderFloat "Transaction Amount Range" lo hi (lo, hi)]))) /\
    (PrimFloat.ltb lo hi = false ->
       exists e, amount_range 0%nat no_input (one_frame transactions)
                 = (Raised e, one_frame transactions) /\
                 exn_kind e = StreamlitAPIException).
Proof.
  apply (amount_range_default_bounds 0%nat transactions
           [VFloat 10; VFloat 50; VFloat 100; VFloat 500; VFloat 1000]
           no_input (one_frame transactions)).
  - reflexivity.
  - reflexivity.
  - repeat constructor.
  - intros x [H|[H|[H|[H|[H|[]]]]]]; injection H as <-; reflexivity.
Defined.

(** ** The widgets on a loaded dataset *)

Lemma bind_returned {A B : Type} (m : script A) (k : A -> script B)
  (st st' : state) (a : A) :
  m st = (Returned a, st') -> bind m k st = k a st'.
Proof. intros H. unfold bind. now rewrite H. Qed.

Lemma bind_stopped {A B : Type} (m : script A) (k : A -> script B) (st st' : state) :
  m st = (Stopped, st') -> bind m k st = (Stopped, st').
Proof. intros H. unfold bind. now rewrite H. Qed.

Lemma bind_raised {A B : Type} (m : script A) (k : A -> script B) (st st' : state)
  (e : exn) :
  m st = (Raised e, st') -> bind m k st = (Raised e, st').
Proof. intros H. unfold bind. now rewrite H. Qed.

Lemma time_range_run (df : loc) (d : DataFrame) (hour : Series)
  (inp : user_input) (st : state) :
  nth_error (heap st) df = Some d ->
  getitem "hour" d = Returned hour ->
  Forall int64_cell hour ->
  exists lo hi,
    ((forall c, In c hour -> isnull c = true) -> lo = 0 /\ hi = 23) /\
    ((exists c, In c hour /\ isnull c = false) ->
       In (VInt lo) hour /\ In (VInt hi) hour /\
       forall z, In (VInt z) hour -> lo <= z <= hi) /\
    ((lo = 0 /\ hi = 23) \/ (In (VInt lo) hour /\ In (VInt hi) hour)) /\
    (lo < hi -> js_safe_int lo = true -> js_safe_int hi = true ->
       time_range df inp st
       = (Returned (selected_hours inp lo hi),
          mkState (heap st)
            (page st ++ [SidebarSliderInt "Hour Range" lo hi (lo, hi)]))) /\
    (lo = hi -> time_range df inp st = (Raised slider_refused, st)).
Proof.
  intros Hdf Hhour Htyped.
  destruct (notnull_int64 hour Htyped) as [zs [Hzs Hin]].
  unfold time_range. rewrite (bind_df_getitem _ _ _ _ _ _ Hdf Hhour).
  destruct (forallb isnull hour) eqn:Hall; cbn [negb].
  - exists 0, 23. split; [auto|]. split.
    { intros [c [Hc Hnn]]. rewrite forallb_forall in Hall.
      rewrite (Hall c Hc) in Hnn. discriminate. }
    split; [now left|].
    split; [intros _ _ _; reflexivity | intros H; discriminate H].
  - destruct zs as [|a zs].
    { apply all_null_notnull in Hzs. congruence. }
    unfold series_min, series_max. rewrite Hzs. cbn [map].
    rewrite reduce_smaller_ints, reduce_larger_ints.
    exists (fold_left Z.min zs a), (fold_left Z.max zs a).
    destruct (fold_min_spec zs a) as [Hmin_in Hmin_le].
    destruct (fold_max_spec zs a) as [Hmax_in Hmax_le].
    split.
    { intros Hnull. exfalso.
      assert (Ha : In (VInt a) hour) by (apply Hin; now left).
      specialize (Hnull _ Ha). discriminate. }
    split.
    { intros _. split; [now apply Hin|]. split; [now apply Hin|].
      intros z Hz. apply Hin in Hz. split; [now apply Hmin_le | now apply Hmax_le]. }
    split; [right; split; now apply Hin|].
    unfold bind, lift, sidebar_slider_int; cbn [py_int]. split.
    + intros Hlt Hslo Hshi. apply Z.ltb_lt in Hlt. rewrite Hlt, Hslo, Hshi.
      reflexivity.
    + intros Heq. rewrite Heq, Z.ltb_irrefl. reflexivity.
Qed.

Lemma unique_categories_run (df : loc) (d : DataFrame) (category : Series)
  (st : state) :
  nth_error (heap st) df = Some d ->
  getitem "category" d = Returned category ->
  Forall is_text category ->
  exists options,
    unique_categories df st = (Returned options, st) /\
    StronglySorted text_lt options /\
    (forall c, In c options <-> In c category).
Proof.
  intros Hdf Hcat Htext.
  destruct (unique_from_text category [] Htext) as [Hnd Hin].
  assert (Hutext : Forall is_text (unique category)).
  { apply Forall_forall. intros c Hc. apply Hin in Hc.
    rewrite Forall_forall in Htext. now apply Htext. }
  destruct (sorted_into_text (unique category) [] Hutext) as (r & Hr & Hs & Hinr).
  - constructor.
  - constructor.
  - exact Hnd.
  - intros c _ [].
  - exists r. unfold unique_categories.
    rewrite (bind_df_getitem _ _ _ _ _ _ Hdf Hcat).
    unfold lift, sorted. rewrite Hr.
    split; [reflexivity|]. split; [exact Hs|].
    intros c. rewrite Hinr. unfold unique. rewrite Hin. simpl. tauto.
Qed.

(** ** The page below the title *)

Lemma loaded_frame (pd_read_csv : string -> csv_result)
  (str_to_num : string -> option num)
  (cast_error : Series -> cast_failure) (file_path : string) (raw : DataFrame)
  (st st' : state) (df : loc) :
  pd_read_csv file_path = CsvFrame raw -> well_formed raw ->
  load_data pd_read_csv str_to_num cast_error file_path st = (Returned df, st') ->
  exists coerced d,
    coerce_columns str_to_num cast_error raw = Returned coerced /\
    df = List.length (heap st) /\
    st' = mkState (heap st ++ [d])
            (page st ++ removed_rows_warning (len raw) (len d)) /\
    dataset d /\
    (forall col s, col = "amt"%string \/ col = "hour"%string ->
                   getitem col d = Returned s ->
                   Forall (fun c => isnull c = false) s) /\
    column_names d = column_names raw /\
    first_missing raw = None /\
    index d = select (retained coerced) (index raw) /\
    (forall col s, col <> "amt"%string -> col <> "hour"%string ->
                   col <> "is_fraud"%string ->
                   getitem col raw = Returned s ->
                   getitem col d = Returned (select (retained coerced) s)).
Proof.
  intros Hread Hwf Hload.
  destruct (load_data_inversion pd_read_csv str_to_num cast_error file_path st st' df Hload)
    as (raw' & coerced & dropped & final & Hread' & Hnone & Hco & Hdrop & Hflags
        & -> & ->).
  rewrite Hread in Hread'. inversion Hread'; subst raw'.
  destruct (coerce_columns_dataset str_to_num cast_error raw coerced Hwf Hnone Hco)
    as (Hds & Hnames & Hix & Hsame).
  pose proof (dropna_inversion coerced dropped Hds Hdrop) as ->.
  pose proof (dataset_take_rows (retained coerced) coerced Hds) as Hds'.
  destruct (with_flags_dataset _ final Hds' Hflags) as (Hdsf & Hnames' & Hix' & Hsame').
  exists coerced, final. split; [exact Hco|]. split; [reflexivity|].
  split; [|split; [exact Hdsf|split; [|split; [|split; [exact Hnone|split]]]]].
  - assert (Hlen : len final = len (take_rows (retained coerced) coerced))
      by (unfold len; now rewrite Hix').
    now rewrite Hlen.
  - now apply (cleaned_dataset str_to_num cast_error raw coerced
                 (take_rows (retained coerced) coerced) final).
  - now rewrite Hnames', column_names_take_rows, Hnames.
  - rewrite Hix'. unfold take_rows; cbn [index]. now rewrite Hix.
  - intros col s Hamt Hhour Hfraud Hs. rewrite Hsame' by exact Hfraud.
    apply getitem_take_rows. now rewrite Hsame.
Qed.

Lemma has_column_required (col : string) (raw : DataFrame) :
  first_missing raw = None -> In col required_columns -> has_column col raw = true.
Proof.
  intros Hnone Hin. unfold first_missing in Hnone.
  pose proof (find_none _ _ Hnone col Hin) as H. now apply negb_false_iff in H.
Qed.

Lemma has_column_take_rows (col : string) (m : list bool) (d : DataFrame) :
  has_column col (take_rows m d) = has_column col d.
Proof. apply has_column_names, column_names_take_rows. Qed.

Lemma empty_take_rows (m : list bool) (d : DataFrame) :
  dataset d -> empty (take_rows m d) = (len (take_rows m d) =? 0)%nat.
Proof.
  intros [_ [s [Hs _]] _ _]. unfold empty.
  destruct (columns (take_rows m d)) as [|c cs] eqn:E; [|apply orb_false_r].
  apply (getitem_take_rows _ m) in Hs. unfold getitem in Hs. rewrite E in Hs.
  discriminate.
Qed.

(** The sidebar (lines 79-108) on a dataset with hours and amounts that
    JavaScript can hold, a float64 [amt] column and text categories: the
    bounds of the two sliders and the options, and what the script goes on
    with.  [k] is the rest of the script. *)
Lemma sidebar_run (d : DataFrame) (df : loc) (inp : user_input) (st : state)
  (hour amt category : Series) :
  nth_error (heap st) df = Some d ->
  getitem "hour" d = Returned hour -> Forall int64_cell hour ->
  (forall z, In (VInt z) hour -> js_safe_int z = true) ->
  getitem "amt" d = Returned amt -> Forall float_cell amt ->
  (forall x, In (VFloat x) amt -> PrimFloat.is_infinity x = false) ->
  getitem "category" d = Returned category -> Forall is_text category ->
  exists lo hi alo ahi options,
    ((forall c, In c hour -> isnull c = true) -> lo = 0 /\ hi = 23) /\
    ((exists c, In c hour /\ isnull c = false) ->
       In (VInt lo) hour /\ In (VInt hi) hour /\
       forall z, In (VInt z) hour -> lo <= z <= hi) /\
    ((forall c, In c amt -> isnull c = true) -> alo = 0%float /\ ahi = 1000%float) /\
    ((exists c, In c amt /\ isnull c = false) ->
       In (VFloat alo) amt /\ In (VFloat ahi) amt /\
       forall x, In (VFloat x) amt -> PrimFloat.is_nan x = false ->
                 PrimFloat.leb alo x = true /\ PrimFloat.leb x ahi = true) /\
    StronglySorted text_lt options /\
    (forall c, In c options <-> In c category) /\
    forall k : Z * Z -> float * float -> list cell -> script unit,
      let rest :=
        emit (SidebarHeader "Filters") ;;
        hours <- time_range df inp ;;
        amounts <- amount_range df inp ;;
        options <- unique_categories df ;;
        categories <- merchant_category options inp ;;
        k hours amounts categories in
      (lo < hi -> PrimFloat.ltb alo ahi = true ->
       rest st
       = k (selected_hours inp lo hi) (selected_amounts inp alo ahi)
           (selected_categories inp options)
           (mkState (heap st) (page st ++ sidebar lo hi alo ahi options))) /\
      (lo = hi ->
       rest st
       = (Raised slider_refused,
          mkState (heap st) (page st ++ [SidebarHeader "Filters"]))) /\
      (lo < hi -> PrimFloat.ltb alo ahi = false ->
       rest st
       = (Raised slider_refused,
          mkState (heap st)
            (page st ++ [SidebarHeader "Filters";
                         SidebarSliderInt "Hour Range" lo hi (lo, hi)]))).
Proof.
  intros Hdf Hhour Hh64 Hsafe Hamt Hfloat Hfin Hcat Htext.
  set (st1 := mkState (heap st) (page st ++ [SidebarHeader "Filters"])).
  assert (Hdf1 : nth_error (heap st1) df = Some d) by exact Hdf.
  destruct (time_range_run df d hour inp st1 Hdf1 Hhour Hh64)
    as (lo & hi & Hh0 & Hh1 & Hwhere & Htime & Htime').
  assert (Hslo : js_safe_int lo = true /\ js_safe_int hi = true).
  { destruct Hwhere as [[-> ->]|[Hlo Hhi]]; split; try reflexivity; now apply Hsafe. }
  set (st2 := mkState (heap st1)
                (page st1 ++ [SidebarSliderInt "Hour Range" lo hi (lo, hi)])) in *.
  assert (Hdf2 : nth_error (heap st2) df = Some d) by exact Hdf.
  destruct (amount_range_floats df d amt inp st2 Hdf2 Hamt Hfloat)
    as (alo & ahi & Ha0 & Ha1 & Hawhere & Hamount & Hamount').
  assert (Hfalo : PrimFloat.is_infinity alo = false
                  /\ PrimFloat.is_infinity ahi = false).
  { destruct Hawhere as [[-> ->]|[Hlo Hhi]]; split; try reflexivity; now apply Hfin. }
  set (st3 := mkState (heap st2)
                (page st2 ++ [SidebarSliderFloat "Transaction Amount Range" alo ahi
                                (alo, ahi)])) in *.
  assert (Hdf3 : nth_error (heap st3) df = Some d) by exact Hdf.
  destruct (unique_categories_run df d category st3 Hdf3 Hcat Htext)
    as (options & Hoptions & Hsorted & Hin).
  exists lo, hi, alo, ahi, options.
  split; [exact Hh0|]. split; [exact Hh1|]. split; [exact Ha0|].
  split; [exact Ha1|]. split; [exact Hsorted|]. split; [exact Hin|].
  intros k rest. unfold rest. rewrite bind_emit. fold st1. split; [|split].
  - intros Hlt Halt.
    rewrite (bind_returned _ _ _ _ _ (Htime Hlt (proj1 Hslo) (proj2 Hslo))).
    rewrite (bind_returned _ _ _ _ _ (Hamount Halt (proj1 Hfalo) (proj2 Hfalo))).
    rewrite (bind_returned _ _ _ _ _ Hoptions).
    unfold merchant_category, sidebar_multiselect. rewrite bind_assoc, bind_emit.
    cbn beta. rewrite bind_ret. unfold st3, st2, st1; cbn [heap page].
    unfold sidebar, selected_categories. now rewrite <- !app_assoc.
  - intros Heq. now rewrite (bind_raised _ _ _ _ _ (Htime' Heq)).
  - intros Hlt Halt.
    rewrite (bind_returned _ _ _ _ _ (Htime Hlt (proj1 Hslo) (proj2 Hslo))).
    rewrite (bind_raised _ _ _ _ _ (Hamount' Halt)).
    unfold st2, st1; cbn [heap page]. now rewrite <- app_assoc.
Qed.

(** The main area (lines 112-168) for a selection. *)
Lemma main_run (d : DataFrame) (df : loc) (hours : Z * Z) (amounts : float * float)
  (categories : list cell) (st : state) :
  nth_error (heap st) df = Some d -> dataset d ->
  has_column "weekday" d = true ->
  exists available,
    let f := if empty d then empty_frame
             else take_rows (map (satisfiesb hours amounts categories) (rows d)) d in
    (filtered <- df_filtered df hours amounts categories ;;
     visualizations df filtered) st
    = (Returned tt,
       mkState (heap st ++ if empty d then [f] else [f; f])
         (page st ++ (if empty d then [StWarning no_data_message] else [])
          ++ main_area f available)) /\
    (empty f = false -> (available = true <-> fraud_available d f)).
Proof.
  intros Hdf Hds Hweek.
  unfold df_filtered. rewrite bind_assoc, (bind_frame _ _ _ _ Hdf).
  destruct (empty d) eqn:Hempty; cbn [negb].
  - exists false. cbv zeta. split; [|discriminate].
    rewrite bind_assoc, bind_new_frame. cbn beta.
    rewrite bind_assoc, bind_emit. cbn beta. rewrite bind_ret.
    unfold visualizations. cbn [heap page].
    rewrite bind_frame_last. cbn [empty_frame empty len index columns List.length
                                    Nat.eqb orb negb].
    unfold emit, main_area; cbn [heap page empty_frame empty len index columns
                                   List.length Nat.eqb orb].
    now rewrite <- !app_assoc.
  - set (f := take_rows (map (satisfiesb hours amounts categories) (rows d)) d).
    pose proof (apply_filters_run df d hours amounts categories st Hdf Hds) as Hrun.
    cbv zeta in Hrun. fold f in Hrun.
    rewrite (bind_returned _ _ _ _ _ Hrun).
    set (st5 := mkState ((heap st ++ [f]) ++ [f]) (page st)).
    assert (Hdf5 : nth_error (heap st5) df = Some d)
      by (cbn [st5 heap]; now do 2 apply nth_error_keep).
    assert (Hf5 : nth_error (heap st5) (List.length (heap st ++ [f])) = Some f)
      by apply nth_error_last.
    destruct (empty f) eqn:Hf.
    + exists false. cbv zeta. fold f. split; [|intros H; congruence].
      unfold visualizations. rewrite (bind_frame _ _ _ _ Hf5), Hf. cbn [negb].
      unfold emit, main_area, st5; cbn [heap page]. rewrite Hf.
      now rewrite <- !app_assoc.
    + destruct (visualizations_run df (List.length (heap st ++ [f])) d f st5 Hdf5 Hf5 Hf)
        as (available & Hvis & Havailable).
      * unfold f. rewrite has_column_take_rows.
        destruct (ds_hour _ Hds) as (s & Hs & _). exact (getitem_has_column _ _ _ Hs).
      * unfold f. rewrite has_column_take_rows.
        destruct (ds_amt _ Hds) as (s & Hs & _). exact (getitem_has_column _ _ _ Hs).
      * unfold f. now rewrite has_column_take_rows.
      * unfold f. now rewrite has_column_take_rows.
      * exists available. cbv zeta. fold f. split; [|intros _; exact Havailable].
        rewrite Hvis. unfold main_area, fraud_section, st5; cbn [heap page].
        rewrite Hf. now rewrite <- !app_assoc.
Qed.

(** ** The exits of the loader *)

(** X6.  No exception leaves the loader: whatever [read_csv] does and
    whatever the file holds, [load_data] returns a dataset or stops the
    run. *)
Theorem load_data_never_raises (pd_read_csv : string -> csv_result)
  (str_to_num : string -> option num)
  (cast_error : Series -> cast_failure) (file_path : string) (st : state) :
  (exists df st', load_data pd_read_csv str_to_num cast_error file_path st = (Returned df, st'))
  \/ (exists st', load_data pd_read_csv str_to_num cast_error file_path st = (Stopped, st')).
Proof.
  unfold load_data, try_except.
  match goal with
  | |- context [match ?b st with _ => _ end] => destruct (b st) as [[df| |e] st']
  end.
  - left. eauto.
  - right. eauto.
  - right. apply handler_stops.
Qed.

(** X7.  When [read_csv] raises, the loader writes the notice of the handler
    the exception belongs to (file not found with the project layout, empty
    file, or the unexpected error with the text of the exception), stops the
    run, and leaves the store as it was. *)
Theorem load_data_read_error (pd_read_csv : string -> csv_result)
  (str_to_num : string -> option num)
  (cast_error : Series -> cast_failure) (file_path : string) (e : exn) (st : state) :
  pd_read_csv file_path = CsvRaises e ->
  load_data pd_read_csv str_to_num cast_error file_path st
  = (Stopped, mkState (heap st) (page st ++ read_error_notices file_path e)).
Proof.
  intros Hread. unfold load_data.
  erewrite try_except_raised by (unfold read_csv; rewrite Hread; reflexivity).
  unfold read_error_notices, bind, emit, st_stop.
  destruct (exn_kind e); cbn [heap page]; rewrite <- ?app_assoc; reflexivity.
Qed.

Lemma load_data_read_error_witness :
  load_data empty_file integer_literal cast_refused file_path_to_csv initial
  = (Stopped,
     mkState (heap initial)
       (page initial
        ++ read_error_notices file_path_to_csv
             (mkExn EmptyDataError "No columns to parse from file"))).
Proof.
  apply (load_data_read_error empty_file integer_literal cast_refused file_path_to_csv
           (mkExn EmptyDataError "No columns to parse from file") initial).
  reflexivity.
Defined.





Lemma retained_length (d : DataFrame) :
  well_formed d -> List.length (retained d) = len d.
Proof. intros H. unfold retained. rewrite length_map. now apply rows_length. Qed.

(** X9.  The loader keeps the columns of the file, in their order, and
    selects rows: the labels of the loaded dataset and the values of every
    column other than [amt], [hour] and [is_fraud] are those of the file at
    the rows kept. *)
Theorem load_data_keeps_columns (pd_read_csv : string -> csv_result)
  (str_to_num : string -> option num)
  (cast_error : Series -> cast_failure) (file_path : string) (raw : DataFrame)
  (st st' : state) (df : loc) :
  pd_read_csv file_path = CsvFrame raw -> well_formed raw ->
  load_data pd_read_csv str_to_num cast_error file_path st = (Returned df, st') ->
  exists d mask,
    nth_error (heap st') df = Some d /\
    column_names d = column_names raw /\
    List.length mask = len raw /\
    index d = select mask (index raw) /\
    forall col s, col <> "amt"%string -> col <> "hour"%string ->
                  col <> "is_fraud"%string ->
                  getitem col raw = Returned s ->
                  getitem col d = Returned (select mask s).
Proof.
  intros Hread Hwf Hload.
  destruct (loaded_frame _ _ _ _ _ _ _ _ Hread Hwf Hload)
    as (coerced & d & Hco & -> & -> & Hds & _ & Hnames & _ & Hix & Hsame).
  exists d, (retained coerced).
  split; [apply nth_error_last|]. split; [exact Hnames|].
  split; [|split; [exact Hix | exact Hsame]].
  destruct (load_data_inversion _ _ _ _ _ _ _ Hload)
    as (raw' & coerced' & _ & _ & Hread' & Hnone & Hco' & _).
  rewrite Hread in Hread'. inversion Hread'; subst raw'.
  destruct (coerce_columns_dataset str_to_num cast_error raw coerced Hwf Hnone Hco)
    as (Hdsc & _ & Hixc & _).
  rewrite (retained_length _ (ds_well_formed _ Hdsc)). unfold len. now rewrite Hixc.
Qed.

Lemma load_data_keeps_columns_witness :
  exists d mask,
    nth_error (heap loaded_state) 0%nat = Some d /\
    column_names d = column_names transactions_csv /\
    List.length mask = len transactions_csv /\
    index d = select mask (index transactions_csv) /\
    forall col s, col <> "amt"%string -> col <> "hour"%string ->
                  col <> "is_fraud"%string ->
                  getitem col transactions_csv = Returned s ->
                  getitem col d = Returned (select mask s).
Proof.
  apply (load_data_keeps_columns (disk transactions_csv) integer_literal cast_refused
           file_path_to_csv transactions_csv initial loaded_state 0%nat).
  - reflexivity.
  - exact transactions_csv_well_formed.
  - vm_compute. reflexivity.
Defined.

(** ** The whole page *)

Lemma dashboard_unfold (pd_read_csv : string -> csv_result)
  (str_to_num : string -> option num)
  (cast_error : Series -> cast_failure) (inp : user_input) (st : state) :
  dashboard pd_read_csv str_to_num cast_error inp st
  = bind (load_data pd_read_csv str_to_num cast_error file_path_to_csv) (fun df =>
      emit (SidebarHeader "Filters") ;;
      hours <- time_range df inp ;;
      amounts <- amount_range df inp ;;
      options <- unique_categories df ;;
      categories <- merchant_category options inp ;;
      filtered <- df_filtered df hours amounts categories ;;
      visualizations df filtered)
      (mkState (heap st) (page st ++ page_header)).
Proof.
  unfold dashboard. rewrite !bind_emit. cbn [heap page].
  unfold page_header. now rewrite <- app_assoc.
Qed.

(** X10.  When the file lacks a required column the page is the title and
    the one error naming the first such column: no widget and no chart is
    written, and the frame read is left as it was. *)
Theorem dashboard_missing_column (pd_read_csv : string -> csv_result)
  (str_to_num : string -> option num)
  (cast_error : Series -> cast_failure) (inp : user_input) (raw : DataFrame)
  (first : string) (st : state) :
  pd_read_csv file_path_to_csv = CsvFrame raw ->
  first_missing raw = Some first ->
  dashboard pd_read_csv str_to_num cast_error inp st
  = (Stopped,
     mkState (heap st ++ [raw])
       (page st ++ page_header ++ [StError (missing_column_message first)])).
Proof.
  intros Hread Hfirst. rewrite dashboard_unfold.
  rewrite (bind_stopped _ _ _ _
             (load_data_stops_at_first_missing pd_read_csv str_to_num cast_error _ raw first _
                Hread Hfirst)).
  cbn [heap page]. now rewrite <- app_assoc.
Qed.

Lemma dashboard_missing_column_witness :
  dashboard (disk without_amt) integer_literal cast_refused no_input initial
  = (Stopped,
     mkState (heap initial ++ [without_amt])
       (page initial ++ page_header ++ [StError (missing_column_message "amt")])).
Proof.
  apply (dashboard_missing_column (disk without_amt) integer_literal cast_refused no_input
           without_amt "amt" initial).
  - reflexivity.
  - reflexivity.
Defined.

Lemma getitem_no_rows (col : string) (d : DataFrame) (s : Series) :
  well_formed d -> len d = 0%nat -> getitem col d = Returned s -> s = [].
Proof.
  intros Hwf Hlen Hs. pose proof (getitem_length col d s Hwf Hs) as H.
  rewrite Hlen in H. now destruct s.
Qed.

Lemma select_nil {A : Type} (m : list bool) : select m ([] : list A) = [].
Proof. now destruct m as [|[] m]. Qed.

Lemma load_data_no_rows (pd_read_csv : string -> csv_result)
  (str_to_num : string -> option num)
  (cast_error : Series -> cast_failure) (file_path : string) (raw : DataFrame)
  (st : state) :
  pd_read_csv file_path = CsvFrame raw -> well_formed raw ->
  first_missing raw = None -> len raw = 0%nat ->
  exists d,
    load_data pd_read_csv str_to_num cast_error file_path st
    = (Returned (List.length (heap st)), mkState (heap st ++ [d]) (page st)) /\
    dataset d /\ len d = 0%nat /\ has_column "weekday" d = true.
Proof.
  intros Hread Hwf Hnone Hlen.
  destruct (getitem_required "amt" raw Hnone) as [amt Hamt]; [simpl; tauto|].
  destruct (getitem_required "hour" raw Hnone) as [hour Hhour]; [simpl; tauto|].
  pose proof (getitem_no_rows _ _ _ Hwf Hlen Hamt) as ->.
  pose proof (getitem_no_rows _ _ _ Hwf Hlen Hhour) as ->.
  set (coerced := setitem "hour" [] (setitem "amt" [] raw)).
  assert (Hco : coerce_columns str_to_num cast_error raw = Returned coerced).
  { unfold coerce_columns. rewrite Hamt. cbn [obind to_numeric forallb].
    rewrite getitem_setitem_other by discriminate. rewrite Hhour. reflexivity. }
  destruct (coerce_columns_dataset str_to_num cast_error raw coerced Hwf Hnone Hco)
    as (Hds & Hnames & Hix & _).
  pose proof (ds_well_formed _ Hds) as Hwfc.
  destruct (ds_hour _ Hds) as (hs & Hh & _). destruct (ds_amt _ Hds) as (ams & Ha & _).
  pose proof (dropna_retained coerced ams hs Hwfc Ha Hh) as Hdrop.
  set (dropped := take_rows (retained coerced) coerced) in *.
  pose proof (dataset_take_rows (retained coerced) coerced Hds) as Hds'.
  fold dropped in Hds'.
  assert (Hlen' : len dropped = 0%nat).
  { unfold len, dropped, take_rows; cbn [index]. rewrite Hix.
    unfold len in Hlen. apply length_zero_iff_nil in Hlen. rewrite Hlen.
    now rewrite select_nil. }
  assert (Hflags : exists final, with_flags dropped = Returned final).
  { unfold with_flags. destruct (has_column "is_fraud" dropped) eqn:E; [|eauto].
    destruct (has_column_getitem _ _ E) as [s Hs]. rewrite Hs.
    pose proof (getitem_no_rows _ _ _ (ds_well_formed _ Hds') Hlen' Hs) as ->.
    cbn. eauto. }
  destruct Hflags as [final Hflags].
  destruct (with_flags_dataset _ final Hds' Hflags) as (Hdsf & Hnames' & Hix' & _).
  exists final. split; [|split; [exact Hdsf|split]].
  - rewrite (load_data_returns pd_read_csv str_to_num cast_error file_path raw coerced dropped final
               st Hread Hnone Hco Hdrop Hflags).
    unfold removed_rows_warning. rewrite Hlen, Hlen'. cbn. now rewrite app_nil_r.
  - unfold len. rewrite Hix'. exact Hlen'.
  - rewrite (has_column_names _ dropped final Hnames').
    unfold dropped. rewrite has_column_take_rows.
    rewrite (has_column_names _ raw coerced Hnames).
    apply has_column_required; [exact Hnone | simpl; tauto].
Qed.

(** X11.  A file with the required columns and no row: the run completes,
    the sliders get their fallback bounds (0 to 23, 0.0 to 1000.0), the
    multiselect has no option, and the main area holds the two warnings, no
    data available and no data matching, and no chart. *)
Theorem dashboard_without_rows (pd_read_csv : string -> csv_result)
  (str_to_num : string -> option num)
  (cast_error : Series -> cast_failure) (inp : user_input) (raw : DataFrame)
  (st : state) :
  pd_read_csv file_path_to_csv = CsvFrame raw -> well_formed raw ->
  first_missing raw = None -> len raw = 0%nat ->
  exists st',
    dashboard pd_read_csv str_to_num cast_error inp st = (Returned tt, st') /\
    page st'
    = page st ++ page_header ++ sidebar 0 23 0 1000 []
      ++ [StWarning no_data_message; StWarning no_match_message].
Proof.
  intros Hread Hwf Hnone Hlen. rewrite dashboard_unfold.
  destruct (load_data_no_rows pd_read_csv str_to_num cast_error file_path_to_csv raw
              (mkState (heap st) (page st ++ page_header)) Hread Hwf Hnone Hlen)
    as (d & Hload & Hds & Hlend & Hweek).
  rewrite (bind_returned _ _ _ _ _ Hload). cbn [heap page].
  destruct (ds_hour _ Hds) as (hour & Hhour & _).
  destruct (ds_amt _ Hds) as (amt & Hamt & _).
  destruct (ds_category _ Hds) as (category & Hcat).
  pose proof (getitem_no_rows _ _ _ (ds_well_formed _ Hds) Hlend Hhour) as ->.
  pose proof (getitem_no_rows _ _ _ (ds_well_formed _ Hds) Hlend Hamt) as ->.
  pose proof (getitem_no_rows _ _ _ (ds_well_formed _ Hds) Hlend Hcat) as ->.
  set (st1 := mkState (heap st ++ [d]) (page st ++ page_header)).
  assert (Hd : nth_error (heap st1) (List.length (heap st)) = Some d)
    by apply nth_error_last.
  destruct (sidebar_run d (List.length (heap st)) inp st1 [] [] [] Hd Hhour
              (Forall_nil _) (fun z H => match H with end) Hamt (Forall_nil _)
              (fun x H => match H with end) Hcat (Forall_nil _))
    as (lo & hi & alo & ahi & options & Hh0 & _ & Ha0 & _ & _ & Hin & Hrest).
  destruct Hh0 as [-> ->]; [intros c []|]. destruct Ha0 as [-> ->]; [intros c []|].
  assert (options = []) as ->.
  { destruct options as [|c r]; [reflexivity|]. destruct (proj1 (Hin c)). now left. }
  destruct (Hrest (fun hours amounts categories =>
                     filtered <- df_filtered (List.length (heap st)) hours amounts
                                   categories ;;
                     visualizations (List.length (heap st)) filtered))
    as (Hdrawn & _).
  cbv zeta beta in Hdrawn. rewrite Hdrawn by (lia || reflexivity).
  set (st2 := mkState (heap st1) (page st1 ++ sidebar 0 23 0 1000 [])).
  assert (Hd2 : nth_error (heap st2) (List.length (heap st)) = Some d) by exact Hd.
  destruct (main_run d (List.length (heap st)) (selected_hours inp 0 23)
              (selected_amounts inp 0 1000) (selected_categories inp []) st2
              Hd2 Hds Hweek) as (available & Hmain & _).
  assert (He : empty d = true) by (unfold empty; now rewrite Hlend).
  rewrite He in Hmain. cbv zeta in Hmain. rewrite Hmain.
  eexists. split; [reflexivity|]. unfold st2, st1; cbn [heap page].
  unfold main_area. cbn [empty_frame empty len index columns List.length Nat.eqb orb].
  now rewrite <- !app_assoc.
Qed.

Lemma dashboard_without_rows_witness :
  exists st',
    dashboard (disk header_only) integer_literal cast_refused no_input initial
    = (Returned tt, st') /\
    page st'
    = page initial ++ page_header ++ sidebar 0 23 0 1000 []
      ++ [StWarning no_data_message; StWarning no_match_message].
Proof.
  apply (dashboard_without_rows (disk header_only) integer_literal cast_refused no_input
           header_only initial).
  - reflexivity.
  - split; [repeat constructor | repeat constructor; simpl; intuition discriminate].
  - reflexivity.
  - reflexivity.
Defined.

Lemma nonempty_dataset (col : string) (d : DataFrame) (s : Series) (c : cell) :
  well_formed d -> getitem col d = Returned s -> In c s -> empty d = false.
Proof.
  intros Hwf Hs Hc. pose proof (getitem_length col d s Hwf Hs) as Hlen.
  unfold empty. apply orb_false_iff. split; apply Nat.eqb_neq.
  - rewrite <- Hlen. destruct s; [destruct Hc | discriminate].
  - unfold getitem in Hs. destruct (columns d); [discriminate Hs | discriminate].
Qed.

Lemma selected_frame_rows (hours : Z * Z) (amounts : float * float)
  (categories : list cell) (d : DataFrame) :
  dataset d ->
  rows (if empty d then empty_frame
        else take_rows (map (satisfiesb hours amounts categories) (rows d)) d)
  = filter (satisfiesb hours amounts categories) (rows d).
Proof.
  intros Hds. destruct (empty d) eqn:He.
  - now rewrite (empty_dataset_rows d Hds He).
  - apply filtered_rows, Hds.
Qed.

(** The page of a run on a loaded dataset with hours and amounts that
    JavaScript can hold, a float64 [amt] column and text categories, in which
    two hours differ and two amounts differ, with what the widgets were drawn
    with. *)
Lemma dashboard_run (pd_read_csv : string -> csv_result)
  (str_to_num : string -> option num) (cast_error : Series -> cast_failure)
  (inp : user_input) (raw d : DataFrame) (hour amt category : Series)
  (a b : Z) (x y : float) (st st' : state) (df : loc) :
  pd_read_csv file_path_to_csv = CsvFrame raw -> well_formed raw ->
  load_data pd_read_csv str_to_num cast_error file_path_to_csv
    (mkState (heap st) (page st ++ page_header)) = (Returned df, st') ->
  nth_error (heap st') df = Some d ->
  getitem "hour" d = Returned hour ->
  (forall z, In (VInt z) hour -> js_safe_int z = true) ->
  In (VInt a) hour -> In (VInt b) hour -> a < b ->
  getitem "amt" d = Returned amt -> Forall float_cell amt ->
  (forall v, In (VFloat v) amt -> PrimFloat.is_infinity v = false) ->
  In (VFloat x) amt -> In (VFloat y) amt -> PrimFloat.ltb x y = true ->
  getitem "category" d = Returned category -> Forall is_text category ->
  dataset d /\
  Forall (fun c => isnull c = false) hour /\
  Forall (fun c => isnull c = false) amt /\
  exists lo hi alo ahi options available,
    let hours := selected_hours inp lo hi in
    let amounts := selected_amounts inp alo ahi in
    let categories := selected_categories inp options in
    let f := take_rows (map (satisfiesb hours amounts categories) (rows d)) d in
    dashboard pd_read_csv str_to_num cast_error inp st
    = (Returned tt,
       mkState (heap st' ++ [f; f])
         (page st' ++ sidebar lo hi alo ahi options ++ main_area f available)) /\
    (forall z, In (VInt z) hour -> lo <= z <= hi) /\
    (forall v, In (VFloat v) amt -> PrimFloat.is_nan v = false ->
               PrimFloat.leb alo v = true /\ PrimFloat.leb v ahi = true) /\
    (forall c, In c options <-> In c category) /\
    (empty f = false -> (available = true <-> fraud_available d f)).
Proof.
  intros Hread Hwf Hload Hd Hhour Hsafe Ha Hb Hab Hamt Hfloat Hfin Hx Hy Hxy Hcat Htext.
  destruct (loaded_frame _ _ _ _ _ _ _ _ Hread Hwf Hload)
    as (coerced & d' & _ & Hdf & Hst & Hds & Hnn & Hnames & Hnone & _).
  assert (d' = d) as ->.
  { rewrite Hst, Hdf in Hd. cbn [heap] in Hd. rewrite nth_error_last in Hd. congruence. }
  split; [exact Hds|]. split; [apply (Hnn "hour"%string); auto|].
  split; [apply (Hnn "amt"%string); auto|].
  assert (Hweek : has_column "weekday" d = true).
  { rewrite (has_column_names _ raw d Hnames).
    apply has_column_required; [exact Hnone | simpl; tauto]. }
  assert (Hh64 : Forall int64_cell hour).
  { destruct (ds_hour _ Hds) as (s & Hs & Hs'). congruence. }
  destruct (sidebar_run d df inp st' hour amt category Hd Hhour Hh64 Hsafe Hamt
              Hfloat Hfin Hcat Htext)
    as (lo & hi & alo & ahi & options & _ & Hh1 & _ & Ha1 & _ & Hin & Hrest).
  destruct Hh1 as (_ & _ & Hbounds); [exists (VInt a); auto|].
  destruct (float_ltb_not_nan _ _ Hxy) as [Hxn Hyn].
  destruct Ha1 as (_ & _ & Habounds); [exists (VFloat x); auto|].
  assert (Hlt : lo < hi).
  { specialize (Hbounds a Ha) as Hla. specialize (Hbounds b Hb) as Hlb. lia. }
  assert (Halt : PrimFloat.ltb alo ahi = true).
  { apply (float_ltb_between alo x y ahi); [|exact Hxy|].
    - now apply Habounds.
    - now apply Habounds. }
  destruct (Hrest (fun hours amounts categories =>
                     filtered <- df_filtered df hours amounts categories ;;
                     visualizations df filtered))
    as (Hdrawn & _).
  cbv zeta beta in Hdrawn. specialize (Hdrawn Hlt Halt).
  set (st2 := mkState (heap st') (page st' ++ sidebar lo hi alo ahi options)) in *.
  assert (Hd2 : nth_error (heap st2) df = Some d) by exact Hd.
  destruct (main_run d df (selected_hours inp lo hi) (selected_amounts inp alo ahi)
              (selected_categories inp options) st2 Hd2 Hds Hweek)
    as (available & Hmain & Hav).
  rewrite (nonempty_dataset "hour" d hour (VInt a) (ds_well_formed _ Hds) Hhour Ha)
    in Hmain, Hav.
  cbv zeta in Hmain, Hav. cbn [app] in Hmain.
  exists lo, hi, alo, ahi, options, available. cbv zeta.
  split; [|split; [exact Hbounds|split; [exact Habounds|split; [exact Hin|exact Hav]]]].
  rewrite dashboard_unfold, (bind_returned _ _ _ _ _ Hload), Hdrawn, Hmain.
  unfold st2; cbn [heap page]. now rewrite <- app_assoc.
Qed.

(** X12.  When the load returns a dataset with hours and amounts that
    JavaScript can hold, a float64 [amt] column and text categories, in which
    two hours differ and two amounts differ, the run completes for every
    state of the widgets: below what the load wrote,
    the page holds the sidebar and the main area of one frame, whose rows
    are exactly the rows of the dataset that satisfy the selection the
    widgets answered with. *)
Theorem dashboard_shows_selected_rows (pd_read_csv : string -> csv_result)
  (str_to_num : string -> option num) (cast_error : Series -> cast_failure)
  (inp : user_input) (raw d : DataFrame) (hour amt category : Series)
  (a b : Z) (x y : float) (st st' : state) (df : loc) :
  pd_read_csv file_path_to_csv = CsvFrame raw -> well_formed raw ->
  load_data pd_read_csv str_to_num cast_error file_path_to_csv
    (mkState (heap st) (page st ++ page_header)) = (Returned df, st') ->
  nth_error (heap st') df = Some d ->
  getitem "hour" d = Returned hour ->
  (forall z, In (VInt z) hour -> js_safe_int z = true) ->
  In (VInt a) hour -> In (VInt b) hour -> a < b ->
  getitem "amt" d = Returned amt -> Forall float_cell amt ->
  (forall v, In (VFloat v) amt -> PrimFloat.is_infinity v = false) ->
  In (VFloat x) amt -> In (VFloat y) amt -> PrimFloat.ltb x y = true ->
  getitem "category" d = Returned category -> Forall is_text category ->
  exists lo hi alo ahi options available,
    let hours := selected_hours inp lo hi in
    let amounts := selected_amounts inp alo ahi in
    let categories := selected_categories inp options in
    let f := take_rows (map (satisfiesb hours amounts categories) (rows d)) d in
    dashboard pd_read_csv str_to_num cast_error inp st
    = (Returned tt,
       mkState (heap st' ++ [f; f])
         (page st' ++ sidebar lo hi alo ahi options ++ main_area f available)) /\
    rows f = filter (satisfiesb hours amounts categories) (rows d).
Proof.
  intros Hread Hwf Hload Hd Hhour Hsafe Ha Hb Hab Hamt Hfloat Hfin Hx Hy Hxy Hcat Htext.
  destruct (dashboard_run pd_read_csv str_to_num cast_error inp raw d hour amt
              category a b x y st st' df Hread Hwf Hload Hd Hhour Hsafe Ha Hb Hab
              Hamt Hfloat Hfin Hx Hy Hxy Hcat Htext)
    as (Hds & _ & _ & lo & hi & alo & ahi & options & available & Hrun & _).
  exists lo, hi, alo, ahi, options, available. cbv zeta in *.
  split; [exact Hrun | apply filtered_rows, Hds].
Qed.

Lemma dashboard_shows_selected_rows_witness :
  exists lo hi alo ahi options available,
    let hours := selected_hours (mkInput (Some (3, 7)) None None) lo hi in
    let amounts := selected_amounts (mkInput (Some (3, 7)) None None) alo ahi in
    let categories := selected_categories (mkInput (Some (3, 7)) None None) options in
    let f := take_rows (map (satisfiesb hours amounts categories)
                          (rows loaded_transactions)) loaded_transactions in
    dashboard (disk transactions_csv) integer_literal cast_refused
      (mkInput (Some (3, 7)) None None) initial
    = (Returned tt,
       mkState (heap (mkState [loaded_transactions]
                        (page_header ++ [StWarning (removed_rows_message 2)]))
                ++ [f; f])
         (page (mkState [loaded_transactions]
                  (page_header ++ [StWarning (removed_rows_message 2)]))
          ++ sidebar lo hi alo ahi options ++ main_area f available)) /\
    rows f = filter (satisfiesb hours amounts categories) (rows loaded_transactions).
Proof.
  apply (dashboard_shows_selected_rows (disk transactions_csv) integer_literal
           cast_refused (mkInput (Some (3, 7)) None None) transactions_csv
           loaded_transactions
           [VInt 3; VInt 7; VInt 22; VInt 7]
           [VFloat 10; VFloat 100; VFloat 500; VFloat 1000]
           [VStr "grocery"; VStr "gas"; VStr "travel"; VStr "grocery"]
           3 7 10%float 100%float initial
           (mkState [loaded_transactions]
              (page_header ++ [StWarning (removed_rows_message 2)]))
           0%nat).
  - reflexivity.
  - exact transactions_csv_well_formed.
  - vm_compute. reflexivity.
  - reflexivity.
  - vm_compute. reflexivity.
  - intros z [H|[H|[H|[H|[]]]]]; injection H as <-; reflexivity.
  - simpl. tauto.
  - simpl. tauto.
  - lia.
  - vm_compute. reflexivity.
  - repeat constructor.
  - intros v [H|[H|[H|[H|[]]]]]; injection H as <-; reflexivity.
  - simpl. tauto.
  - simpl. tauto.
  - reflexivity.
  - vm_compute. reflexivity.
  - repeat constructor.
Defined.

Lemma all_rows_selected (hours : Z * Z) (amounts : float * float)
  (categories : list cell) (d : DataFrame) (hour amt category : Series) :
  well_formed d ->
  getitem "hour" d = Returned hour -> getitem "amt" d = Returned amt ->
  getitem "category" d = Returned category ->
  (forall c, In c hour -> hour_withinb (fst hours) (snd hours) c = true) ->
  (forall c, In c amt -> amt_withinb (fst amounts) (snd amounts) c = true) ->
  (forall c, In c category -> existsb (cell_eqb c) categories = true) ->
  take_rows (map (satisfiesb hours amounts categories) (rows d)) d = d.
Proof.
  intros Hwf Hhour Hamt Hcat Hh Ha Hc. apply take_rows_all; [exact Hwf| |].
  - rewrite length_map. now apply rows_length.
  - apply Forall_forall. intros b Hb. apply in_map_iff in Hb.
    destruct Hb as (r & <- & Hr).
    pose proof (rows_have_field "hour" d hour Hwf Hhour) as Fh.
    pose proof (rows_have_field "amt" d amt Hwf Hamt) as Fa.
    pose proof (rows_have_field "category" d category Hwf Hcat) as Fc.
    rewrite Forall_forall in Fh, Fa, Fc.
    unfold satisfiesb. rewrite (Fh r Hr), (Fa r Hr), (Fc r Hr).
    rewrite Hh, Ha, Hc; [reflexivity| | |].
    + rewrite <- (rows_column "category" d category Hwf Hcat). now apply in_map.
    + rewrite <- (rows_column "amt" d amt Hwf Hamt). now apply in_map.
    + rewrite <- (rows_column "hour" d hour Hwf Hhour). now apply in_map.
Qed.

(** X13.  With the widgets untouched, a loaded dataset with hours and
    amounts that JavaScript can hold, a float64 [amt] column and text
    categories, in which two hours differ and two amounts differ, is charted
    whole: the default selection keeps every row, so the
    main area is drawn from the dataset itself. *)
Theorem dashboard_default_selection (pd_read_csv : string -> csv_result)
  (str_to_num : string -> option num) (cast_error : Series -> cast_failure)
  (raw d : DataFrame) (hour amt category : Series)
  (a b : Z) (x y : float) (st st' : state) (df : loc) :
  pd_read_csv file_path_to_csv = CsvFrame raw -> well_formed raw ->
  load_data pd_read_csv str_to_num cast_error file_path_to_csv
    (mkState (heap st) (page st ++ page_header)) = (Returned df, st') ->
  nth_error (heap st') df = Some d ->
  getitem "hour" d = Returned hour ->
  (forall z, In (VInt z) hour -> js_safe_int z = true) ->
  In (VInt a) hour -> In (VInt b) hour -> a < b ->
  getitem "amt" d = Returned amt -> Forall float_cell amt ->
  (forall v, In (VFloat v) amt -> PrimFloat.is_infinity v = false) ->
  In (VFloat x) amt -> In (VFloat y) amt -> PrimFloat.ltb x y = true ->
  getitem "category" d = Returned category -> Forall is_text category ->
  exists lo hi alo ahi options available,
    dashboard pd_read_csv str_to_num cast_error no_input st
    = (Returned tt,
       mkState (heap st' ++ [d; d])
         (page st' ++ sidebar lo hi alo ahi options ++ main_area d available)).
Proof.
  intros Hread Hwf Hload Hd Hhour Hsafe Ha Hb Hab Hamt Hfloat Hfin Hx Hy Hxy Hcat Htext.
  destruct (dashboard_run pd_read_csv str_to_num cast_error no_input raw d hour amt
              category a b x y st st' df Hread Hwf Hload Hd Hhour Hsafe Ha Hb Hab
              Hamt Hfloat Hfin Hx Hy Hxy Hcat Htext)
    as (Hds & Hhn & Han & lo & hi & alo & ahi & options & available & Hrun
        & Hbounds & Habounds & Hin & _).
  exists lo, hi, alo, ahi, options, available. cbv zeta in Hrun. rewrite Hrun.
  rewrite (all_rows_selected _ _ _ d hour amt category (ds_well_formed _ Hds)
             Hhour Hamt Hcat); [reflexivity| | |].
  - intros c Hc. destruct (ds_hour _ Hds) as (s & Hs & H64).
    rewrite Hhour in Hs. injection Hs as <-.
    rewrite Forall_forall in H64, Hhn. specialize (H64 c Hc). specialize (Hhn c Hc).
    destruct c as [z| | | |]; simpl in H64, Hhn; try contradiction; try discriminate.
    cbn. destruct (Hbounds z Hc).
    apply andb_true_intro. split; now apply Z.leb_le.
  - intros c Hc. pose proof Hfloat as Hfloat'. rewrite Forall_forall in Hfloat', Han.
    specialize (Hfloat' c Hc). specialize (Han c Hc).
    destruct c as [ |v| | | ]; simpl in Hfloat', Han; try contradiction.
    cbn. destruct (Habounds v Hc Han) as [-> ->]. reflexivity.
  - intros c Hc. rewrite Forall_forall in Htext. specialize (Htext c Hc).
    destruct c as [ | |s| | ]; simpl in Htext; try contradiction.
    apply seen_text. cbn. now apply Hin.
Qed.

Lemma dashboard_default_selection_witness :
  exists lo hi alo ahi options available,
    dashboard (disk transactions_csv) integer_literal cast_refused no_input initial
    = (Returned tt,
       mkState (heap (mkState [loaded_transactions]
                        (page_header ++ [StWarning (removed_rows_message 2)]))
                ++ [loaded_transactions; loaded_transactions])
         (page (mkState [loaded_transactions]
                  (page_header ++ [StWarning (removed_rows_message 2)]))
          ++ sidebar lo hi alo ahi options
          ++ main_area loaded_transactions available)).
Proof.
  apply (dashboard_default_selection (disk transactions_csv) integer_literal
           cast_refused transactions_csv loaded_transactions
           [VInt 3; VInt 7; VInt 22; VInt 7]
           [VFloat 10; VFloat 100; VFloat 500; VFloat 1000]
           [VStr "grocery"; VStr "gas"; VStr "travel"; VStr "grocery"]
           3 7 10%float 100%float initial
           (mkState [loaded_transactions]
              (page_header ++ [StWarning (removed_rows_message 2)]))
           0%nat).
  - reflexivity.
  - exact transactions_csv_well_formed.
  - vm_compute. reflexivity.
  - reflexivity.
  - vm_compute. reflexivity.
  - intros z [H|[H|[H|[H|[]]]]]; injection H as <-; reflexivity.
  - simpl. tauto.
  - simpl. tauto.
  - lia.
  - vm_compute. reflexivity.
  - repeat constructor.
  - intros v [H|[H|[H|[H|[]]]]]; injection H as <-; reflexivity.
  - simpl. tauto.
  - simpl. tauto.
  - reflexivity.
  - vm_compute. reflexivity.
  - repeat constructor.
Defined.

(** ** The main area *)

Lemma none_selected (hours : Z * Z) (amounts : float * float) (d : DataFrame) :
  dataset d ->
  empty (take_rows (map (satisfiesb hours amounts []) (rows d)) d) = true.
Proof.
  intros Hds. rewrite (empty_take_rows _ d Hds).
  rewrite <- (rows_length _ (take_rows_well_formed _ _ (ds_well_formed _ Hds))).
  rewrite (filtered_rows _ _ _ d (ds_well_formed _ Hds)).
  assert (H : filter (satisfiesb hours amounts []) (rows d) = []).
  { induction (rows d) as [|r l IH]; [reflexivity|]. simpl. rewrite IH.
    unfold satisfiesb.
    destruct (field "hour" (snd r)), (field "amt" (snd r)), (field "category" (snd r));
      try reflexivity. cbn [existsb]. now rewrite andb_false_r. }
  now rewrite H.
Qed.

(** X14.  When no category is selected no row is selected, whatever the two
    ranges are: the filter step and the drawing step write the warning that
    no data matches (after the warning that no data is available, for a
    dataset without rows), and no chart. *)
Theorem no_category_selected (df : loc) (d : DataFrame) (hours : Z * Z)
  (amounts : float * float) (st : state) :
  nth_error (heap st) df = Some d -> dataset d ->
  exists st',
    (filtered <- df_filtered df hours amounts [] ;;
     visualizations df filtered) st = (Returned tt, st') /\
    page st'
    = page st ++ (if empty d then [StWarning no_data_message] else [])
      ++ [StWarning no_match_message].
Proof.
  intros Hdf Hds.
  unfold df_filtered. rewrite bind_assoc, (bind_frame _ _ _ _ Hdf).
  destruct (empty d) eqn:Hempty; cbn [negb].
  - rewrite bind_assoc, bind_new_frame. cbn beta.
    rewrite bind_assoc, bind_emit. cbn beta. rewrite bind_ret.
    unfold visualizations. cbn [heap page].
    rewrite bind_frame_last. cbn [empty_frame empty len index columns List.length
                                    Nat.eqb orb negb].
    eexists. split; [reflexivity|]. cbn [page]. now rewrite <- app_assoc.
  - set (f := take_rows (map (satisfiesb hours amounts []) (rows d)) d).
    pose proof (apply_filters_run df d hours amounts [] st Hdf Hds) as Hrun.
    cbv zeta in Hrun. fold f in Hrun.
    rewrite (bind_returned _ _ _ _ _ Hrun).
    unfold visualizations. rewrite (bind_frame _ f) by apply nth_error_last.
    unfold f. rewrite none_selected by exact Hds. cbn [negb].
    eexists. split; [reflexivity|]. reflexivity.
Qed.

Lemma no_category_selected_witness :
  exists st',
    (filtered <- df_filtered 0%nat (1, 20) (10%float, 1000%float) [] ;;
     visualizations 0%nat filtered) (one_frame transactions) = (Returned tt, st') /\
    page st'
    = page (one_frame transactions)
      ++ (if empty transactions then [StWarning no_data_message] else [])
      ++ [StWarning no_match_message].
Proof.
  apply (no_category_selected 0%nat transactions (1, 20) (10%float, 1000%float)
           (one_frame transactions)).
  - reflexivity.
  - exact transactions_dataset.
Defined.

Lemma fraud_available_loaded (pd_read_csv : string -> csv_result)
  (str_to_num : string -> option num)
  (cast_error : Series -> cast_failure) (file_path : string) (raw d : DataFrame)
  (st st' : state) (df : loc) (m : list bool) :
  pd_read_csv file_path = CsvFrame raw -> well_formed raw ->
  load_data pd_read_csv str_to_num cast_error file_path st = (Returned df, st') ->
  nth_error (heap st') df = Some d ->
  empty (take_rows m d) = false ->
  (fraud_available d (take_rows m d) <-> has_column "is_fraud" raw = true).
Proof.
  intros Hread Hwf Hload Hd Hne.
  destruct (loaded_frame _ _ _ _ _ _ _ _ Hread Hwf Hload)
    as (coerced & d' & _ & Hdf & Hst & Hds & _ & Hnames & _).
  assert (d' = d) as ->.
  { rewrite Hst, Hdf in Hd. cbn [heap] in Hd. rewrite nth_error_last in Hd. congruence. }
  rewrite <- (has_column_names "is_fraud" raw d Hnames).
  split; [now intros [H _]|]. intros Hcol. split; [exact Hcol|].
  rewrite (has_column_names "is_fraud" raw d Hnames) in Hcol.
  destruct (has_column_getitem _ _ Hcol) as [source Hsrc].
  destruct (loaded_flags pd_read_csv str_to_num cast_error file_path raw source st st' df
              Hread Hwf Hsrc Hload)
    as (coerced' & d' & flags & _ & Hd' & _ & Hflags & Hnorm).
  rewrite Hd in Hd'. injection Hd' as <-.
  assert (Hnn : Forall (fun v => isnull v = false) flags).
  { clear - Hnorm. induction Hnorm as [|c v s r Hcv _ IH]; constructor; [|exact IH].
    apply normalised_flag in Hcv. now destruct v. }
  pose proof (getitem_take_rows "is_fraud" m d flags Hflags) as Hsel.
  pose proof (take_rows_well_formed m d (ds_well_formed d Hds)) as Hwf'.
  pose proof (getitem_length _ _ _ Hwf' Hsel) as Hlen.
  destruct (select m flags) as [|c s] eqn:Hs.
  - exfalso. unfold empty in Hne. apply orb_false_iff in Hne.
    destruct Hne as [Hne _]. apply Nat.eqb_neq in Hne. simpl in Hlen. congruence.
  - exists (c :: s), c. split; [exact Hsel|]. split; [now left|].
    assert (Hall : Forall (fun v => isnull v = false) (c :: s)).
    { rewrite <- Hs. now apply select_Forall. }
    now inversion Hall.
Qed.

(** X15.  On a loaded dataset the last section of the main area is decided
    by the file: for every selection that keeps a row, the fraud chart is
    drawn when the file read has an [is_fraud] column and the notice that
    the column is unavailable is written when it has none.  After loading,
    the test of line 159 on the filtered values never fails. *)
Theorem fraud_section_follows_column (pd_read_csv : string -> csv_result)
  (str_to_num : string -> option num) (cast_error : Series -> cast_failure)
  (file_path : string) (raw d : DataFrame) (st0 st1 st : state) (df : loc)
  (hours : Z * Z) (amounts : float * float) (categories : list cell) :
  pd_read_csv file_path = CsvFrame raw -> well_formed raw ->
  load_data pd_read_csv str_to_num cast_error file_path st0 = (Returned df, st1) ->
  nth_error (heap st1) df = Some d ->
  nth_error (heap st) df = Some d ->
  exists st',
    let f := if empty d then empty_frame
             else take_rows (map (satisfiesb hours amounts categories) (rows d)) d in
    (filtered <- df_filtered df hours amounts categories ;;
     visualizations df filtered) st = (Returned tt, st') /\
    page st'
    = page st ++ (if empty d then [StWarning no_data_message] else [])
      ++ main_area f (has_column "is_fraud" raw).
Proof.
  intros Hread Hwf Hload Hd1 Hd.
  destruct (loaded_frame _ _ _ _ _ _ _ _ Hread Hwf Hload)
    as (coerced & d' & _ & Hdf & Hst & Hds & _ & Hnames & Hnone & _).
  assert (d' = d) as ->.
  { rewrite Hst, Hdf in Hd1. cbn [heap] in Hd1. rewrite nth_error_last in Hd1.
    congruence. }
  assert (Hweek : has_column "weekday" d = true).
  { rewrite (has_column_names _ raw d Hnames).
    apply has_column_required; [exact Hnone | simpl; tauto]. }
  destruct (main_run d df hours amounts categories st Hd Hds Hweek)
    as (available & Hmain & Hav).
  eexists. cbv zeta in *. split; [exact Hmain|]. cbn [page]. do 2 f_equal.
  unfold main_area.
  destruct (empty d) eqn:He; [reflexivity|].
  destruct (empty (take_rows _ d)) eqn:Hf; [reflexivity|].
  f_equal. f_equal.
  pose proof (fraud_available_loaded _ _ _ _ _ _ _ _ _ _ Hread Hwf Hload Hd1 Hf) as Hiff.
  specialize (Hav eq_refl).
  destruct available, (has_column "is_fraud" raw); try reflexivity.
  - exfalso. assert (E : false = true) by (apply Hiff, Hav; reflexivity).
    discriminate.
  - exfalso. assert (E : false = true) by (apply Hav, Hiff; reflexivity).
    discriminate.
Qed.

Lemma fraud_section_follows_column_witness :
  exists st',
    let f := if empty loaded_transactions then empty_frame
             else take_rows (map (satisfiesb (3, 7) (10%float, 500%float)
                                    [VStr "gas"; VStr "grocery"])
                               (rows loaded_transactions)) loaded_transactions in
    (filtered <- df_filtered 0%nat (3, 7) (10%float, 500%float)
                   [VStr "gas"; VStr "grocery"] ;;
     visualizations 0%nat filtered) loaded_state = (Returned tt, st') /\
    page st'
    = page loaded_state
      ++ (if empty loaded_transactions then [StWarning no_data_message] else [])
      ++ main_area f (has_column "is_fraud" transactions_csv).
Proof.
  apply (fraud_section_follows_column (disk transactions_csv) integer_literal
           cast_refused file_path_to_csv transactions_csv loaded_transactions
           initial loaded_state loaded_state 0%nat).
  - reflexivity.
  - exact transactions_csv_well_formed.
  - vm_compute. reflexivity.
  - reflexivity.
  - reflexivity.
Defined.

(** ** Sliders without a range *)

(** X17.  A loaded dataset in which every transaction has the same hour, a
    file with one transaction for one: the bounds of the hour slider are
    equal, the slider call raises, and the run ends with an exception below
    the header of the sidebar; no widget and no chart is written. *)
Theorem dashboard_single_hour (pd_read_csv : string -> csv_result)
  (str_to_num : string -> option num) (cast_error : Series -> cast_failure)
  (inp : user_input) (raw d : DataFrame) (hour : Series) (z : Z)
  (st st' : state) (df : loc) :
  pd_read_csv file_path_to_csv = CsvFrame raw -> well_formed raw ->
  load_data pd_read_csv str_to_num cast_error file_path_to_csv
    (mkState (heap st) (page st ++ page_header)) = (Returned df, st') ->
  nth_error (heap st') df = Some d ->
  getitem "hour" d = Returned hour ->
  In (VInt z) hour -> (forall c, In c hour -> c = VInt z) ->
  exists e,
    dashboard pd_read_csv str_to_num cast_error inp st
    = (Raised e, mkState (heap st') (page st' ++ [SidebarHeader "Filters"])) /\
    exn_kind e = StreamlitAPIException.
Proof.
  intros Hread Hwf Hload Hd Hhour Hz Hall.
  destruct (loaded_frame _ _ _ _ _ _ _ _ Hread Hwf Hload)
    as (coerced & d' & _ & Hdf & Hst & Hds & _).
  assert (d' = d) as ->.
  { rewrite Hst, Hdf in Hd. cbn [heap] in Hd. rewrite nth_error_last in Hd. congruence. }
  assert (Hh64 : Forall int64_cell hour).
  { destruct (ds_hour _ Hds) as (s & Hs & Hs'). congruence. }
  set (st1 := mkState (heap st') (page st' ++ [SidebarHeader "Filters"])).
  assert (Hd1 : nth_error (heap st1) df = Some d) by exact Hd.
  destruct (time_range_run df d hour inp st1 Hd1 Hhour Hh64)
    as (lo & hi & _ & Hbounds & _ & _ & Hrefused).
  destruct Hbounds as (Hlo & Hhi & _); [exists (VInt z); auto|].
  apply Hall in Hlo, Hhi. injection Hlo as ->. injection Hhi as ->.
  exists slider_refused. split; [|reflexivity].
  rewrite dashboard_unfold, (bind_returned _ _ _ _ _ Hload), bind_emit.
  fold st1. now rewrite (bind_raised _ _ _ _ _ (Hrefused eq_refl)).
Qed.

Lemma dashboard_single_hour_witness :
  exists e,
    dashboard (disk one_transaction) integer_literal cast_refused no_input initial
    = (Raised e,
       mkState (heap (mkState [one_transaction] page_header))
         (page (mkState [one_transaction] page_header)
          ++ [SidebarHeader "Filters"])) /\
    exn_kind e = StreamlitAPIException.
Proof.
  apply (dashboard_single_hour (disk one_transaction) integer_literal cast_refused
           no_input one_transaction one_transaction [VInt 5] 5 initial
           (mkState [one_transaction] page_header) 0%nat).
  - reflexivity.
  - split; [repeat constructor | repeat constructor; simpl; intuition discriminate].
  - vm_compute. reflexivity.
  - reflexivity.
  - reflexivity.
  - simpl. tauto.
  - intros c [<-|[]]. reflexivity.
Defined.



(** ** Narrowing a selection *)

Lemma filter_narrow {A : Type} (p q : A -> bool) (l : list A) :
  (forall x, q x = true -> p x = true) ->
  filter q l = filter q (filter p l).
Proof.
  intros H. induction l as [|x l IH]; [reflexivity|]. simpl.
  destruct (q x) eqn:Hq.
  - rewrite (H x Hq). simpl. now rewrite Hq, IH.
  - destruct (p x); simpl; [now rewrite Hq|exact IH].
Qed.

Lemma satisfiesb_narrow (hours hours' : Z * Z) (amounts amounts' : float * float)
  (categories categories' : list cell) (r : nat * list (string * cell)) :
  fst hours <= fst hours' -> snd hours' <= snd hours ->
  PrimFloat.leb (fst amounts) (fst amounts') = true ->
  PrimFloat.leb (snd amounts') (snd amounts) = true ->
  incl categories' categories ->
  satisfiesb hours' amounts' categories' r = true ->
  satisfiesb hours amounts categories r = true.
Proof.
  intros Hlo Hhi Halo Hahi Hincl. unfold satisfiesb.
  destruct (field "hour" (snd r)) as [h|]; [|discriminate].
  destruct (field "amt" (snd r)) as [a|]; [|discriminate].
  destruct (field "category" (snd r)) as [c|]; [|discriminate].
  rewrite !andb_true_iff. intros [[Hh Ha] Hc]. split; [split|].
  - destruct h; try discriminate. simpl in *.
    rewrite andb_true_iff, !Z.leb_le in *. lia.
  - unfold amt_withinb in *. destruct (cell_to_float a) as [x|]; [|discriminate].
    rewrite andb_true_iff in *. destruct Ha as [H1 H2]. split.
    + exact (float_leb_trans _ _ _ Halo H1).
    + exact (float_leb_trans _ _ _ H2 Hahi).
  - rewrite existsb_exists in *. destruct Hc as (t & Ht & Heq).
    exists t. split; [now apply Hincl | exact Heq].
Qed.

(** X16.  Narrowing a selection never adds a row: with narrower hour and
    amount ranges and fewer categories, the rows selected are the rows of the
    wider selection that satisfy the narrower one, in the same order. *)
Theorem apply_filters_narrowing (df : loc) (d : DataFrame)
  (hours hours' : Z * Z) (amounts amounts' : float * float)
  (categories categories' : list cell) (st : state) :
  nth_error (heap st) df = Some d -> dataset d ->
  fst hours <= fst hours' -> snd hours' <= snd hours ->
  PrimFloat.leb (fst amounts) (fst amounts') = true ->
  PrimFloat.leb (snd amounts') (snd amounts) = true ->
  incl categories' categories ->
  exists wide narrow st1 st2 f f',
    apply_filters df hours amounts categories st = (Returned wide, st1) /\
    nth_error (heap st1) wide = Some f /\
    apply_filters df hours' amounts' categories' st = (Returned narrow, st2) /\
    nth_error (heap st2) narrow = Some f' /\
    rows f' = filter (satisfiesb hours' amounts' categories') (rows f) /\
    subsequence (rows f') (rows f).
Proof.
  intros Hdf Hds Hlo Hhi Halo Hahi Hincl.
  pose proof (apply_filters_run df d hours amounts categories st Hdf Hds) as Hwide.
  pose proof (apply_filters_run df d hours' amounts' categories' st Hdf Hds) as Hnarrow.
  cbv zeta in Hwide, Hnarrow.
  do 6 eexists. split; [exact Hwide|]. split; [apply nth_error_last|].
  split; [exact Hnarrow|]. split; [apply nth_error_last|].
  rewrite !filtered_rows by apply Hds.
  assert (E : filter (satisfiesb hours' amounts' categories') (rows d)
              = filter (satisfiesb hours' amounts' categories')
                  (filter (satisfiesb hours amounts categories) (rows d))).
  { apply filter_narrow. intros r. now apply satisfiesb_narrow. }
  split; [exact E|]. rewrite E. apply subsequence_filter.
Qed.

Lemma apply_filters_narrowing_witness :
  exists wide narrow st1 st2 f f',
    apply_filters 0%nat (1, 20) (10%float, 1000%float)
      [VStr "A"; VStr "B"; VStr "C"] (one_frame transactions) = (Returned wide, st1) /\
    nth_error (heap st1) wide = Some f /\
    apply_filters 0%nat (1, 15) (10%float, 500%float) sample_categories
      (one_frame transactions) = (Returned narrow, st2) /\
    nth_error (heap st2) narrow = Some f' /\
    rows f' = filter (satisfiesb (1, 15) (10%float, 500%float) sample_categories) (rows f) /\
    subsequence (rows f') (rows f).
Proof.
  apply (apply_filters_narrowing 0%nat transactions (1, 20) (1, 15)
           (10%float, 1000%float) (10%float, 500%float)
           [VStr "A"; VStr "B"; VStr "C"] sample_categories (one_frame transactions)).
  - reflexivity.
  - exact transactions_dataset.
  - simpl. lia.
  - simpl. lia.
  - reflexivity.
  - reflexivity.
  - intros c [<-|[<-|[]]]; simpl; tauto.
Defined.
